(** * Expense tracker front end: the data-access and aggregation core

    A shallow embedding of [src/lib/api.ts] (HTTP client wrapper, resource
    clients, date normalisation) and of the data processing of
    [src/components/analytics/analytics-page.tsx] (full-range fetch loop,
    category totals, daily trend), together with the delete handlers of the
    list components.

    Conventions of the embedding:
    - JavaScript strings are [string]s; every string the program handles here
      (paths, method names, header names, dates) is ASCII, so a code unit is
      a character;
    - a time value is a [Z], milliseconds since the epoch; [None : option Z]
      stands for the time value [NaN] of an invalid [Date];
    - a plain object used as a dictionary is a [gmap string _]; a [Map]
      whose iteration order is observed is an association list in insertion
      order;
    - the host's time zone is a function [tza] from a UTC time value to the
      local offset in milliseconds ([LocalTZA] of ECMA-262). *)

From Stdlib Require Import ZArith Lia List Bool Ascii String DecimalString.
From Stdlib Require Import Sorting.Sorted Sorting.Permutation.
From stdpp Require Import base option list strings gmap.

Local Open Scope string_scope.
Local Open Scope Z_scope.
Local Open Scope list_scope.

(** ** Time values and calendar arithmetic of ECMA-262 (21.4.1) *)

Module JSDate.

Definition msPerDay : Z := 86400000.
Definition msPerHour : Z := 3600000.
Definition msPerMinute : Z := 60000.
Definition msPerSecond : Z := 1000.

Definition Day (t : Z) : Z := t / msPerDay.
Definition TimeWithinDay (t : Z) : Z := t mod msPerDay.

Definition isLeap (y : Z) : bool :=
  ((y mod 4 =? 0) && negb (y mod 100 =? 0)) || (y mod 400 =? 0).

Definition DaysInYear (y : Z) : Z := if isLeap y then 366 else 365.

Definition DayFromYear (y : Z) : Z :=
  365 * (y - 1970) + (y - 1969) / 4 - (y - 1901) / 100 + (y - 1601) / 400.

Definition TimeFromYear (y : Z) : Z := msPerDay * DayFromYear y.

(** The year of a day number: ECMA-262 defines it as the largest [y] with
    [DayFromYear y <= d]; it is computed from the mean length of a Gregorian
    year and adjusted by at most one. *)
Definition YearFromDay (d : Z) : Z :=
  let y := 1970 + (400 * d) / 146097 in
  if d <? DayFromYear y then y - 1
  else if DayFromYear (y + 1) <=? d then y + 1
  else y.

Definition YearFromTime (t : Z) : Z := YearFromDay (Day t).

Definition InLeapYear (t : Z) : bool := isLeap (YearFromTime t).

Definition DayWithinYear (t : Z) : Z := Day t - DayFromYear (YearFromTime t).

(** Number of days before month [m] (0 = January) in a year. *)
Definition daysBeforeMonth (leap : bool) (m : Z) : Z :=
  let l := if leap then 1 else 0 in
  if m <=? 0 then 0
  else if m =? 1 then 31
  else if m =? 2 then 59 + l
  else if m =? 3 then 90 + l
  else if m =? 4 then 120 + l
  else if m =? 5 then 151 + l
  else if m =? 6 then 181 + l
  else if m =? 7 then 212 + l
  else if m =? 8 then 243 + l
  else if m =? 9 then 273 + l
  else if m =? 10 then 304 + l
  else if m =? 11 then 334 + l
  else 365 + l.

Definition monthOfYearDay (leap : bool) (d : Z) : Z :=
  let l := if leap then 1 else 0 in
  if d <? 31 then 0
  else if d <? 59 + l then 1
  else if d <? 90 + l then 2
  else if d <? 120 + l then 3
  else if d <? 151 + l then 4
  else if d <? 181 + l then 5
  else if d <? 212 + l then 6
  else if d <? 243 + l then 7
  else if d <? 273 + l then 8
  else if d <? 304 + l then 9
  else if d <? 334 + l then 10
  else 11.

Definition MonthFromTime (t : Z) : Z :=
  monthOfYearDay (InLeapYear t) (DayWithinYear t).

Definition DateFromTime (t : Z) : Z :=
  DayWithinYear t - daysBeforeMonth (InLeapYear t) (MonthFromTime t) + 1.

Definition DaysInMonth (y m : Z) : Z :=
  daysBeforeMonth (isLeap y) (m + 1) - daysBeforeMonth (isLeap y) m.

Definition HourFromTime (t : Z) : Z := (t / msPerHour) mod 24.
Definition MinFromTime (t : Z) : Z := (t / msPerMinute) mod 60.
Definition SecFromTime (t : Z) : Z := (t / msPerSecond) mod 60.
Definition msFromTime (t : Z) : Z := t mod msPerSecond.

Definition MakeTime (h m s ms : Z) : Z :=
  h * msPerHour + m * msPerMinute + s * msPerSecond + ms.

(** [MakeDay]: months beyond 0..11 carry into the year, and the day of the
    month is added as a plain offset (so day 0 is the last day of the
    previous month). *)
Definition MakeDay (year month date : Z) : Z :=
  let ym := year + month / 12 in
  let mn := month mod 12 in
  DayFromYear ym + daysBeforeMonth (isLeap ym) mn + date - 1.

Definition MakeDate (day time : Z) : Z := day * msPerDay + time.

Definition maxTime : Z := 8640000000000000.

(** [TimeClip]: a time value out of range becomes [NaN]. *)
Definition TimeClip (t : Z) : option Z :=
  if Z.abs t <=? maxTime then Some t else None.

(** [Date.UTC(year, month, date, h, m, s, ms)]: a year in 0..99 means
    1900 + year. *)
Definition UTC (year month date h m s ms : Z) : option Z :=
  let yr := if (0 <=? year) && (year <=? 99) then 1900 + year else year in
  TimeClip (MakeDate (MakeDay yr month date) (MakeTime h m s ms)).

(** Local-time getters; [tza t] is the offset of local time from UTC, in
    milliseconds, at the UTC time [t]. *)
Definition LocalTime (tza : Z -> Z) (t : Z) : Z := t + tza t.
Definition getFullYear (tza : Z -> Z) (t : Z) : Z := YearFromTime (LocalTime tza t).
Definition getMonth (tza : Z -> Z) (t : Z) : Z := MonthFromTime (LocalTime tza t).
Definition getDate (tza : Z -> Z) (t : Z) : Z := DateFromTime (LocalTime tza t).

(** *** Strings of digits *)

Definition isDigit (c : ascii) : bool :=
  let n := N_of_ascii c in ((48 <=? n) && (n <=? 57))%N.

Definition digitVal (c : ascii) : Z := Z.of_N (N_of_ascii c) - 48.

Definition digitChar (d : Z) : ascii := ascii_of_N (Z.to_N (48 + d mod 10)).

(** Value of a string read as a decimal numeral, most significant digit
    first. *)
Fixpoint digitsVal (acc : Z) (s : string) : Z :=
  match s with
  | EmptyString => acc
  | String c s' => digitsVal (10 * acc + digitVal c) s'
  end.

(** [padDigits n v]: the last [n] decimal digits of [v], zero padded. *)
Fixpoint padDigits (n : nat) (v : Z) : string :=
  match n with
  | O => EmptyString
  | S n' => padDigits n' (v / 10) +:+ String (digitChar v) EmptyString
  end.

(** The regular expression [/^\d{4}-\d{2}-\d{2}$/] of [api.ts]: exactly
    ten characters, digits around two hyphens. *)
Definition isDatePattern (s : string) : bool :=
  match s with
  | String y1 (String y2 (String y3 (String y4 (String h1
      (String m1 (String m2 (String h2 (String d1 (String d2 EmptyString))))))))) =>
      isDigit y1 && isDigit y2 && isDigit y3 && isDigit y4
      && Ascii.eqb h1 "-" && isDigit m1 && isDigit m2
      && Ascii.eqb h2 "-" && isDigit d1 && isDigit d2
  | _ => false
  end.

Definition yearField (s : string) : Z := digitsVal 0 (substring 0 4 s).
Definition monthField (s : string) : Z := digitsVal 0 (substring 5 2 s).
Definition dayField (s : string) : Z := digitsVal 0 (substring 8 2 s).

(** A date-only string that names a day of the calendar. *)
Definition isCalendarDate (s : string) : bool :=
  isDatePattern s
  && (1 <=? monthField s) && (monthField s <=? 12)
  && (1 <=? dayField s)
  && (dayField s <=? DaysInMonth (yearField s) (monthField s - 1)).

(** [Date.parse]: a date-only form is read as UTC midnight of that day
    (ECMA-262 21.4.1.32 and 21.4.3.2).  What [Date.parse] returns on any
    other string (date-time forms, strings with illegal element values,
    formats an engine accepts on its own) is [parseOther]. *)
Definition parse (parseOther : string -> option Z) (s : string) : option Z :=
  if isCalendarDate s
  then TimeClip (MakeDate (MakeDay (yearField s) (monthField s - 1) (dayField s)) 0)
  else parseOther s.

(** [Date.prototype.toISOString] on a valid time value. *)
Definition toISOString (t : Z) : string :=
  let y := YearFromTime t in
  let year :=
    if (0 <=? y) && (y <=? 9999) then padDigits 4 y
    else (if y <? 0 then "-" else "+") +:+ padDigits 6 (Z.abs y) in
  year +:+ "-" +:+ padDigits 2 (MonthFromTime t + 1)
       +:+ "-" +:+ padDigits 2 (DateFromTime t)
       +:+ "T" +:+ padDigits 2 (HourFromTime t)
       +:+ ":" +:+ padDigits 2 (MinFromTime t)
       +:+ ":" +:+ padDigits 2 (SecFromTime t)
       +:+ "." +:+ padDigits 3 (msFromTime t) +:+ "Z".

End JSDate.

(** ** The host environment

    What the program takes from the browser and the build: the local time
    zone, [Date.parse] outside the date-only form, and the environment
    variable [NEXT_PUBLIC_API_BASE_URL]. *)

Record Host := {
  LocalTZA : Z -> Z;
  parseOther : string -> option Z;
  NEXT_PUBLIC_API_BASE_URL : option string
}.

(** A host on a fixed offset from UTC, given in minutes. *)
Definition fixedOffsetHost (minutes : Z) : Host :=
  {| LocalTZA := fun _ => minutes * JSDate.msPerMinute;
     parseOther := fun _ => None;
     NEXT_PUBLIC_API_BASE_URL := None |}.

(** ** [src/lib/api.ts] *)

Module Api.

(** Outcome of an asynchronous call: a value, or a rejection carrying the
    message of the thrown [Error]. *)
Inductive Result (A : Type) : Type :=
| Ok (a : A)
| Throw (message : string).
Arguments Ok {A} a.
Arguments Throw {A} message.

Definition bindResult {A B : Type} (r : Result A) (k : A -> Result B) : Result B :=
  match r with
  | Ok a => k a
  | Throw m => Throw m
  end.

Notation "'let!' x ':=' r 'in' k" := (bindResult r (fun x => k))
  (at level 10, x name, r at level 100, k at level 200).

Definition API_BASE_URL (h : Host) : string :=
  match NEXT_PUBLIC_API_BASE_URL h with
  | Some u => if String.eqb u "" then "http://localhost:3000" else u
  | None => "http://localhost:3000"
  end.

(** *** Requests and responses *)

(** The three shapes of [HeadersInit]: a [Headers] object (given by the
    entries its [forEach] visits), an array of pairs, a plain record. *)
Inductive HeadersInit : Type :=
| HeadersObject (entries : list (string * string))
| HeadersArray (pairs : list (string * string))
| HeadersRecord (fields : gmap string string).

Record RequestInit := {
  method : option string;
  headers : option HeadersInit;
  body : option string
}.

Definition noOptions : RequestInit :=
  {| method := None; headers := None; body := None |}.

(** What [fetch] is called with. *)
Record Request := {
  req_url : string;
  req_method : option string;
  req_credentials : string;
  req_headers : gmap string string;
  req_body : option string
}.

(** The three shapes the program distinguishes in a parsed JSON body. *)
Inductive Json (A : Type) : Type :=
| JArray (elems : list A)
| JItems (items : list A)
| JOther.
Arguments JArray {A} elems.
Arguments JItems {A} items.
Arguments JOther {A}.

Record Response (A : Type) := {
  status : Z;
  json : Result (Json A)
}.
Arguments status {A} r.
Arguments json {A} r.

Definition ok {A : Type} (r : Response A) : bool :=
  (200 <=? status r) && (status r <=? 299).

(** The network: [fetch] resolves with a response or rejects. *)
Definition Transport (A : Type) : Type := Request -> Result (Response A).

Definition setEntries (h : gmap string string) (l : list (string * string))
  : gmap string string :=
  fold_left (fun acc kv => <[fst kv := snd kv]> acc) l h.

Definition normalizeHeaders (headersInit : option HeadersInit) : gmap string string :=
  let headers : gmap string string := ∅ in
  match headersInit with
  | None => headers
  | Some (HeadersObject entries) => setEntries headers entries
  | Some (HeadersArray pairs) => setEntries headers pairs
  | Some (HeadersRecord fields) => fields ∪ headers
  end.

Definition upperChar (c : ascii) : ascii :=
  let n := N_of_ascii c in
  if ((97 <=? n) && (n <=? 122))%N then ascii_of_N (n - 32) else c.

Fixpoint toUpperCase (s : string) : string :=
  match s with
  | EmptyString => EmptyString
  | String c s' => String (upperChar c) (toUpperCase s')
  end.

Definition startsWith (s p : string) : bool := String.prefix p s.

(** Truthiness of [string | null | undefined]. *)
Definition truthy (s : option string) : bool :=
  match s with
  | Some v => negb (String.eqb v "")
  | None => false
  end.

Definition orElse (s : option string) (d : string) : string :=
  match s with
  | Some v => if String.eqb v "" then d else v
  | None => d
  end.

Definition isApi (url : string) : bool :=
  startsWith url "/api/" && negb (startsWith url "/api/auth/").

Definition isMutation (options : RequestInit) : bool :=
  let method := toUpperCase (orElse (method options) "GET") in
  existsb (String.eqb method) ["POST"; "PUT"; "PATCH"; "DELETE"].

(** The request [fetchWithCreds] builds. *)
Definition buildRequest (h : Host) (url : string) (options : RequestInit)
    (csrfToken : option string) : Request :=
  let headers := normalizeHeaders (headers options) in
  let headers := <["Content-Type" := "application/json"]> headers in
  let headers :=
    if isApi url && isMutation options && truthy csrfToken
    then <["X-CSRF-Token" := default "" csrfToken]> headers
    else headers in
  {| req_url := API_BASE_URL h +:+ url;
     req_method := method options;
     req_credentials := "include";
     req_headers := headers;
     req_body := body options |}.

Definition fetchWithCreds {A : Type} (h : Host) (fetch : Transport A)
    (url : string) (options : RequestInit) (csrfToken : option string)
  : Result (Response A) :=
  let! response := fetch (buildRequest h url options csrfToken) in
  if status response =? 401
  then Throw "Unauthorized. Please log in again."
  else Ok response.

(** [localStorage]: [None] when there is no [window]. *)
Definition Storage : Type := option (gmap string string).

Definition getCsrfTokenFromStorage (localStorage : Storage) : option string :=
  match localStorage with
  | None => None
  | Some items => items !! "csrf_token"
  end.

(** *** Deleting a resource *)

Definition deleteCategory {A : Type} (h : Host) (fetch : Transport A)
    (localStorage : Storage) (id : string) : Result bool :=
  let csrfToken := getCsrfTokenFromStorage localStorage in
  let! response :=
    fetchWithCreds h fetch ("/api/categories/" +:+ id)
      {| method := Some "DELETE"; headers := None; body := None |} csrfToken in
  if negb (ok response) then Throw "Failed to delete category" else Ok true.

Definition deletePaymentMethod {A : Type} (h : Host) (fetch : Transport A)
    (localStorage : Storage) (id : string) : Result bool :=
  let csrfToken := getCsrfTokenFromStorage localStorage in
  let! response :=
    fetchWithCreds h fetch ("/api/payment_methods/" +:+ id)
      {| method := Some "DELETE"; headers := None; body := None |} csrfToken in
  if negb (ok response) then Throw "Failed to delete payment method" else Ok true.

Definition deleteExpense {A : Type} (h : Host) (fetch : Transport A)
    (localStorage : Storage) (id : string) : Result bool :=
  let csrfToken := getCsrfTokenFromStorage localStorage in
  let! response :=
    fetchWithCreds h fetch ("/api/expenses/" +:+ id)
      {| method := Some "DELETE"; headers := None; body := None |} csrfToken in
  if negb (ok response) then Throw "Failed to delete expense" else Ok true.

(** *** Query strings *)

(** The value of a filter property: [undefined], a string or a number
    ([skip] and [limit] are integers). *)
Inductive FilterValue : Type :=
| VUndefined
| VString (s : string)
| VNumber (n : Z).

(** [Object.entries(filters)], in property order. *)
Definition ExpenseFilters : Type := list (string * FilterValue).

(** [String(value)] for a defined value. *)
Definition stringOf (v : FilterValue) : string :=
  match v with
  | VUndefined => "undefined"
  | VString s => s
  | VNumber n => NilZero.string_of_int (Z.to_int n)
  end.

(** The entries of a [URLSearchParams], in the order they were appended. *)
Definition URLSearchParams : Type := list (string * string).

Definition hexChar (d : N) : ascii :=
  if (d <? 10)%N then ascii_of_N (48 + d) else ascii_of_N (55 + d).

Definition isUnreserved (c : ascii) : bool :=
  let n := N_of_ascii c in
  (((48 <=? n) && (n <=? 57)) || ((65 <=? n) && (n <=? 90))
   || ((97 <=? n) && (n <=? 122))
   || (n =? 42) || (n =? 45) || (n =? 46) || (n =? 95))%N.

(** The [application/x-www-form-urlencoded] byte serialiser. *)
Fixpoint urlencode (s : string) : string :=
  match s with
  | EmptyString => EmptyString
  | String c s' =>
      let n := N_of_ascii c in
      if isUnreserved c then String c (urlencode s')
      else if (n =? 32)%N then String "+" (urlencode s')
      else String "%" (String (hexChar (n / 16)) (String (hexChar (n mod 16))
             (urlencode s')))
  end.

(** [URLSearchParams.prototype.toString]. *)
Fixpoint toQueryString (q : URLSearchParams) : string :=
  match q with
  | [] => ""
  | [(k, v)] => urlencode k +:+ "=" +:+ urlencode v
  | (k, v) :: q' => urlencode k +:+ "=" +:+ urlencode v +:+ "&" +:+ toQueryString q'
  end.

(** [new Date(Date.UTC(...)).toISOString()], which throws a [RangeError] on
    an invalid date. *)
Definition isoOfUTC (t : option Z) : Result string :=
  match t with
  | Some t => Ok (JSDate.toISOString t)
  | None => Throw "Invalid time value"
  end.

(** The conversion [getExpenses] and [getAverageCategorySpend] apply to a
    string that passed the pattern test: the date is parsed, its local
    year, month and day are read and handed to [Date.UTC]. *)
Definition startOfDayUTC (h : Host) (value : string) : Result string :=
  match JSDate.parse (parseOther h) value with
  | Some date =>
      isoOfUTC (JSDate.UTC (JSDate.getFullYear (LocalTZA h) date)
                           (JSDate.getMonth (LocalTZA h) date)
                           (JSDate.getDate (LocalTZA h) date) 0 0 0 0)
  | None => Ok value
  end.

Definition endOfDayUTC (h : Host) (value : string) : Result string :=
  match JSDate.parse (parseOther h) value with
  | Some date =>
      isoOfUTC (JSDate.UTC (JSDate.getFullYear (LocalTZA h) date)
                           (JSDate.getMonth (LocalTZA h) date)
                           (JSDate.getDate (LocalTZA h) date) 23 59 59 999)
  | None => Ok value
  end.

Definition isDateKey (key : string) : bool :=
  String.eqb key "startDate" || String.eqb key "endDate".

(** The value appended for one defined entry of the filters. *)
Definition paramValue (h : Host) (key : string) (value : FilterValue)
  : Result string :=
  match value with
  | VString s =>
      if isDateKey key && JSDate.isDatePattern s
      then startOfDayUTC h s
      else Ok (stringOf value)
  | _ => Ok (stringOf value)
  end.

(** The body of the [forEach] of [getExpenses], entry after entry. *)
Fixpoint expenseParams (h : Host) (filters : ExpenseFilters)
    (queryParams : URLSearchParams) : Result URLSearchParams :=
  match filters with
  | [] => Ok queryParams
  | (key, value) :: rest =>
      match value with
      | VUndefined => expenseParams h rest queryParams
      | _ =>
          let! v := paramValue h key value in
          expenseParams h rest (queryParams ++ [(key, v)])
      end
  end.

Definition getExpenses {A : Type} (h : Host) (fetch : Transport A)
    (filters : ExpenseFilters) : Result (Json A) :=
  let! queryParams := expenseParams h filters [] in
  let! response :=
    fetchWithCreds h fetch ("/api/expenses?" +:+ toQueryString queryParams)
      noOptions None in
  if negb (ok response) then Throw "Failed to fetch expenses"
  else json response.

(** The two parameters of the average-spend call. *)
Definition averageSpendParams (h : Host) (startDate endDate : string)
  : Result URLSearchParams :=
  let! isoStartDate :=
    if JSDate.isDatePattern startDate then startOfDayUTC h startDate
    else Ok startDate in
  let! isoEndDate :=
    if JSDate.isDatePattern endDate then endOfDayUTC h endDate
    else Ok endDate in
  Ok [("startDate", isoStartDate); ("endDate", isoEndDate)].

Definition getAverageCategorySpend {A : Type} (h : Host) (fetch : Transport A)
    (startDate endDate : string) : Result (Json A) :=
  let! queryParams := averageSpendParams h startDate endDate in
  let! response :=
    fetchWithCreds h fetch
      ("/api/analytics/average-spend?" +:+ toQueryString queryParams)
      noOptions None in
  if negb (ok response) then Throw "Failed to fetch analytics data"
  else json response.

End Api.

(** ** Notifications and the delete handlers of the list components *)

Inductive ToastKind : Type := success | error | warning | info.

Definition Toast : Type := (ToastKind * string)%type.

(** [String.prototype.includes]. *)
Fixpoint includes (s sub : string) : bool :=
  String.prefix sub s ||
  match s with
  | EmptyString => false
  | String _ s' => includes s' sub
  end.

(** What a delete handler leaves behind: the error line of the dialog, the
    toasts it raised, whether it asked for a refresh. *)
Record DeleteFeedback := {
  deleteError : option string;
  deleteToasts : list Toast;
  refreshed : bool
}.

Module CategoriesList.

Definition conflictMessage : string :=
  "Cannot delete this category because it's being used by existing expenses.".

(** [handleDelete] of [categories-list.tsx]; [categoryToDelete] is the id of
    the selected category ([Some None]: a category without id), [before]
    the error line shown when the handler starts. *)
Definition handleDelete {A : Type} (h : Host) (fetch : Api.Transport A)
    (localStorage : Api.Storage) (categoryToDelete : option (option string))
    (before : option string) : DeleteFeedback :=
  match categoryToDelete with
  | None => {| deleteError := before; deleteToasts := []; refreshed := false |}
  | Some id =>
      if negb (Api.truthy id)
      then {| deleteError := Some "Invalid category ID";
              deleteToasts := []; refreshed := false |}
      else
        match Api.deleteCategory h fetch localStorage (default "" id) with
        | Api.Ok _ =>
            {| deleteError := None;
               deleteToasts := [(success, "Category deleted successfully")];
               refreshed := true |}
        | Api.Throw message =>
            if includes message "409"
            then {| deleteError := Some conflictMessage;
                    deleteToasts := []; refreshed := false |}
            else {| deleteError := Some "Failed to delete category";
                    deleteToasts := [(error, "Failed to delete category")];
                    refreshed := false |}
        end
  end.

End CategoriesList.

Module PaymentMethodsList.

Definition conflictMessage : string :=
  "Cannot delete this payment method because it's being used by existing expenses.".

(** [handleDelete] of [payment-methods-list.tsx]; the id is used without a
    test, so a missing id is sent as the text [undefined]. *)
Definition handleDelete {A : Type} (h : Host) (fetch : Api.Transport A)
    (localStorage : Api.Storage) (paymentMethodToDelete : option (option string))
    (before : option string) : DeleteFeedback :=
  match paymentMethodToDelete with
  | None => {| deleteError := before; deleteToasts := []; refreshed := false |}
  | Some id =>
      match Api.deletePaymentMethod h fetch localStorage (default "undefined" id) with
      | Api.Ok _ =>
          {| deleteError := None;
             deleteToasts := [(success, "Payment method deleted successfully")];
             refreshed := true |}
      | Api.Throw message =>
          if includes message "409"
          then {| deleteError := Some conflictMessage;
                  deleteToasts := []; refreshed := false |}
          else {| deleteError := Some "Failed to delete payment method";
                  deleteToasts := [(error, "Failed to delete payment method")];
                  refreshed := false |}
      end
  end.

End PaymentMethodsList.

Module ExpensesList.

(** [handleDelete] of [expenses-list.tsx]: this list has no error line, a
    failure of any kind raises one toast. *)
Definition handleDelete {A : Type} (h : Host) (fetch : Api.Transport A)
    (localStorage : Api.Storage) (expenseToDelete : option string)
  : DeleteFeedback :=
  match expenseToDelete with
  | None => {| deleteError := None; deleteToasts := []; refreshed := false |}
  | Some id =>
      match Api.deleteExpense h fetch localStorage id with
      | Api.Ok _ =>
          {| deleteError := None;
             deleteToasts := [(success, "Transaction deleted successfully")];
             refreshed := true |}
      | Api.Throw _ =>
          {| deleteError := None;
             deleteToasts := [(error, "Failed to delete transaction")];
             refreshed := false |}
      end
  end.

End ExpensesList.

(** The kind of failure a delete handler showed the user: the conflict
    text, or the operation-failed text. *)
Inductive FailureKind : Type := ConflictKind | GenericKind.

Definition surfaced (conflictText : string) (f : DeleteFeedback) : option FailureKind :=
  match deleteError f with
  | Some m => if String.eqb m conflictText then Some ConflictKind else Some GenericKind
  | None =>
      if existsb (fun t => match fst t with error => true | _ => false end)
                 (deleteToasts f)
      then Some GenericKind else None
  end.

(** ** Numbers

    Amounts are JavaScript numbers.  The program adds them, subtracts them
    inside a sort comparator, compares them with zero and tests them for
    truthiness; these operations are the interface, and the results below
    hold for every number type that implements it. *)

Class JSNumber (num : Type) := {
  zero : num;
  add : num -> num -> num;
  sub : num -> num -> num;
  ltb : num -> num -> bool;
  leb : num -> num -> bool;
  toBoolean : num -> bool
}.

(** What the proofs use of numbers that are not [NaN] (a parsed JSON
    document holds no [NaN]): the order is a strict total order, the sign of
    a difference follows it, and a falsy number is zero. *)
Class JSNumberLaws (num : Type) `{JSNumber num} := {
  ltb_irrefl : forall a, ltb a a = false;
  ltb_trans : forall a b c, ltb a b = true -> ltb b c = true -> ltb a c = true;
  ltb_total : forall a b, ltb a b = false -> ltb b a = false -> a = b;
  leb_ltb : forall a b, leb a b = negb (ltb b a);
  sub_pos : forall a b, ltb zero (sub a b) = ltb b a;
  falsy_zero : forall a, toBoolean a = false -> a = zero
}.

#[export] Instance Z_JSNumber : JSNumber Z := {|
  zero := 0;
  add := Z.add;
  sub := Z.sub;
  ltb := Z.ltb;
  leb := Z.leb;
  toBoolean := fun a => negb (a =? 0)
|}.

(** ** [Array.prototype.sort]

    The sort is stable, and with a consistent comparator its result is the
    one stable arrangement in comparator order; it is computed here by stable
    insertion.  [after a b] is [comparefn(a, b) > 0]: [a] has to come after
    [b]. *)

Fixpoint insertSorted {A : Type} (after : A -> A -> bool) (x : A) (l : list A)
  : list A :=
  match l with
  | [] => [x]
  | y :: l' => if after x y then y :: insertSorted after x l' else x :: y :: l'
  end.

Fixpoint sort {A : Type} (after : A -> A -> bool) (l : list A) : list A :=
  match l with
  | [] => []
  | x :: l' => insertSorted after x (sort after l')
  end.

(** ** A [Map] with string keys, in insertion order *)

Fixpoint mapGet {V : Type} (m : list (string * V)) (k : string) : option V :=
  match m with
  | [] => None
  | (k', v) :: m' => if String.eqb k' k then Some v else mapGet m' k
  end.

(** [Map.prototype.set]: an existing key keeps its place. *)
Fixpoint mapSet {V : Type} (m : list (string * V)) (k : string) (v : V)
  : list (string * V) :=
  match m with
  | [] => [(k, v)]
  | (k', v') :: m' =>
      if String.eqb k' k then (k, v) :: m' else (k', v') :: mapSet m' k v
  end.

(** ** [src/components/analytics/analytics-page.tsx] *)

Module Analytics.

Definition DATA_FETCH_LIMIT : Z := 500.

Inductive ExpenseType : Type := Need | Want | Investment | Income.

(** An expense as it arrives from the API.  A string field that is missing
    or [null] is the empty string (the program only tests such fields for
    truthiness); [amount] is [None] when it is not of type number, [type] is
    [None] when it is none of the four names. *)
Record Expense (num : Type) := {
  id : string;
  category_id : string;
  payment_method_id : string;
  amount : option num;
  type : option ExpenseType;
  description : string;
  timestamp : string;
  created_at : string;
  updated_at : string
}.
Arguments id {num} e.
Arguments category_id {num} e.
Arguments payment_method_id {num} e.
Arguments amount {num} e.
Arguments type {num} e.
Arguments description {num} e.
Arguments timestamp {num} e.
Arguments created_at {num} e.
Arguments updated_at {num} e.

Record Category := {
  cat_id : string;
  cat_name : string
}.

Definition nonEmpty (s : string) : bool := negb (String.eqb s "").

Definition spendingTypes : list ExpenseType := [Need; Want].

Definition isDefined {T : Type} (x : option T) : bool :=
  match x with
  | Some _ => true
  | None => false
  end.

Definition sameType (a b : ExpenseType) : bool :=
  match a, b with
  | Need, Need | Want, Want | Investment, Investment | Income, Income => true
  | _, _ => false
  end.

(** [spendingTypes.includes(expense.type)]. *)
Definition isSpendingType (t : option ExpenseType) : bool :=
  match t with
  | Some t => existsb (sameType t) spendingTypes
  | None => false
  end.

(** *** Category spending *)

Record Slice (num : Type) := {
  name : string;
  value : num
}.
Arguments name {num} s.
Arguments value {num} s.
Arguments Build_Slice {num} name value.

Section Aggregation.
Context {num : Type} `{JSNumber num}.

(** The first [forEach]: one entry of total zero per category that has an
    id and a name. *)
Definition seedCategory (spendingMap : list (string * Slice num)) (cat : Category)
  : list (string * Slice num) :=
  if nonEmpty (cat_id cat) && nonEmpty (cat_name cat)
  then mapSet spendingMap (cat_id cat) {| name := cat_name cat; value := zero |}
  else spendingMap.

(** The test that lets an expense through to the category totals. *)
Definition countsForCategory (expense : Expense num) : option num :=
  match amount expense with
  | Some a =>
      if negb (nonEmpty (category_id expense)) || leb a zero then None
      else if isSpendingType (type expense) then Some a else None
  | None => None
  end.

(** The second [forEach]: the amount is added to the entry of the category,
    in place; an expense of an unknown category changes nothing. *)
Definition addExpense (spendingMap : list (string * Slice num)) (expense : Expense num)
  : list (string * Slice num) :=
  match countsForCategory expense with
  | Some a =>
      match mapGet spendingMap (category_id expense) with
      | Some categoryInfo =>
          mapSet spendingMap (category_id expense)
            {| name := name categoryInfo; value := add (value categoryInfo) a |}
      | None => spendingMap
      end
  | None => spendingMap
  end.

Definition spendingMap (allExpenses : list (Expense num)) (categories : list Category)
  : list (string * Slice num) :=
  fold_left addExpense allExpenses (fold_left seedCategory categories []).

Definition sliceAfter (a b : Slice num) : bool := ltb zero (sub (value b) (value a)).

Definition categorySpendingData (allExpenses : list (Expense num))
    (categories : list Category) : list (Slice num) :=
  match allExpenses, categories with
  | [], _ => []
  | _, [] => []
  | _, _ =>
      sort sliceAfter
        (List.filter (fun item => ltb zero (value item))
                     (map snd (spendingMap allExpenses categories)))
  end.

Definition totalSpending (categorySpendingData : list (Slice num)) : num :=
  fold_left (fun sum entry => add sum (value entry)) categorySpendingData zero.

(** *** Daily spending trend *)

Record TrendPoint := {
  date : string;
  totalAmount : num
}.

Definition countsForTrend (expense : Expense num) : option num :=
  match amount expense with
  | Some a =>
      if negb (nonEmpty (timestamp expense)) || leb a zero
         || negb (isDefined (type expense))
      then None
      else if isSpendingType (type expense) then Some a else None
  | None => None
  end.

(** [x || 0] on the result of a [Map] lookup. *)
Definition orZero (x : option num) : num :=
  match x with
  | Some v => if toBoolean v then v else zero
  | None => zero
  end.

Definition addToDay (dailySpendingMap : list (string * num)) (expense : Expense num)
  : list (string * num) :=
  match countsForTrend expense with
  | Some a =>
      let dateStr := substring 0 10 (timestamp expense) in
      mapSet dailySpendingMap dateStr (add (orZero (mapGet dailySpendingMap dateStr)) a)
  | None => dailySpendingMap
  end.

Definition dailySpendingMap (allExpenses : list (Expense num)) : list (string * num) :=
  fold_left addToDay allExpenses [].

(** [new Date(a.date).getTime() - new Date(b.date).getTime() > 0]; a
    difference with [NaN] is [NaN], which is not positive. *)
Definition pointAfter (h : Host) (a b : TrendPoint) : bool :=
  match JSDate.parse (parseOther h) (date a), JSDate.parse (parseOther h) (date b) with
  | Some ta, Some tb => 0 <? ta - tb
  | _, _ => false
  end.

Definition spendingTrendData (h : Host) (allExpenses : list (Expense num))
  : list TrendPoint :=
  match allExpenses with
  | [] => []
  | _ =>
      sort (pointAfter h)
        (map (fun entry => {| date := fst entry; totalAmount := snd entry |})
             (dailySpendingMap allExpenses))
  end.

End Aggregation.

Arguments TrendPoint num : clear implicits.

(** *** The full-range fetch *)

(** The state of the page the fetch writes to, and the filters of the calls
    it made, oldest first. *)
Record Page (A : Type) := {
  allExpenses : list A;
  isLoading : bool;
  toasts : list Toast;
  calls : list Api.ExpenseFilters
}.
Arguments allExpenses {A} p.
Arguments isLoading {A} p.
Arguments toasts {A} p.
Arguments calls {A} p.

Section Fetch.
Context {A : Type}.

Definition setAllExpenses (l : list A) (p : Page A) : Page A :=
  {| allExpenses := l; isLoading := isLoading p; toasts := toasts p; calls := calls p |}.

Definition setIsLoading (b : bool) (p : Page A) : Page A :=
  {| allExpenses := allExpenses p; isLoading := b; toasts := toasts p; calls := calls p |}.

Definition toast (k : ToastKind) (m : string) (p : Page A) : Page A :=
  {| allExpenses := allExpenses p; isLoading := isLoading p;
     toasts := toasts p ++ [(k, m)]; calls := calls p |}.

Definition called (f : Api.ExpenseFilters) (p : Page A) : Page A :=
  {| allExpenses := allExpenses p; isLoading := isLoading p;
     toasts := toasts p; calls := calls p ++ [f] |}.

Definition rangeFilters (start end_ : string) (currentSkip : Z) : Api.ExpenseFilters :=
  [("startDate", Api.VString start); ("endDate", Api.VString end_);
   ("skip", Api.VNumber currentSkip); ("limit", Api.VNumber DATA_FETCH_LIMIT)].

(** The items of a response: a bare array, or the [items] of an object. *)
Definition expensesToAdd (response : Api.Json A) : option (list A) :=
  match response with
  | Api.JArray elems => Some elems
  | Api.JItems items => Some items
  | Api.JOther => None
  end.

(** How the [while] loop ends: [hasMore] became false, or a call threw. *)
Inductive LoopEnd : Type :=
| Finished (p : Page A) (fetchedExpenses : list A) (currentSkip : Z)
| Thrown (p : Page A) (message : string).

(** The [while (hasMore)] loop; one unit of [fuel] per iteration, [None]
    when the fuel runs out before the loop ends. *)
Fixpoint fetchLoop (getExpenses : Api.ExpenseFilters -> Api.Result (Api.Json A))
    (start end_ : string) (fuel : nat) (p : Page A)
    (fetchedExpenses : list A) (currentSkip : Z) : option LoopEnd :=
  match fuel with
  | O => None
  | S fuel' =>
      let filters := rangeFilters start end_ currentSkip in
      let p := called filters p in
      match getExpenses filters with
      | Api.Throw message => Some (Thrown p message)
      | Api.Ok response =>
          match expensesToAdd response with
          | None =>
              if currentSkip =? 0
              then Some (Finished
                     (toast error "Failed to fetch expenses. Unexpected data format from server."
                        (setAllExpenses [] p))
                     fetchedExpenses currentSkip)
              else Some (Finished
                     (toast warning "Received unexpected data format on subsequent fetch page. Data might be incomplete." p)
                     fetchedExpenses currentSkip)
          | Some items =>
              let fetchedExpenses := (fetchedExpenses ++ items) in
              if Z.of_nat (length items) <? DATA_FETCH_LIMIT
              then Some (Finished p fetchedExpenses currentSkip)
              else fetchLoop getExpenses start end_ fuel' p fetchedExpenses
                     (currentSkip + DATA_FETCH_LIMIT)
          end
      end
  end.

(** [new Date(start) > new Date(end)]; a comparison with [NaN] is false. *)
Definition startsAfter (h : Host) (start end_ : string) : bool :=
  match JSDate.parse (parseOther h) start, JSDate.parse (parseOther h) end_ with
  | Some ts, Some te => te <? ts
  | _, _ => false
  end.

Definition fetchAllExpensesForRange (h : Host)
    (getExpenses : Api.ExpenseFilters -> Api.Result (Api.Json A))
    (fuel : nat) (start end_ : string) (p : Page A) : option (Page A) :=
  if negb (nonEmpty start) || negb (nonEmpty end_) || startsAfter h start end_
  then Some (toast error "Invalid date range selected." p)
  else
    let p := setIsLoading true p in
    match fetchLoop getExpenses start end_ fuel p [] 0 with
    | None => None
    | Some (Finished p fetchedExpenses currentSkip) =>
        let p := setAllExpenses fetchedExpenses p in
        let p :=
          if 0 <? Z.of_nat (length fetchedExpenses)
          then toast success
                 ("Workspaceed "
                  +:+ NilZero.string_of_int (Z.to_int (Z.of_nat (length fetchedExpenses)))
                  +:+ " expenses.") p
          else if currentSkip =? 0
          then toast info "No expenses found for the selected period." p
          else p in
        Some (setIsLoading false p)
    | Some (Thrown p _) =>
        let p := toast error "Failed to fetch expenses for the report." p in
        let p := setAllExpenses [] p in
        Some (setIsLoading false p)
    end.

End Fetch.

End Analytics.

(** ** [src/lib/api.ts]: the other resource clients

    [JSON.stringify] of the payload is a parameter: the clients hand the
    text on without looking into it. *)

Module ApiClients.
Import Api.

Definition getCategories {A : Type} (h : Host) (fetch : Transport A)
    (skip limit : option Z) : Result (Json A) :=
  let queryParams : URLSearchParams := [] in
  let queryParams :=
    match skip with
    | Some s => queryParams ++ [("skip", stringOf (VNumber s))]
    | None => queryParams
    end in
  let queryParams :=
    match limit with
    | Some l => queryParams ++ [("limit", stringOf (VNumber l))]
    | None => queryParams
    end in
  let queryString := toQueryString queryParams in
  let url := if negb (String.eqb queryString "")
             then "/api/categories?" +:+ queryString else "/api/categories" in
  let! response := fetchWithCreds h fetch url noOptions None in
  if negb (ok response) then Throw "Failed to fetch categories" else json response.

Definition createCategory {A D : Type} (h : Host) (JSON_stringify : D -> string)
    (fetch : Transport A) (localStorage : Storage) (data : D) : Result (Json A) :=
  let csrfToken := getCsrfTokenFromStorage localStorage in
  let! response :=
    fetchWithCreds h fetch "/api/categories"
      {| method := Some "POST"; headers := None;
         body := Some (JSON_stringify data) |} csrfToken in
  if negb (ok response) then Throw "Failed to create category" else json response.

Definition updateCategory {A D : Type} (h : Host) (JSON_stringify : D -> string)
    (fetch : Transport A) (localStorage : Storage) (id : string) (data : D)
  : Result (Json A) :=
  let csrfToken := getCsrfTokenFromStorage localStorage in
  let! response :=
    fetchWithCreds h fetch ("/api/categories/" +:+ id)
      {| method := Some "PATCH"; headers := None;
         body := Some (JSON_stringify data) |} csrfToken in
  if negb (ok response) then Throw "Failed to update category" else json response.

Definition getPaymentMethods {A : Type} (h : Host) (fetch : Transport A)
    (skip limit : option Z) : Result (Json A) :=
  let queryParams : URLSearchParams := [] in
  let queryParams :=
    match skip with
    | Some s => queryParams ++ [("skip", stringOf (VNumber s))]
    | None => queryParams
    end in
  let queryParams :=
    match limit with
    | Some l => queryParams ++ [("limit", stringOf (VNumber l))]
    | None => queryParams
    end in
  let queryString := toQueryString queryParams in
  let url := if negb (String.eqb queryString "")
             then "/api/payment_methods?" +:+ queryString
             else "/api/payment_methods" in
  let! response := fetchWithCreds h fetch url noOptions None in
  if negb (ok response) then Throw "Failed to fetch payment methods"
  else json response.

Definition createPaymentMethod {A D : Type} (h : Host) (JSON_stringify : D -> string)
    (fetch : Transport A) (localStorage : Storage) (data : D) : Result (Json A) :=
  let csrfToken := getCsrfTokenFromStorage localStorage in
  let! response :=
    fetchWithCreds h fetch "/api/payment_methods"
      {| method := Some "POST"; headers := None;
         body := Some (JSON_stringify data) |} csrfToken in
  if negb (ok response) then Throw "Failed to create payment method"
  else json response.

Definition updatePaymentMethod {A D : Type} (h : Host) (JSON_stringify : D -> string)
    (fetch : Transport A) (localStorage : Storage) (id : string) (data : D)
  : Result (Json A) :=
  let csrfToken := getCsrfTokenFromStorage localStorage in
  let! response :=
    fetchWithCreds h fetch ("/api/payment_methods/" +:+ id)
      {| method := Some "PATCH"; headers := None;
         body := Some (JSON_stringify data) |} csrfToken in
  if negb (ok response) then Throw "Failed to update payment method"
  else json response.

Definition getExpense {A : Type} (h : Host) (fetch : Transport A) (id : string)
  : Result (Json A) :=
  let! response := fetchWithCreds h fetch ("/api/expenses/" +:+ id) noOptions None in
  if negb (ok response) then Throw "Failed to fetch expense" else json response.

Definition createExpense {A D : Type} (h : Host) (JSON_stringify : D -> string)
    (fetch : Transport A) (localStorage : Storage) (data : D) : Result (Json A) :=
  let csrfToken := getCsrfTokenFromStorage localStorage in
  let! response :=
    fetchWithCreds h fetch "/api/expenses"
      {| method := Some "POST"; headers := None;
         body := Some (JSON_stringify data) |} csrfToken in
  if negb (ok response) then Throw "Failed to create expense" else json response.

Definition updateExpense {A D : Type} (h : Host) (JSON_stringify : D -> string)
    (fetch : Transport A) (localStorage : Storage) (id : string) (data : D)
  : Result (Json A) :=
  let csrfToken := getCsrfTokenFromStorage localStorage in
  let! response :=
    fetchWithCreds h fetch ("/api/expenses/" +:+ id)
      {| method := Some "PATCH"; headers := None;
         body := Some (JSON_stringify data) |} csrfToken in
  if negb (ok response) then Throw "Failed to update expense" else json response.

End ApiClients.

(** ** [src/components/categories/categories-page.tsx]

    [payment-methods-page.tsx] is the same page over payment methods: the
    same pagination items, page size, total and page-change test, with
    [getPaymentMethods] in the place of [getCategories]. *)

Module CategoriesPage.

Definition ITEMS_PER_PAGE : Z := 20.

(** The items of the pager: a numbered link (its key is the page its click
    asks for) or an ellipsis with its key. *)
Inductive PageItem : Type :=
| PaginationLink (num : Z) (isActive : bool)
| PaginationEllipsis (key : string).

(** [Array.from({ length }, (_, idx) => idx + start)]; a length that is
    zero or negative gives the empty array. *)
Definition range (start end_ : Z) : list Z :=
  let length := end_ - start + 1 in
  map (fun idx => Z.of_nat idx + start) (seq 0 (Z.to_nat length)).

Definition pageLink (currentPage num : Z) : PageItem :=
  PaginationLink num (num =? currentPage).

Definition generatePaginationPageItems (currentPage totalPages : Z) : list PageItem :=
  let siblingCount := 1 in
  let totalPageNumbersToShow := siblingCount + 5 in
  if totalPageNumbersToShow >=? totalPages
  then map (pageLink currentPage) (range 1 totalPages)
  else
    let leftSiblingIndex := Z.max (currentPage - siblingCount) 1 in
    let rightSiblingIndex := Z.min (currentPage + siblingCount) totalPages in
    let shouldShowLeftEllipsis := leftSiblingIndex >? 2 in
    let shouldShowRightEllipsis := rightSiblingIndex <? totalPages - 1 in
    let firstPageIndex := 1 in
    let lastPageIndex := totalPages in
    if negb shouldShowLeftEllipsis && shouldShowRightEllipsis then
      let leftItemCount := 3 + 2 * siblingCount in
      let leftRange := range 1 leftItemCount in
      map (pageLink currentPage) leftRange
      ++ [PaginationEllipsis "end-ellipsis"]
      ++ [pageLink currentPage lastPageIndex]
    else if shouldShowLeftEllipsis && negb shouldShowRightEllipsis then
      let rightItemCount := 3 + 2 * siblingCount in
      let rightRange := range (totalPages - rightItemCount + 1) totalPages in
      [pageLink currentPage firstPageIndex]
      ++ [PaginationEllipsis "start-ellipsis"]
      ++ map (pageLink currentPage) rightRange
    else if shouldShowLeftEllipsis && shouldShowRightEllipsis then
      let middleRange := range leftSiblingIndex rightSiblingIndex in
      [pageLink currentPage firstPageIndex]
      ++ [PaginationEllipsis "start-ellipsis"]
      ++ map (pageLink currentPage) middleRange
      ++ [PaginationEllipsis "end-ellipsis"]
      ++ [pageLink currentPage lastPageIndex]
    else [].

(** The shapes [fetchCategories] tells apart in the answer of
    [getCategories]: an object with an array [items] and a number [total],
    a bare array, anything else.  Totals are whole numbers. *)
Inductive Listing (A : Type) : Type :=
| Paged (items : list A) (total : Z)
| Bare (data : list A)
| Invalid.
Arguments Paged {A} items total.
Arguments Bare {A} data.
Arguments Invalid {A}.

Record State (A : Type) := {
  isLoading : bool;
  categories : list A;
  currentPage : Z;
  totalCategories : Z;
  toasts : list Toast;
  calls : list (Z * Z)
}.
Arguments isLoading {A} s.
Arguments categories {A} s.
Arguments currentPage {A} s.
Arguments totalCategories {A} s.
Arguments toasts {A} s.
Arguments calls {A} s.

(** The state of the page when it is mounted. *)
Definition initial {A : Type} : State A :=
  {| isLoading := true; categories := []; currentPage := 1;
     totalCategories := 0; toasts := []; calls := [] |}.

Section Page.
Context {A : Type}.

(** The page after a fetch: what the [try] block or the [catch] block set,
    and [isLoading] back to false in the [finally] block. *)
Definition loaded (s : State A) (skip limit : Z) (cats : list A) (total : Z)
    (notes : list Toast) : State A :=
  {| isLoading := false; categories := cats; currentPage := currentPage s;
     totalCategories := total; toasts := toasts s ++ notes;
     calls := calls s ++ [(skip, limit)] |}.

Definition fetchCategories (getCategories : Z -> Z -> Api.Result (Listing A))
    (page : Z) (s : State A) : State A :=
  let skip := (page - 1) * ITEMS_PER_PAGE in
  match getCategories skip ITEMS_PER_PAGE with
  | Api.Ok (Paged items total) => loaded s skip ITEMS_PER_PAGE items total []
  | Api.Ok (Bare data) =>
      loaded s skip ITEMS_PER_PAGE data (Z.of_nat (length data)) []
  | Api.Ok Invalid =>
      loaded s skip ITEMS_PER_PAGE [] 0
        [(error, "Failed to load categories due to invalid data format")]
  | Api.Throw _ =>
      loaded s skip ITEMS_PER_PAGE [] 0 [(error, "Failed to load categories")]
  end.

(** [Math.ceil(a / b)] on whole numbers, [b] positive. *)
Definition ceilDiv (a b : Z) : Z := - ((- a) / b).

Definition totalPages (s : State A) : Z := ceilDiv (totalCategories s) ITEMS_PER_PAGE.

Definition setCurrentPage (newPage : Z) (s : State A) : State A :=
  {| isLoading := isLoading s; categories := categories s; currentPage := newPage;
     totalCategories := totalCategories s; toasts := toasts s; calls := calls s |}.

Definition handlePageChange (newPage : Z) (s : State A) : State A :=
  if (1 <=? newPage) && (newPage <=? totalPages s) && negb (newPage =? currentPage s)
  then setCurrentPage newPage s
  else s.

(** The pager is rendered when there is more than one page. *)
Definition showsPagination (s : State A) : bool := 1 <? totalPages s.

End Page.

End CategoriesPage.

(** ** [src/components/expenses/expenses-page.tsx] *)

Module ExpensesPage.

Definition ITEMS_PER_PAGE : Z := 10.
Definition COUNT_FETCH_LIMIT : Z := 500.

(** The filters object of the page, as its entries in property order (the
    keys are names, not array indices); [{...prev, [key]: v}] is [mapSet]. *)
Definition noFilters : Api.ExpenseFilters :=
  [("startDate", Api.VUndefined); ("endDate", Api.VUndefined);
   ("categoryId", Api.VUndefined); ("paymentMethodId", Api.VUndefined);
   ("type", Api.VUndefined)].

Record State (A : Type) := {
  isLoadingExpenses : bool;
  isLoadingTotalCount : bool;
  expenses : list A;
  currentPage : Z;
  filters : Api.ExpenseFilters;
  totalExpenses : Z;
  toasts : list Toast;
  calls : list Api.ExpenseFilters
}.
Arguments isLoadingExpenses {A} s.
Arguments isLoadingTotalCount {A} s.
Arguments expenses {A} s.
Arguments currentPage {A} s.
Arguments filters {A} s.
Arguments totalExpenses {A} s.
Arguments toasts {A} s.
Arguments calls {A} s.

Definition initial {A : Type} : State A :=
  {| isLoadingExpenses := true; isLoadingTotalCount := false; expenses := [];
     currentPage := 1; filters := noFilters; totalExpenses := 0;
     toasts := []; calls := [] |}.

Section Page.
Context {A : Type}.

Definition setIsLoadingExpenses (b : bool) (s : State A) : State A :=
  {| isLoadingExpenses := b; isLoadingTotalCount := isLoadingTotalCount s;
     expenses := expenses s; currentPage := currentPage s; filters := filters s;
     totalExpenses := totalExpenses s; toasts := toasts s; calls := calls s |}.

Definition setIsLoadingTotalCount (b : bool) (s : State A) : State A :=
  {| isLoadingExpenses := isLoadingExpenses s; isLoadingTotalCount := b;
     expenses := expenses s; currentPage := currentPage s; filters := filters s;
     totalExpenses := totalExpenses s; toasts := toasts s; calls := calls s |}.

Definition setExpenses (l : list A) (s : State A) : State A :=
  {| isLoadingExpenses := isLoadingExpenses s;
     isLoadingTotalCount := isLoadingTotalCount s;
     expenses := l; currentPage := currentPage s; filters := filters s;
     totalExpenses := totalExpenses s; toasts := toasts s; calls := calls s |}.

Definition setCurrentPage (n : Z) (s : State A) : State A :=
  {| isLoadingExpenses := isLoadingExpenses s;
     isLoadingTotalCount := isLoadingTotalCount s;
     expenses := expenses s; currentPage := n; filters := filters s;
     totalExpenses := totalExpenses s; toasts := toasts s; calls := calls s |}.

Definition setFilters (f : Api.ExpenseFilters) (s : State A) : State A :=
  {| isLoadingExpenses := isLoadingExpenses s;
     isLoadingTotalCount := isLoadingTotalCount s;
     expenses := expenses s; currentPage := currentPage s; filters := f;
     totalExpenses := totalExpenses s; toasts := toasts s; calls := calls s |}.

Definition setTotalExpenses (n : Z) (s : State A) : State A :=
  {| isLoadingExpenses := isLoadingExpenses s;
     isLoadingTotalCount := isLoadingTotalCount s;
     expenses := expenses s; currentPage := currentPage s; filters := filters s;
     totalExpenses := n; toasts := toasts s; calls := calls s |}.

Definition toast (k : ToastKind) (m : string) (s : State A) : State A :=
  {| isLoadingExpenses := isLoadingExpenses s;
     isLoadingTotalCount := isLoadingTotalCount s;
     expenses := expenses s; currentPage := currentPage s; filters := filters s;
     totalExpenses := totalExpenses s; toasts := toasts s ++ [(k, m)];
     calls := calls s |}.

Definition called (f : Api.ExpenseFilters) (s : State A) : State A :=
  {| isLoadingExpenses := isLoadingExpenses s;
     isLoadingTotalCount := isLoadingTotalCount s;
     expenses := expenses s; currentPage := currentPage s; filters := filters s;
     totalExpenses := totalExpenses s; toasts := toasts s;
     calls := calls s ++ [f] |}.

(** [{ ...filters, skip, limit }]. *)
Definition withPaging (f : Api.ExpenseFilters) (skip limit : Z) : Api.ExpenseFilters :=
  mapSet (mapSet f "skip" (Api.VNumber skip)) "limit" (Api.VNumber limit).

Definition fetchExpensesPage
    (getExpenses : Api.ExpenseFilters -> Api.Result (Api.Json A))
    (pageToFetch : Z) (s : State A) : State A :=
  let s := setIsLoadingExpenses true s in
  let skip := (pageToFetch - 1) * ITEMS_PER_PAGE in
  let currentFilters := withPaging (filters s) skip ITEMS_PER_PAGE in
  let s := called currentFilters s in
  let s :=
    match getExpenses currentFilters with
    | Api.Ok (Api.JArray expensesResponse) => setExpenses expensesResponse s
    | _ => setExpenses [] (toast error "Failed to load expenses page" s)
    end in
  setIsLoadingExpenses false s.

(** How the counting loop ends: with the count, or with a thrown error. *)
Inductive CountEnd : Type :=
| Counted (s : State A) (accumulatedCount : Z)
| Failed (s : State A).

(** The [while (hasMore)] loop of [fetchTotalExpenseCount], one unit of
    [fuel] per iteration. *)
Fixpoint countLoop (getExpenses : Api.ExpenseFilters -> Api.Result (Api.Json A))
    (fuel : nat) (s : State A) (accumulatedCount currentSkip : Z) : option CountEnd :=
  match fuel with
  | O => None
  | S fuel' =>
      let countFilters := withPaging (filters s) currentSkip COUNT_FETCH_LIMIT in
      let s := called countFilters s in
      match getExpenses countFilters with
      | Api.Ok (Api.JArray response) =>
          let accumulatedCount := accumulatedCount + Z.of_nat (length response) in
          if Z.of_nat (length response) <? COUNT_FETCH_LIMIT
          then Some (Counted s accumulatedCount)
          else countLoop getExpenses fuel' s accumulatedCount
                 (currentSkip + COUNT_FETCH_LIMIT)
      | _ => Some (Failed s)
      end
  end.

Definition fetchTotalExpenseCount
    (getExpenses : Api.ExpenseFilters -> Api.Result (Api.Json A))
    (fuel : nat) (s : State A) : option (State A) :=
  let s := setIsLoadingTotalCount true s in
  let s := setTotalExpenses 0 s in
  match countLoop getExpenses fuel s 0 0 with
  | None => None
  | Some (Counted s accumulatedCount) =>
      Some (setIsLoadingTotalCount false (setTotalExpenses accumulatedCount s))
  | Some (Failed s) =>
      let s := toast error "Failed to calculate total expenses" s in
      Some (setIsLoadingTotalCount false (setTotalExpenses 0 s))
  end.

Definition handleFilterChange (key value : string) (s : State A) : State A :=
  let apiValue :=
    if String.eqb value "all" || String.eqb value "" then Api.VUndefined
    else Api.VString value in
  setCurrentPage 1 (setFilters (mapSet (filters s) key apiValue) s).

Definition handlePageChange (newPage : Z) (s : State A) : State A :=
  if newPage >? 0 then setCurrentPage newPage s else s.

Definition clearFilters (s : State A) : State A :=
  setCurrentPage 1 (setFilters noFilters s).

End Page.

End ExpensesPage.

(** ** The footer of [src/components/expenses/expenses-list.tsx] *)

Module ExpensesListFooter.

Definition totalPages (totalCount pageSize : Z) : Z :=
  CategoriesPage.ceilDiv totalCount pageSize.

(** The two ends of ``Showing X - Y of N transactions''. *)
Definition showingFrom (shown : nat) (currentPage pageSize : Z) : Z :=
  if (Z.of_nat shown >? 0) then (currentPage - 1) * pageSize + 1 else 0.

Definition showingTo (currentPage pageSize totalCount : Z) : Z :=
  Z.min (currentPage * pageSize) totalCount.

End ExpensesListFooter.

(** ** The authentication context ([src/unnamed/part_005])

    [login], [signup] and [logout] call [fetch] themselves, not
    [fetchWithCreds].  Of the parsed body they read the properties [error]
    and [csrfToken], strings when present. *)

Module AuthContext.
Import Api.

Record AuthData := {
  data_error : option string;
  data_csrfToken : option string
}.

Record AuthResponse := {
  auth_ok : bool;
  auth_json : Api.Result AuthData
}.

Definition AuthTransport : Type := Api.Request -> Api.Result AuthResponse.

Record State := {
  user : option string;
  isLoading : bool;
  localStorage : Api.Storage;
  toasts : list Toast;
  pushed : list string
}.

Definition setItem (key value : string) (st : Api.Storage) : Api.Storage :=
  match st with
  | Some items => Some (<[key := value]> items)
  | None => None
  end.

Definition removeItem (key : string) (st : Api.Storage) : Api.Storage :=
  match st with
  | Some items => Some (delete key items)
  | None => None
  end.

(** [if (typeof window !== "undefined" && data.csrfToken) localStorage.setItem(...)]. *)
Definition storeToken (data : AuthData) (st : Api.Storage) : Api.Storage :=
  if Api.truthy (data_csrfToken data)
  then setItem "csrf_token" (default "" (data_csrfToken data)) st
  else st.

Definition credentialsRequest (h : Host) (path body : string) : Api.Request :=
  {| Api.req_url := Api.API_BASE_URL h +:+ path;
     Api.req_method := Some "POST";
     Api.req_credentials := "include";
     Api.req_headers := {[ "Content-Type" := "application/json" ]};
     Api.req_body := Some body |}.

(** The [try] block of [login] and [signup] up to the test of
    [response.ok]: the parsed body, or the message of what was thrown. *)
Definition authenticate (fetch : AuthTransport) (request : Api.Request)
    (fallback : string) : Api.Result AuthData :=
  let! response := fetch request in
  let! data := auth_json response in
  if negb (auth_ok response)
  then Api.Throw (Api.orElse (data_error data) fallback)
  else Api.Ok data.

Definition login (h : Host) (JSON_stringify : string -> string -> string)
    (fetch : AuthTransport) (email password : string) (s : State) : State :=
  match authenticate fetch
          (credentialsRequest h "/api/auth/login" (JSON_stringify email password))
          "Login failed" with
  | Api.Ok data =>
      {| user := Some email; isLoading := false;
         localStorage := storeToken data (localStorage s);
         toasts := toasts s ++ [(success, "Logged in successfully")];
         pushed := pushed s ++ ["/"] |}
  | Api.Throw message =>
      {| user := user s; isLoading := false; localStorage := localStorage s;
         toasts := toasts s ++ [(error, message)]; pushed := pushed s |}
  end.

Definition signup (h : Host) (JSON_stringify : string -> string -> string)
    (fetch : AuthTransport) (email password : string) (s : State) : State :=
  match authenticate fetch
          (credentialsRequest h "/api/auth/signup" (JSON_stringify email password))
          "Signup failed" with
  | Api.Ok data =>
      {| user := user s; isLoading := false;
         localStorage := storeToken data (localStorage s);
         toasts := toasts s
                   ++ [(success, "Account created successfully. Please log in.")];
         pushed := pushed s ++ ["/login"] |}
  | Api.Throw message =>
      {| user := user s; isLoading := false; localStorage := localStorage s;
         toasts := toasts s ++ [(error, message)]; pushed := pushed s |}
  end.

(** [logout]: whatever the call to the server does, the user and the
    stored token are dropped. *)
Definition logout (h : Host) (fetch : AuthTransport) (s : State) : State :=
  let _ :=
    fetch {| Api.req_url := Api.API_BASE_URL h +:+ "/api/auth/logout";
             Api.req_method := Some "POST";
             Api.req_credentials := "include";
             Api.req_headers := ∅;
             Api.req_body := None |} in
  {| user := None; isLoading := false;
     localStorage := removeItem "csrf_token" (localStorage s);
     toasts := toasts s ++ [(success, "Logged out successfully")];
     pushed := pushed s ++ ["/login"] |}.

(** The route guard: the effect that sends a visitor without a session to
    the login page. *)
Definition publicRoutes : list string := ["/login"; "/signup"].

Definition guard (pathname : string) (s : State) : State :=
  if negb (isLoading s) && negb (Analytics.isDefined (user s))
     && negb (existsb (String.eqb pathname) publicRoutes)
  then {| user := user s; isLoading := isLoading s; localStorage := localStorage s;
          toasts := toasts s; pushed := pushed s ++ ["/login"] |}
  else s.

End AuthContext.

(** ** The expense form ([src/unnamed/part_003]) *)

Module ExpenseForm.
Import Api.

(** A category or a payment method, as the form uses it. *)
Record Choice := {
  id : string;
  name : string;
  is_expense : bool
}.

Record FormState := {
  categories : list Choice;
  paymentMethods : list Choice;
  filteredCategories : list Choice;
  filteredPaymentMethods : list Choice;
  expenseType : Analytics.ExpenseType;
  category_id : string;
  payment_method_id : string
}.

Definition isIncome (t : Analytics.ExpenseType) : bool :=
  match t with
  | Analytics.Income => true
  | _ => false
  end.

(** The effect that follows the transaction type: both lists are filtered
    by the kind the type asks for, and a selection that is not in its
    filtered list is cleared. *)
Definition filterEffect (s : FormState) : FormState :=
  let targetIsExpense := negb (isIncome (expenseType s)) in
  let newFilteredCategories :=
    List.filter (fun c => Bool.eqb (is_expense c) targetIsExpense) (categories s) in
  let newFilteredPaymentMethods :=
    List.filter (fun pm => Bool.eqb (is_expense pm) targetIsExpense)
                (paymentMethods s) in
  let isCurrentCategoryValid :=
    existsb (fun c => String.eqb (id c) (category_id s)) newFilteredCategories in
  let isCurrentPaymentMethodValid :=
    existsb (fun pm => String.eqb (id pm) (payment_method_id s))
            newFilteredPaymentMethods in
  {| categories := categories s;
     paymentMethods := paymentMethods s;
     filteredCategories := newFilteredCategories;
     filteredPaymentMethods := newFilteredPaymentMethods;
     expenseType := expenseType s;
     category_id := if negb isCurrentCategoryValid then "" else category_id s;
     payment_method_id :=
       if negb isCurrentPaymentMethodValid then "" else payment_method_id s |}.

(** The user picks another transaction type; the effect runs on the
    change. *)
Definition selectType (t : Analytics.ExpenseType) (s : FormState) : FormState :=
  filterEffect
    {| categories := categories s;
       paymentMethods := paymentMethods s;
       filteredCategories := filteredCategories s;
       filteredPaymentMethods := filteredPaymentMethods s;
       expenseType := t;
       category_id := category_id s;
       payment_method_id := payment_method_id s |}.

(** The data the form submits. *)
Record ExpenseFormData (num : Type) := {
  data_category_id : string;
  data_payment_method_id : string;
  data_amount : num;
  data_type : Analytics.ExpenseType;
  data_description : string;
  data_timestamp : string
}.
Arguments data_category_id {num} _.
Arguments data_payment_method_id {num} _.
Arguments data_amount {num} _.
Arguments data_type {num} _.
Arguments data_description {num} _.
Arguments data_timestamp {num} _.

Definition withTimestamp {num : Type} (data : ExpenseFormData num) (ts : string)
  : ExpenseFormData num :=
  {| data_category_id := data_category_id data;
     data_payment_method_id := data_payment_method_id data;
     data_amount := data_amount data;
     data_type := data_type data;
     data_description := data_description data;
     data_timestamp := ts |}.

(** [new Date(value).toISOString()], a [RangeError] on an invalid date. *)
Definition isoTimestamp (h : Host) (value : string) : Api.Result string :=
  Api.isoOfUTC (JSDate.parse (parseOther h) value).

(** What a submission leaves behind. *)
Record Submitted := {
  formToasts : list Toast;
  succeeded : bool;
  closed : bool
}.

Definition onSubmit {A num : Type} (h : Host)
    (JSON_stringify : ExpenseFormData num -> string)
    (fetch : Api.Transport A) (localStorage : Api.Storage)
    (expenseToEdit : option string) (data : ExpenseFormData num) : Submitted :=
  let saved :=
    let! timestamp := isoTimestamp h (data_timestamp data) in
    let data := withTimestamp data timestamp in
    match expenseToEdit with
    | Some id =>
        let! _ := ApiClients.updateExpense h JSON_stringify fetch localStorage id data in
        Api.Ok "Transaction updated successfully"
    | None =>
        let! _ := ApiClients.createExpense h JSON_stringify fetch localStorage data in
        Api.Ok "Transaction added successfully"
    end in
  match saved with
  | Api.Ok note =>
      {| formToasts := [(success, note)]; succeeded := true; closed := true |}
  | Api.Throw message =>
      {| formToasts := [(error, message)]; succeeded := false; closed := false |}
  end.

End ExpenseForm.

(** * Properties *)

(** ** Calendar arithmetic *)

Module JSDateFacts.
Import JSDate.

Lemma quarter_step (y : Z) :
  (y + 1 - 1969) / 4 = (y - 1969) / 4 + (if y mod 4 =? 0 then 1 else 0).
Proof. destruct (Z.eqb_spec (y mod 4) 0); Z.div_mod_to_equations; lia. Qed.

Lemma century_step (y : Z) :
  (y + 1 - 1901) / 100 = (y - 1901) / 100 + (if y mod 100 =? 0 then 1 else 0).
Proof. destruct (Z.eqb_spec (y mod 100) 0); Z.div_mod_to_equations; lia. Qed.

Lemma cycle_step (y : Z) :
  (y + 1 - 1601) / 400 = (y - 1601) / 400 + (if y mod 400 =? 0 then 1 else 0).
Proof. destruct (Z.eqb_spec (y mod 400) 0); Z.div_mod_to_equations; lia. Qed.

(** A year ends [DaysInYear] days after it starts. *)
Lemma DayFromYear_succ (y : Z) : DayFromYear (y + 1) = DayFromYear y + DaysInYear y.
Proof.
  unfold DayFromYear, DaysInYear, isLeap.
  rewrite quarter_step, century_step, cycle_step.
  assert (H400 : y mod 400 = 0 -> y mod 100 = 0)
    by (intros; Z.div_mod_to_equations; lia).
  assert (H100 : y mod 100 = 0 -> y mod 4 = 0)
    by (intros; Z.div_mod_to_equations; lia).
  destruct (Z.eqb_spec (y mod 4) 0), (Z.eqb_spec (y mod 100) 0),
    (Z.eqb_spec (y mod 400) 0); cbn [andb orb negb]; lia.
Qed.

Lemma DayFromYear_lt (y1 y2 : Z) : y1 < y2 -> DayFromYear (y1 + 1) <= DayFromYear y2.
Proof. unfold DayFromYear. intros Hlt. Z.div_mod_to_equations. lia. Qed.

(** [YearFromDay] meets its definition in ECMA-262: the year it returns
    contains the day. *)
Lemma YearFromDay_bounds (d : Z) :
  DayFromYear (YearFromDay d) <= d < DayFromYear (YearFromDay d + 1).
Proof.
  unfold YearFromDay. cbv zeta.
  set (y := 1970 + 400 * d / 146097).
  assert (Hlow : DayFromYear (y - 1) <= d)
    by (subst y; unfold DayFromYear; Z.div_mod_to_equations; lia).
  assert (Hhigh : d < DayFromYear (y + 1 + 1))
    by (subst y; unfold DayFromYear; Z.div_mod_to_equations; lia).
  destruct (Z.ltb_spec d (DayFromYear y)).
  - replace (y - 1 + 1) with y by lia. lia.
  - destruct (Z.leb_spec (DayFromYear (y + 1)) d); lia.
Qed.

Lemma YearFromDay_unique (d y : Z) :
  DayFromYear y <= d < DayFromYear (y + 1) -> YearFromDay d = y.
Proof.
  intros Hd. pose proof (YearFromDay_bounds d) as Hb.
  destruct (Z.lt_trichotomy (YearFromDay d) y) as [Hlt | [Heq | Hgt]].
  - pose proof (DayFromYear_lt _ _ Hlt). lia.
  - exact Heq.
  - pose proof (DayFromYear_lt _ _ Hgt). lia.
Qed.

Definition validMonthDay (y m d : Z) : Prop :=
  0 <= m <= 11 /\ 1 <= d <= DaysInMonth y m.

Lemma month_cases (m : Z) :
  0 <= m <= 11 ->
  m = 0 \/ m = 1 \/ m = 2 \/ m = 3 \/ m = 4 \/ m = 5 \/ m = 6 \/ m = 7
  \/ m = 8 \/ m = 9 \/ m = 10 \/ m = 11.
Proof. lia. Qed.

Lemma MakeDay_in_year (y m d : Z) :
  validMonthDay y m d ->
  MakeDay y m d = DayFromYear y + daysBeforeMonth (isLeap y) m + d - 1
  /\ 0 <= daysBeforeMonth (isLeap y) m + d - 1 < DaysInYear y.
Proof.
  intros [Hm Hd]. unfold MakeDay. cbv zeta.
  replace (m / 12) with 0 by (Z.div_mod_to_equations; lia).
  replace (m mod 12) with m by (Z.div_mod_to_equations; lia).
  rewrite Z.add_0_r. split; [ reflexivity | ].
  unfold DaysInMonth, DaysInYear in *.
  destruct (isLeap y);
    destruct (month_cases m Hm) as
      [-> | [-> | [-> | [-> | [-> | [-> | [-> | [-> | [-> | [-> | [-> | ->]]]]]]]]]]];
    vm_compute daysBeforeMonth in *; lia.
Qed.

(** Year, month and day of the month are read back from a day number made
    of them. *)
Lemma civil_of_MakeDay (y m d : Z) :
  validMonthDay y m d ->
  YearFromDay (MakeDay y m d) = y
  /\ monthOfYearDay (isLeap y) (MakeDay y m d - DayFromYear y) = m
  /\ MakeDay y m d - DayFromYear y - daysBeforeMonth (isLeap y) m + 1 = d.
Proof.
  intros Hv. destruct (MakeDay_in_year y m d Hv) as [-> Hb].
  pose proof (DayFromYear_succ y) as Hs.
  split; [ apply YearFromDay_unique; lia | split; [ | lia ] ].
  destruct Hv as [Hm Hd].
  replace (DayFromYear y + daysBeforeMonth (isLeap y) m + d - 1 - DayFromYear y)
    with (daysBeforeMonth (isLeap y) m + d - 1) by lia.
  unfold DaysInMonth in Hd. unfold monthOfYearDay. cbv zeta.
  destruct (isLeap y);
    destruct (month_cases m Hm) as
      [-> | [-> | [-> | [-> | [-> | [-> | [-> | [-> | [-> | [-> | [-> | ->]]]]]]]]]]];
    vm_compute daysBeforeMonth in *;
    repeat match goal with
           | |- context [ ?a <? ?b ] => destruct (Z.ltb_spec a b); try lia
           end.
Qed.

Lemma Day_MakeDate (day time : Z) :
  0 <= time < msPerDay -> Day (MakeDate day time) = day.
Proof.
  unfold Day, MakeDate, msPerDay. intros Ht. Z.div_mod_to_equations. lia.
Qed.

(** The calendar fields of a time value within a given day. *)
Lemma fields_of_MakeDate (y m d time : Z) :
  validMonthDay y m d -> 0 <= time < msPerDay ->
  let t := MakeDate (MakeDay y m d) time in
  YearFromTime t = y /\ MonthFromTime t = m /\ DateFromTime t = d.
Proof.
  intros Hv Ht t. destruct (civil_of_MakeDay y m d Hv) as (Hy & Hm & Hd).
  assert (Hday : Day t = MakeDay y m d) by (apply Day_MakeDate; exact Ht).
  assert (Hyear : YearFromTime t = y) by (unfold YearFromTime; now rewrite Hday).
  assert (Hmonth : MonthFromTime t = m).
  { unfold MonthFromTime, InLeapYear, DayWithinYear. now rewrite Hyear, Hday. }
  repeat split; [ exact Hyear | exact Hmonth | ].
  unfold DateFromTime, InLeapYear, DayWithinYear. rewrite Hmonth, Hyear, Hday. exact Hd.
Qed.

Lemma time_of_day (day time : Z) :
  0 <= time < msPerDay ->
  let t := MakeDate day time in
  HourFromTime t = time / msPerHour
  /\ MinFromTime t = (time / msPerMinute) mod 60
  /\ SecFromTime t = (time / msPerSecond) mod 60
  /\ msFromTime t = time mod msPerSecond.
Proof.
  unfold HourFromTime, MinFromTime, SecFromTime, msFromTime, MakeDate,
    msPerDay, msPerHour, msPerMinute, msPerSecond.
  intros Ht. cbv zeta. repeat split; Z.div_mod_to_equations; lia.
Qed.

(** *** Digits *)

Lemma digit_roundtrip (c : ascii) :
  isDigit c = true -> 0 <= digitVal c <= 9 /\ digitChar (digitVal c) = c.
Proof.
  destruct c as [[] [] [] [] [] [] [] []]; intros Hc;
    try discriminate Hc; split; try reflexivity; vm_compute; split; discriminate.
Qed.

Lemma padDigits_step (n : nat) (v : Z) (c : ascii) :
  isDigit c = true ->
  padDigits (S n) (10 * v + digitVal c) = padDigits n v +:+ String c EmptyString.
Proof.
  intros Hc. destruct (digit_roundtrip c Hc) as [Hb Hr].
  cbn [padDigits].
  replace ((10 * v + digitVal c) / 10) with v by (Z.div_mod_to_equations; lia).
  do 2 f_equal. rewrite <- Hr at 2. unfold digitChar. do 3 f_equal.
  Z.div_mod_to_equations; lia.
Qed.

(** The ten characters of a string of the form YYYY-MM-DD. *)
Lemma isDatePattern_inv (s : string) :
  isDatePattern s = true ->
  exists y1 y2 y3 y4 m1 m2 d1 d2,
    s = String y1 (String y2 (String y3 (String y4 (String "-"
          (String m1 (String m2 (String "-" (String d1 (String d2 EmptyString)))))))))
    /\ (isDigit y1 = true /\ isDigit y2 = true /\ isDigit y3 = true /\ isDigit y4 = true)
    /\ (isDigit m1 = true /\ isDigit m2 = true)
    /\ (isDigit d1 = true /\ isDigit d2 = true).
Proof.
  intros Hs.
  destruct s as [ | y1 [ | y2 [ | y3 [ | y4 [ | h1 [ | m1 [ | m2 [ | h2 [ | d1
    [ | d2 [ | ? ? ] ] ] ] ] ] ] ] ] ] ]; try discriminate Hs.
  cbn [isDatePattern] in Hs. rewrite !andb_true_iff in Hs.
  destruct Hs as (((((((((H1 & H2) & H3) & H4) & Hh1) & H5) & H6) & Hh2) & H7) & H8).
  apply Ascii.eqb_eq in Hh1, Hh2. subst h1 h2.
  exists y1, y2, y3, y4, m1, m2, d1, d2. auto 10.
Qed.

(** Printing the fields of a date string gives its pieces back. *)
Lemma print_fields (s : string) :
  isDatePattern s = true ->
  0 <= yearField s <= 9999
  /\ padDigits 4 (yearField s) +:+ "-" +:+ padDigits 2 (monthField s)
     +:+ "-" +:+ padDigits 2 (dayField s) = s.
Proof.
  intros Hs.
  destruct (isDatePattern_inv s Hs)
    as (y1 & y2 & y3 & y4 & m1 & m2 & d1 & d2 & -> & (H1 & H2 & H3 & H4)
        & (H5 & H6) & (H7 & H8)).
  unfold yearField, monthField, dayField.
  cbn [substring digitsVal].
  split.
  - pose proof (digit_roundtrip y1 H1). pose proof (digit_roundtrip y2 H2).
    pose proof (digit_roundtrip y3 H3). pose proof (digit_roundtrip y4 H4). lia.
  - rewrite !padDigits_step by assumption. reflexivity.
Qed.

Lemma append_assoc (a b c : string) : (a +:+ b) +:+ c = a +:+ (b +:+ c).
Proof.
  induction a as [ | x a IH ]; [ reflexivity | ].
  change (String x ((a +:+ b) +:+ c) = String x (a +:+ (b +:+ c))).
  now rewrite IH.
Qed.

Lemma isCalendarDate_inv (s : string) :
  isCalendarDate s = true ->
  isDatePattern s = true
  /\ validMonthDay (yearField s) (monthField s - 1) (dayField s).
Proof.
  unfold isCalendarDate, validMonthDay. rewrite !andb_true_iff.
  intros ((((Hp & Hm1) & Hm2) & Hd1) & Hd2).
  apply Z.leb_le in Hm1, Hm2, Hd1, Hd2. repeat split; try assumption; lia.
Qed.

(** Time values of the years 0000 to 9999 are in the range of [Date]. *)
Lemma TimeClip_four_digits (y m d time : Z) :
  validMonthDay y m d -> 0 <= y <= 9999 -> 0 <= time < msPerDay ->
  TimeClip (MakeDate (MakeDay y m d) time) = Some (MakeDate (MakeDay y m d) time).
Proof.
  intros Hv Hy Ht. destruct (MakeDay_in_year y m d Hv) as [-> Hb].
  unfold TimeClip.
  destruct (Z.leb_spec
    (Z.abs (MakeDate (DayFromYear y + daysBeforeMonth (isLeap y) m + d - 1) time))
    maxTime) as [ _ | Hbig ]; [ reflexivity | exfalso ].
  unfold DaysInYear in Hb.
  assert (Hdy : -720000 <= DayFromYear y <= 2940000)
    by (unfold DayFromYear; Z.div_mod_to_equations; lia).
  unfold MakeDate, maxTime, msPerDay in *. destruct (isLeap y); lia.
Qed.

(** [Date.parse] of a calendar date is midnight UTC of that day. *)
Lemma parse_calendar_date (other : string -> option Z) (s : string) :
  isCalendarDate s = true ->
  parse other s = Some (MakeDate (MakeDay (yearField s) (monthField s - 1) (dayField s)) 0).
Proof.
  intros Hs. unfold parse. rewrite Hs.
  destruct (isCalendarDate_inv s Hs) as [Hp Hv].
  apply TimeClip_four_digits; [ exact Hv | apply (print_fields s Hp) | ].
  unfold msPerDay. lia.
Qed.

(** Two calendar dates that parse to the same instant are the same text. *)
Lemma parse_calendar_date_inj (other : string -> option Z) (s1 s2 : string) :
  isCalendarDate s1 = true -> isCalendarDate s2 = true ->
  parse other s1 = parse other s2 -> s1 = s2.
Proof.
  intros H1 H2. rewrite !parse_calendar_date by assumption.
  destruct (isCalendarDate_inv s1 H1) as [Hp1 Hv1].
  destruct (isCalendarDate_inv s2 H2) as [Hp2 Hv2].
  intros [= Heq].
  assert (Hday : MakeDay (yearField s1) (monthField s1 - 1) (dayField s1)
                 = MakeDay (yearField s2) (monthField s2 - 1) (dayField s2))
    by (unfold MakeDate, msPerDay in Heq; lia).
  destruct (civil_of_MakeDay _ _ _ Hv1) as (Hy1 & Hm1 & Hd1).
  destruct (civil_of_MakeDay _ _ _ Hv2) as (Hy2 & Hm2 & Hd2).
  rewrite Hday in Hy1, Hm1, Hd1.
  assert (Hy : yearField s1 = yearField s2) by congruence.
  rewrite Hy in Hm1, Hd1.
  assert (Hm : monthField s1 = monthField s2) by lia.
  assert (Hd : dayField s1 = dayField s2).
  { rewrite Hm in Hd1. congruence. }
  rewrite <- (proj2 (print_fields s1 Hp1)), <- (proj2 (print_fields s2 Hp2)).
  now rewrite Hy, Hm, Hd.
Qed.

(** *** Reading a printed date back *)

Lemma digitVal_digitChar (v : Z) : digitVal (digitChar v) = v mod 10.
Proof.
  assert (Hv : 0 <= v mod 10 < 10) by (apply Z.mod_pos_bound; lia).
  unfold digitChar. generalize dependent (v mod 10). intros d Hd.
  assert (Hc : d = 0 \/ d = 1 \/ d = 2 \/ d = 3 \/ d = 4 \/ d = 5 \/ d = 6
               \/ d = 7 \/ d = 8 \/ d = 9) by lia.
  destruct Hc as [-> | [-> | [-> | [-> | [-> | [-> | [-> | [-> | [-> | ->]]]]]]]]];
    reflexivity.
Qed.

Lemma digitsVal_app (acc : Z) (a b : string) :
  digitsVal acc (a +:+ b) = digitsVal (digitsVal acc a) b.
Proof.
  revert acc. induction a as [ | c a IH ]; intros acc; [ reflexivity | ].
  change (String c a +:+ b) with (String c (a +:+ b)). cbn [digitsVal]. apply IH.
Qed.

Lemma digitsVal_padDigits (n : nat) (v : Z) :
  0 <= v -> digitsVal 0 (padDigits n v) = v mod 10 ^ Z.of_nat n.
Proof.
  revert v. induction n as [ | n IH ]; intros v Hv.
  - cbn [padDigits digitsVal Z.of_nat]. now rewrite Z.pow_0_r, Z.mod_1_r.
  - cbn [padDigits]. rewrite digitsVal_app, IH by (apply Z.div_pos; lia).
    cbn [digitsVal]. rewrite digitVal_digitChar.
    rewrite Nat2Z.inj_succ, Z.pow_succ_r by lia.
    assert (Hp : 0 < 10 ^ Z.of_nat n) by (apply Z.pow_pos_nonneg; lia).
    rewrite Z.rem_mul_r by lia. ring.
Qed.

Lemma length_padDigits (n : nat) (v : Z) : String.length (padDigits n v) = n.
Proof.
  revert v. induction n as [ | n IH ]; intros v; [ reflexivity | ].
  cbn [padDigits]. generalize (IH (v / 10)). generalize (padDigits n (v / 10)).
  intros a <-. clear IH. induction a as [ | c a IHa ]; [ reflexivity | ].
  change (String c a +:+ String (digitChar v) EmptyString)
    with (String c (a +:+ String (digitChar v) EmptyString)).
  cbn [String.length]. now rewrite IHa.
Qed.

(** Texts of equal length at the head of equal texts are equal. *)
Lemma append_inj_length (a a' b b' : string) :
  String.length a = String.length a' -> a +:+ b = a' +:+ b' -> a = a' /\ b = b'.
Proof.
  revert a'. induction a as [ | c a IH ]; intros [ | c' a' ] Hlen Heq;
    try discriminate Hlen.
  - now split.
  - change (String c (a +:+ b) = String c' (a' +:+ b')) in Heq.
    injection Heq as -> Heq. injection Hlen as Hlen.
    destruct (IH a' Hlen Heq) as [-> ->]. now split.
Qed.

Lemma padDigits_inj (n : nat) (v v' : Z) :
  0 <= v < 10 ^ Z.of_nat n -> 0 <= v' < 10 ^ Z.of_nat n ->
  padDigits n v = padDigits n v' -> v = v'.
Proof.
  intros Hv Hv' Heq. apply (f_equal (digitsVal 0)) in Heq.
  rewrite !digitsVal_padDigits in Heq by lia.
  now rewrite !Z.mod_small in Heq by lia.
Qed.

(** The text [toISOString] prints for a time value of a four-digit year. *)
Lemma toISOString_fields (y m d time : Z) :
  validMonthDay y m d -> 0 <= y <= 9999 -> 0 <= time < msPerDay ->
  toISOString (MakeDate (MakeDay y m d) time) =
  (padDigits 4 y +:+ "-" +:+ padDigits 2 (m + 1) +:+ "-" +:+ padDigits 2 d)
  +:+ "T" +:+ padDigits 2 (time / msPerHour)
  +:+ ":" +:+ padDigits 2 ((time / msPerMinute) mod 60)
  +:+ ":" +:+ padDigits 2 ((time / msPerSecond) mod 60)
  +:+ "." +:+ padDigits 3 (time mod msPerSecond) +:+ "Z".
Proof.
  intros Hv Hy Ht.
  destruct (fields_of_MakeDate y m d time Hv Ht) as (Hyear & Hmonth & Hdate).
  destruct (time_of_day (MakeDay y m d) time Ht) as (Hh & Hmi & Hs & Hms).
  unfold toISOString. cbv zeta.
  rewrite Hyear, Hmonth, Hdate, Hh, Hmi, Hs, Hms.
  replace ((0 <=? y) && (y <=? 9999)) with true
    by (symmetry; apply andb_true_iff; split; apply Z.leb_le; lia).
  rewrite !append_assoc. reflexivity.
Qed.

(** *** From a time value back to its day *)

Lemma YearFromDay_between (n a b : Z) :
  DayFromYear a <= n < DayFromYear b -> a <= YearFromDay n < b.
Proof.
  intros Hn. pose proof (YearFromDay_bounds n) as Hb.
  split.
  - destruct (Z.lt_ge_cases (YearFromDay n) a) as [Hlt | Hge]; [ | lia ].
    pose proof (DayFromYear_lt _ _ Hlt). lia.
  - destruct (Z.lt_ge_cases (YearFromDay n) b) as [Hlt | Hge]; [ exact Hlt | ].
    assert (DayFromYear b <= DayFromYear (YearFromDay n))
      by (unfold DayFromYear; Z.div_mod_to_equations; lia).
    lia.
Qed.

Lemma monthOfYearDay_range (leap : bool) (d : Z) : 0 <= monthOfYearDay leap d <= 11.
Proof.
  unfold monthOfYearDay. cbv zeta.
  repeat match goal with
         | |- context [ if ?a <? ?b then _ else _ ] => destruct (a <? b); cbv iota
         end; lia.
Qed.

(** A day number is made of its own year, month and day of the month. *)
Lemma Day_of_fields (t : Z) :
  Day t = DayFromYear (YearFromTime t)
          + daysBeforeMonth (isLeap (YearFromTime t)) (MonthFromTime t)
          + DateFromTime t - 1.
Proof. unfold DateFromTime, DayWithinYear, InLeapYear. lia. Qed.

Lemma MakeDay_of_fields (t : Z) :
  MakeDay (YearFromTime t) (MonthFromTime t) (DateFromTime t) = Day t.
Proof.
  pose proof (monthOfYearDay_range (InLeapYear t) (DayWithinYear t)) as Hm.
  fold (MonthFromTime t) in Hm. unfold MakeDay. cbv zeta.
  replace (MonthFromTime t / 12) with 0 by (Z.div_mod_to_equations; lia).
  replace (MonthFromTime t mod 12) with (MonthFromTime t)
    by (Z.div_mod_to_equations; lia).
  rewrite Z.add_0_r. symmetry. apply Day_of_fields.
Qed.

Lemma DateFromTime_range (t : Z) : 1 <= DateFromTime t <= 31.
Proof.
  pose proof (YearFromDay_bounds (Day t)) as Hb.
  rewrite DayFromYear_succ in Hb. fold (YearFromTime t) in Hb.
  unfold DateFromTime, MonthFromTime, InLeapYear, DayWithinYear.
  unfold DaysInYear in Hb.
  set (w := Day t - DayFromYear (YearFromTime t)).
  assert (Hw : 0 <= w < (if isLeap (YearFromTime t) then 366 else 365))
    by (subst w; lia).
  clearbody w. clear Hb. unfold monthOfYearDay. cbv zeta.
  destruct (isLeap (YearFromTime t));
    repeat match goal with
           | |- context [ if ?a <? ?b then _ else _ ] =>
               destruct (Z.ltb_spec a b); cbv iota
           end;
    lazy [daysBeforeMonth Z.leb Z.eqb Z.compare Pos.compare Pos.compare_cont Pos.eqb];
    lia.
Qed.

(** Within the years 0000 to 9999 the printed text tells the day. *)
Lemma toISOString_day_inj (t1 t2 : Z) :
  0 <= YearFromTime t1 <= 9999 -> 0 <= YearFromTime t2 <= 9999 ->
  toISOString t1 = toISOString t2 -> Day t1 = Day t2.
Proof.
  intros Hy1 Hy2. unfold toISOString. cbv zeta.
  replace ((0 <=? YearFromTime t1) && (YearFromTime t1 <=? 9999)) with true
    by (symmetry; apply andb_true_iff; split; apply Z.leb_le; lia).
  replace ((0 <=? YearFromTime t2) && (YearFromTime t2 <=? 9999)) with true
    by (symmetry; apply andb_true_iff; split; apply Z.leb_le; lia).
  intros Heq.
  apply append_inj_length in Heq; [ | now rewrite !length_padDigits ].
  destruct Heq as [Hy Heq].
  apply (append_inj_length "-" "-") in Heq; [ | reflexivity ].
  destruct Heq as [_ Heq].
  apply append_inj_length in Heq; [ | now rewrite !length_padDigits ].
  destruct Heq as [Hm Heq].
  apply (append_inj_length "-" "-") in Heq; [ | reflexivity ].
  destruct Heq as [_ Heq].
  apply append_inj_length in Heq; [ | now rewrite !length_padDigits ].
  destruct Heq as [Hd _].
  pose proof (monthOfYearDay_range (InLeapYear t1) (DayWithinYear t1)) as Hm1.
  pose proof (monthOfYearDay_range (InLeapYear t2) (DayWithinYear t2)) as Hm2.
  fold (MonthFromTime t1) in Hm1. fold (MonthFromTime t2) in Hm2.
  pose proof (DateFromTime_range t1) as Hd1.
  pose proof (DateFromTime_range t2) as Hd2.
  apply padDigits_inj in Hy; [ | cbn; lia | cbn; lia ].
  apply padDigits_inj in Hm; [ | cbn; lia | cbn; lia ].
  apply padDigits_inj in Hd; [ | cbn; lia | cbn; lia ].
  rewrite (Day_of_fields t1), (Day_of_fields t2), Hy, Hd.
  replace (MonthFromTime t1) with (MonthFromTime t2) by lia. reflexivity.
Qed.

End JSDateFacts.

(** ** Date normalisation of the resource clients *)

Module DateNormalisation.
Import JSDate JSDateFacts Api.

(** The local calendar day of midnight UTC, east of Greenwich, is the same
    day. *)
Lemma local_fields_east (tza : Z -> Z) (y m d : Z) :
  validMonthDay y m d ->
  let t := MakeDate (MakeDay y m d) 0 in
  0 <= tza t < msPerDay ->
  getFullYear tza t = y /\ getMonth tza t = m /\ getDate tza t = d.
Proof.
  intros Hv t Hz. unfold getFullYear, getMonth, getDate, LocalTime.
  replace (t + tza t) with (MakeDate (MakeDay y m d) (tza t))
    by (subst t; unfold MakeDate; lia).
  apply fields_of_MakeDate; assumption.
Qed.

Lemma UTC_four_digits (y m d hh mm ss ms : Z) :
  validMonthDay y m d -> 100 <= y <= 9999 ->
  0 <= MakeTime hh mm ss ms < msPerDay ->
  UTC y m d hh mm ss ms = Some (MakeDate (MakeDay y m d) (MakeTime hh mm ss ms)).
Proof.
  intros Hv Hy Ht. unfold UTC. cbv zeta.
  replace ((0 <=? y) && (y <=? 99)) with false
    by (symmetry; apply andb_false_iff; right; apply Z.leb_gt; lia).
  apply TimeClip_four_digits; [ assumption | lia | assumption ].
Qed.

Ltac time_bounds :=
  unfold MakeTime, msPerDay, msPerHour, msPerMinute, msPerSecond in *; lia.

(** What holds of the conversion: for a calendar date of a year from 0100
    on, read on a host whose offset from UTC is zero or positive (and less
    than a day), the start boundary is midnight UTC of that day and the end
    boundary its last millisecond. *)
Theorem day_boundaries_east (h : Host) (s : string) :
  isCalendarDate s = true -> 100 <= yearField s ->
  (forall t, 0 <= LocalTZA h t < msPerDay) ->
  startOfDayUTC h s = Ok (s +:+ "T00:00:00.000Z")
  /\ endOfDayUTC h s = Ok (s +:+ "T23:59:59.999Z").
Proof.
  intros Hs Hy Hz.
  destruct (isCalendarDate_inv s Hs) as [Hp Hv].
  destruct (print_fields s Hp) as [Hyr Hprint].
  unfold startOfDayUTC, endOfDayUTC.
  rewrite (parse_calendar_date (parseOther h) s Hs).
  destruct (local_fields_east (LocalTZA h) _ _ _ Hv (Hz _)) as (-> & -> & ->).
  rewrite !UTC_four_digits by (first [ assumption | time_bounds ]).
  unfold isoOfUTC.
  rewrite !toISOString_fields by (first [ assumption | time_bounds ]).
  replace (monthField s - 1 + 1) with (monthField s) by lia.
  rewrite Hprint. split; reflexivity.
Qed.

Lemma day_boundaries_east_witness :
  startOfDayUTC (fixedOffsetHost 330) "2024-02-29" = Ok "2024-02-29T00:00:00.000Z"
  /\ endOfDayUTC (fixedOffsetHost 330) "2024-02-29" = Ok "2024-02-29T23:59:59.999Z".
Proof.
  apply (day_boundaries_east (fixedOffsetHost 330) "2024-02-29").
  - reflexivity.
  - vm_compute. intros [=].
  - intros t. cbv [fixedOffsetHost LocalTZA msPerMinute msPerDay]. lia.
Defined.

(** West of Greenwich the local calendar day of midnight UTC is the day
    before. *)
Lemma local_fields_west (tza : Z -> Z) (day : Z) :
  let t := MakeDate day 0 in
  let eve := MakeDate (day - 1) 0 in
  - msPerDay <= tza t < 0 ->
  getFullYear tza t = YearFromTime eve
  /\ getMonth tza t = MonthFromTime eve
  /\ getDate tza t = DateFromTime eve.
Proof.
  intros t eve Hz.
  assert (Hday : Day (LocalTime tza t) = Day eve).
  { unfold LocalTime. subst t eve.
    replace (MakeDate day 0 + tza (MakeDate day 0))
      with (MakeDate (day - 1) (msPerDay + tza (MakeDate day 0)))
      by (unfold MakeDate; lia).
    rewrite !Day_MakeDate; [ reflexivity | unfold msPerDay; lia | lia ]. }
  unfold getFullYear, getMonth, getDate, DateFromTime, MonthFromTime,
    InLeapYear, DayWithinYear, YearFromTime.
  rewrite Hday. repeat split; reflexivity.
Qed.

(** X2. On every host west of Greenwich (up to a day behind UTC), and for
    every calendar date from the year 0101 on, both boundaries are instants
    of the day before, and the start boundary is not midnight UTC of the
    date given. *)
Theorem day_boundaries_west (h : Host) (s : string) :
  isCalendarDate s = true -> 101 <= yearField s ->
  (forall t, - msPerDay <= LocalTZA h t < 0) ->
  let eve := MakeDay (yearField s) (monthField s - 1) (dayField s) - 1 in
  startOfDayUTC h s = Ok (toISOString (MakeDate eve 0))
  /\ endOfDayUTC h s = Ok (toISOString (MakeDate eve (MakeTime 23 59 59 999)))
  /\ startOfDayUTC h s <> Ok (s +:+ "T00:00:00.000Z").
Proof.
  intros Hs Hy Hz eve.
  destruct (isCalendarDate_inv s Hs) as [Hp Hv].
  destruct (print_fields s Hp) as [Hyr Hprint].
  set (day := MakeDay (yearField s) (monthField s - 1) (dayField s)) in *.
  destruct (MakeDay_in_year _ _ _ Hv) as [Hday Hin]. fold day in Hday.
  pose proof (DayFromYear_succ (yearField s)) as Hsucc.
  assert (Hprev : DayFromYear 100 <= eve < DayFromYear (yearField s + 1)).
  { assert (DayFromYear 101 <= DayFromYear (yearField s))
      by (unfold DayFromYear; Z.div_mod_to_equations; lia).
    assert (DayFromYear 100 < DayFromYear 101) by (vm_compute; reflexivity).
    subst eve. lia. }
  apply YearFromDay_between in Hprev.
  assert (Heve : forall time, 0 <= time < msPerDay ->
            YearFromTime (MakeDate eve time) = YearFromDay eve)
    by (intros time Ht; unfold YearFromTime; now rewrite Day_MakeDate).
  assert (Hutc : forall hh mm ss ms, 0 <= MakeTime hh mm ss ms < msPerDay ->
            UTC (YearFromTime (MakeDate eve 0)) (MonthFromTime (MakeDate eve 0))
                (DateFromTime (MakeDate eve 0)) hh mm ss ms
            = Some (MakeDate eve (MakeTime hh mm ss ms))).
  { intros hh mm ss ms Ht. unfold UTC. cbv zeta.
    rewrite (Heve 0) by time_bounds.
    replace ((0 <=? YearFromDay eve) && (YearFromDay eve <=? 99)) with false
      by (symmetry; apply andb_false_iff; right; apply Z.leb_gt; lia).
    rewrite <- (Heve 0) by time_bounds.
    rewrite MakeDay_of_fields, Day_MakeDate by time_bounds.
    unfold TimeClip.
    destruct (Z.leb_spec (Z.abs (MakeDate eve (MakeTime hh mm ss ms))) maxTime)
      as [ _ | Hbig ]; [ reflexivity | exfalso ].
    assert (Hdy : -720000 <= DayFromYear (yearField s) <= 2940000)
      by (unfold DayFromYear; Z.div_mod_to_equations; lia).
    unfold DaysInYear in Hin. subst eve.
    unfold MakeDate, maxTime, msPerDay in *. destruct (isLeap (yearField s)); lia. }
  assert (Hstart : startOfDayUTC h s = Ok (toISOString (MakeDate eve 0))).
  { unfold startOfDayUTC. rewrite (parse_calendar_date (parseOther h) s Hs).
    fold day.
    destruct (local_fields_west (LocalTZA h) day (Hz _)) as (-> & -> & ->).
    fold eve. rewrite Hutc by time_bounds. reflexivity. }
  split; [ exact Hstart | ]. split.
  - unfold endOfDayUTC. rewrite (parse_calendar_date (parseOther h) s Hs).
    fold day.
    destruct (local_fields_west (LocalTZA h) day (Hz _)) as (-> & -> & ->).
    fold eve. rewrite Hutc by time_bounds. reflexivity.
  - rewrite Hstart. intros [= Heq].
    assert (Hiso : s +:+ "T00:00:00.000Z" = toISOString (MakeDate day 0)).
    { subst day. rewrite toISOString_fields by (first [ assumption | time_bounds ]).
      replace (monthField s - 1 + 1) with (monthField s) by lia.
      rewrite Hprint. reflexivity. }
    rewrite Hiso in Heq. apply toISOString_day_inj in Heq.
    + rewrite !Day_MakeDate in Heq by time_bounds. subst eve. lia.
    + rewrite (Heve 0) by time_bounds. lia.
    + unfold YearFromTime. rewrite Day_MakeDate by time_bounds.
      subst day. destruct (civil_of_MakeDay _ _ _ Hv) as (-> & _). lia.
Qed.

Lemma day_boundaries_west_witness :
  startOfDayUTC (fixedOffsetHost (-480)) "2024-03-01" <> Ok "2024-03-01T00:00:00.000Z".
Proof.
  refine (proj2 (proj2 (day_boundaries_west (fixedOffsetHost (-480)) "2024-03-01"
                          eq_refl _ _))).
  - vm_compute. intros [=].
  - intros t. cbv [fixedOffsetHost LocalTZA msPerMinute msPerDay]. lia.
Defined.

(** C1 (the code departs from it).  On a host west of Greenwich, here five
    hours behind UTC, the calendar date 2024-01-15 is sent as the instants
    of 14 January: the date is parsed as midnight UTC and its year, month
    and day are then read in local time, where it still is the evening
    before. *)
Theorem day_boundaries_west_of_utc :
  let h := fixedOffsetHost (-300) in
  expenseParams h [("startDate", VString "2024-01-15")] []
    = Ok [("startDate", "2024-01-14T00:00:00.000Z")]
  /\ averageSpendParams h "2024-01-15" "2024-01-15"
    = Ok [("startDate", "2024-01-14T00:00:00.000Z");
          ("endDate", "2024-01-14T23:59:59.999Z")].
Proof. split; vm_compute; reflexivity. Qed.

(** A year below 0100 is moved into the twentieth century by [Date.UTC],
    on any host. *)
Example day_boundary_two_digit_year :
  startOfDayUTC (fixedOffsetHost 0) "0050-06-15" = Ok "1950-06-15T00:00:00.000Z".
Proof. vm_compute. reflexivity. Qed.

End DateNormalisation.

(** ** The HTTP client wrapper *)

Module ApiFacts.
Import Api.

Definition csrfName : string := "X-CSRF-Token".
Definition contentTypeName : string := "Content-Type".

(** The header [fetchWithCreds] sends under a name, and the one the caller's
    own options carried under it. *)
Definition sentHeader (h : Host) (url : string) (options : RequestInit)
    (csrfToken : option string) (name : string) : option string :=
  req_headers (buildRequest h url options csrfToken) !! name.

Definition ownHeader (options : RequestInit) (name : string) : option string :=
  normalizeHeaders (headers options) !! name.

(** The three conditions of the CSRF rule, as the specification words
    them; the method is compared after conversion to upper case. *)
Definition csrfProtected (url : string) : Prop :=
  startsWith url "/api/" = true /\ startsWith url "/api/auth/" = false.

Definition mutationMethod (options : RequestInit) : Prop :=
  In (toUpperCase (orElse (method options) "GET")) ["POST"; "PUT"; "PATCH"; "DELETE"].

Definition tokenSupplied (csrfToken : option string) : Prop :=
  exists t, csrfToken = Some t /\ t <> "".

Lemma fetchWithCreds_request {A : Type} (h : Host) (fetch : Transport A)
    (url : string) (options : RequestInit) (csrfToken : option string) :
  fetchWithCreds h fetch url options csrfToken =
  match fetch (buildRequest h url options csrfToken) with
  | Ok response =>
      if status response =? 401 then Throw "Unauthorized. Please log in again."
      else Ok response
  | Throw m => Throw m
  end.
Proof. reflexivity. Qed.

Lemma isApi_spec (url : string) : isApi url = true <-> csrfProtected url.
Proof.
  unfold isApi, csrfProtected.
  rewrite andb_true_iff, negb_true_iff. reflexivity.
Qed.

Lemma isMutation_spec (options : RequestInit) :
  isMutation options = true <-> mutationMethod options.
Proof.
  unfold isMutation, mutationMethod.
  rewrite existsb_exists. split.
  - intros (m & Hin & Heq). apply String.eqb_eq in Heq. now subst.
  - intros Hin. eexists. split; [exact Hin | apply String.eqb_refl].
Qed.

Lemma truthy_spec (csrfToken : option string) :
  truthy csrfToken = true <-> tokenSupplied csrfToken.
Proof.
  unfold truthy, tokenSupplied. destruct csrfToken as [t|].
  - rewrite negb_true_iff, String.eqb_neq. split.
    + intros Hne. exists t. auto.
    + intros (t' & [= ->] & Hne). exact Hne.
  - split; [discriminate | intros (t & [=] & _)].
Qed.

Lemma csrf_condition (url : string) (options : RequestInit) (csrfToken : option string) :
  isApi url && isMutation options && truthy csrfToken = true <->
  csrfProtected url /\ mutationMethod options /\ tokenSupplied csrfToken.
Proof.
  rewrite !andb_true_iff, isApi_spec, isMutation_spec, truthy_spec. tauto.
Qed.

(** The header the wrapper sends under [X-CSRF-Token]: the token when the
    three conditions hold, otherwise whatever the caller's options had. *)
Lemma sent_csrf (h : Host) (url : string) (options : RequestInit)
    (csrfToken : option string) :
  sentHeader h url options csrfToken csrfName =
  if isApi url && isMutation options && truthy csrfToken
  then csrfToken else ownHeader options csrfName.
Proof.
  unfold sentHeader, ownHeader, buildRequest, csrfName. simpl.
  destruct (isApi url && isMutation options && truthy csrfToken) eqn:Hc.
  - rewrite lookup_insert_eq.
    destruct csrfToken; [reflexivity | ].
    rewrite andb_false_r in Hc. discriminate.
  - rewrite lookup_insert_ne by discriminate. reflexivity.
Qed.

(** C7. The wrapper puts the supplied token under [X-CSRF-Token] exactly
    when the path is under [/api/] and not under [/api/auth/], the method
    (in upper case) is POST, PUT, PATCH or DELETE, and the token is a
    non-empty string; otherwise it leaves that header as the caller's
    options had it, so that a caller who passes none sends it exactly under
    the three conditions.  A POST to [/api/categories] with a token carries
    it; a POST to [/api/auth/login] gets none from the wrapper, whatever
    the token. *)
Theorem csrf_header_rule (h : Host) (url : string) (options : RequestInit)
    (csrfToken : option string) :
  let sent := sentHeader h url options csrfToken csrfName in
  let rule := csrfProtected url /\ mutationMethod options /\ tokenSupplied csrfToken in
  (rule -> sent = csrfToken)
  /\ (~ rule -> sent = ownHeader options csrfName)
  /\ (ownHeader options csrfName = None -> (is_Some sent <-> rule))
  /\ (method options = Some "POST" -> tokenSupplied csrfToken ->
      sentHeader h "/api/categories" options csrfToken csrfName = csrfToken)
  /\ sentHeader h "/api/auth/login" options csrfToken csrfName
     = ownHeader options csrfName.
Proof.
  cbv zeta. rewrite !sent_csrf.
  pose proof (csrf_condition url options csrfToken) as Hc.
  assert (Hpost : method options = Some "POST" -> isMutation options = true).
  { intros Hm. unfold isMutation. rewrite Hm. reflexivity. }
  split; [ | split; [ | split; [ | split ] ] ].
  - intros Hrule. apply Hc in Hrule. rewrite Hrule. reflexivity.
  - intros Hrule.
    destruct (isApi url && isMutation options && truthy csrfToken); [ | reflexivity ].
    exfalso. apply Hrule, Hc. reflexivity.
  - intros Hown.
    destruct (isApi url && isMutation options && truthy csrfToken).
    + split; [ intros _; apply Hc; reflexivity | ].
      intros (_ & _ & t & -> & _). eexists; reflexivity.
    + rewrite Hown. split; [ intros [? [=]] | ].
      intros Hrule. apply Hc in Hrule. discriminate.
  - intros Hm Ht. apply truthy_spec in Ht. rewrite (Hpost Hm), Ht. reflexivity.
  - reflexivity.
Qed.

Lemma csrf_header_rule_witness :
  let options := {| method := Some "POST"; headers := None; body := Some "{}" |} in
  sentHeader (fixedOffsetHost 0) "/api/categories" options (Some "t0k3n") csrfName
  = Some "t0k3n".
Proof.
  intros options.
  apply (proj1 (csrf_header_rule (fixedOffsetHost 0) "/api/categories" options
                  (Some "t0k3n"))).
  split; [ split; reflexivity | split ].
  - left. reflexivity.
  - exists "t0k3n". split; [ reflexivity | discriminate ].
Defined.

(** The header sent under [Content-Type] is the one the wrapper writes. *)
Lemma sent_content_type (h : Host) (url : string) (options : RequestInit)
    (csrfToken : option string) :
  sentHeader h url options csrfToken contentTypeName = Some "application/json".
Proof.
  unfold sentHeader, buildRequest, contentTypeName. simpl.
  destruct (isApi url && isMutation options && truthy csrfToken).
  - rewrite lookup_insert_ne by discriminate. apply lookup_insert_eq.
  - apply lookup_insert_eq.
Qed.

(** C8, as amended.  Every request the wrapper builds carries
    [Content-Type: application/json], whatever the caller's options hold:
    the assignment is unconditional, and a [Content-Type] of the caller is
    replaced by it. *)
Theorem content_type_always_json (h : Host) (url : string) (options : RequestInit)
    (csrfToken : option string) :
  req_headers (buildRequest h url options csrfToken) !! "Content-Type"
  = Some "application/json".
Proof. apply sent_content_type. Qed.

(** C8, as stated, fails: a caller's [Content-Type: text/plain] does not
    reach the request. *)
Lemma caller_content_type_not_preserved :
  ~ (forall (h : Host) (url : string) (options : RequestInit)
            (csrfToken : option string) (v : string),
        ownHeader options contentTypeName = Some v ->
        sentHeader h url options csrfToken contentTypeName = Some v).
Proof.
  intros Hclaim.
  specialize (Hclaim (fixedOffsetHost 0) "/api/expenses"
    {| method := None;
       headers := Some (HeadersRecord {[ "Content-Type" := "text/plain" ]});
       body := None |}
    None "text/plain" eq_refl).
  rewrite sent_content_type in Hclaim. discriminate.
Qed.

(** *** Deleting *)

(** A server that answers every request with the same status. *)
Definition answering {A : Type} (s : Z) (body : Result (Json A)) : Transport A :=
  fun _ => Ok {| status := s; json := body |}.

Definition isOkStatus (s : Z) : bool := (200 <=? s) && (s <=? 299).

Lemma deleteCategory_answer {A : Type} (h : Host) (st : Storage) (s : Z)
    (body : Result (Json A)) (id : string) :
  deleteCategory h (answering s body) st id =
  if s =? 401 then Throw "Unauthorized. Please log in again."
  else if isOkStatus s then Ok true else Throw "Failed to delete category".
Proof.
  unfold deleteCategory, fetchWithCreds, answering, ok, isOkStatus. simpl.
  destruct (s =? 401); [ reflexivity | simpl ].
  destruct ((200 <=? s) && (s <=? 299)); reflexivity.
Qed.

Lemma deletePaymentMethod_answer {A : Type} (h : Host) (st : Storage) (s : Z)
    (body : Result (Json A)) (id : string) :
  deletePaymentMethod h (answering s body) st id =
  if s =? 401 then Throw "Unauthorized. Please log in again."
  else if isOkStatus s then Ok true else Throw "Failed to delete payment method".
Proof.
  unfold deletePaymentMethod, fetchWithCreds, answering, ok, isOkStatus. simpl.
  destruct (s =? 401); [ reflexivity | simpl ].
  destruct ((200 <=? s) && (s <=? 299)); reflexivity.
Qed.

Lemma deleteExpense_answer {A : Type} (h : Host) (st : Storage) (s : Z)
    (body : Result (Json A)) (id : string) :
  deleteExpense h (answering s body) st id =
  if s =? 401 then Throw "Unauthorized. Please log in again."
  else if isOkStatus s then Ok true else Throw "Failed to delete expense".
Proof.
  unfold deleteExpense, fetchWithCreds, answering, ok, isOkStatus. simpl.
  destruct (s =? 401); [ reflexivity | simpl ].
  destruct ((200 <=? s) && (s <=? 299)); reflexivity.
Qed.

Lemma status_401_not_ok (s : Z) : (s =? 401) = true -> isOkStatus s = false.
Proof.
  intros Hs. apply Z.eqb_eq in Hs. subst s. reflexivity.
Qed.

(** C4 (the code departs from it).  Whatever status the server answers a
    delete with, 409 included, the three handlers show the
    operation-failed kind when the status is not a success; the conflict
    text of the category and payment-method dialogs is never reached,
    because the message thrown by [api.ts] does not carry the status. *)
Theorem delete_failure_is_generic {A : Type} (h : Host) (st : Storage) (s : Z)
    (body : Result (Json A)) (c : ascii) (id : string) (before : option string) :
  let fetch := answering s body in
  let shown := if isOkStatus s then None else Some GenericKind in
  surfaced CategoriesList.conflictMessage
    (CategoriesList.handleDelete h fetch st (Some (Some (String c id))) before) = shown
  /\ surfaced PaymentMethodsList.conflictMessage
    (PaymentMethodsList.handleDelete h fetch st (Some (Some (String c id))) before) = shown
  /\ surfaced ""
    (ExpensesList.handleDelete h fetch st (Some (String c id))) = shown.
Proof.
  cbv zeta.
  unfold CategoriesList.handleDelete, PaymentMethodsList.handleDelete,
    ExpensesList.handleDelete.
  cbn [truthy negb default String.eqb].
  rewrite deleteCategory_answer, deletePaymentMethod_answer, deleteExpense_answer.
  destruct (s =? 401) eqn:H401.
  - rewrite (status_401_not_ok s H401). repeat split; reflexivity.
  - destruct (isOkStatus s); repeat split; reflexivity.
Qed.

(** The failing input of C4: a category in use, the server answers 409. *)
Example delete_category_409 :
  CategoriesList.handleDelete (fixedOffsetHost 0)
    (answering (A := unit) 409 (Ok JOther)) (Some {[ "csrf_token" := "t0k3n" ]})
    (Some (Some "c1")) None
  = {| deleteError := Some "Failed to delete category";
       deleteToasts := [(error, "Failed to delete category")];
       refreshed := false |}.
Proof. reflexivity. Qed.

(** *** Query strings of [getExpenses] *)

Lemma bindResult_Ok {X Y : Type} (x : X) (k : X -> Result Y) :
  bindResult (Ok x) k = k x.
Proof. reflexivity. Qed.

Lemma bindResult_assoc {X Y W : Type} (r : Result X) (k : X -> Result Y)
    (k' : Y -> Result W) :
  bindResult (bindResult r k) k' = bindResult r (fun x => bindResult (k x) k').
Proof. destruct r; reflexivity. Qed.

Lemma bindResult_ext {X Y : Type} (r : Result X) (k k' : X -> Result Y) :
  (forall x, k x = k' x) -> bindResult r k = bindResult r k'.
Proof. intros Hk. destruct r; simpl; [ apply Hk | reflexivity ]. Qed.

(** The parameters already appended are a prefix of the result. *)
Lemma expenseParams_acc (h : Host) (filters : ExpenseFilters) (q : URLSearchParams) :
  expenseParams h filters q =
  let! q' := expenseParams h filters [] in Ok (q ++ q').
Proof.
  revert q. induction filters as [ | [key value] rest IH ]; intros q.
  - simpl. now rewrite app_nil_r.
  - assert (Hdef : forall q0,
      bindResult (paramValue h key value)
        (fun v => expenseParams h rest (q0 ++ [(key, v)]))
      = bindResult (paramValue h key value)
          (fun v => bindResult (expenseParams h rest [])
                      (fun q' => Ok (q0 ++ (key, v) :: q')))).
    { intros q0. apply bindResult_ext. intros v. rewrite IH.
      apply bindResult_ext. intros q'. now rewrite <- app_assoc. }
    destruct value; cbn [expenseParams].
    + apply IH.
    + rewrite (Hdef q), (Hdef []), bindResult_assoc.
      apply bindResult_ext. intros v. rewrite bindResult_assoc.
      apply bindResult_ext. intros q'. reflexivity.
    + rewrite (Hdef q), (Hdef []), bindResult_assoc.
      apply bindResult_ext. intros v. rewrite bindResult_assoc.
      apply bindResult_ext. intros q'. reflexivity.
Qed.

Lemma expenseParams_cons (h : Host) (key : string) (value : FilterValue)
    (rest : ExpenseFilters) :
  expenseParams h ((key, value) :: rest) [] =
  match value with
  | VUndefined => expenseParams h rest []
  | _ =>
      let! v := paramValue h key value in
      let! q' := expenseParams h rest [] in Ok ((key, v) :: q')
  end.
Proof.
  destruct value; cbn [expenseParams]; [ reflexivity | | ];
    apply bindResult_ext; intros v; rewrite expenseParams_acc; reflexivity.
Qed.

Lemma expenseParams_app (h : Host) (f1 f2 : ExpenseFilters) :
  expenseParams h (f1 ++ f2) [] =
  let! q1 := expenseParams h f1 [] in
  let! q2 := expenseParams h f2 [] in Ok (q1 ++ q2).
Proof.
  induction f1 as [ | [key value] rest IH ].
  - simpl. destruct (expenseParams h f2 []); reflexivity.
  - rewrite <- app_comm_cons, !expenseParams_cons, IH.
    destruct value; [ reflexivity | | ];
      rewrite !bindResult_assoc; apply bindResult_ext; intros v;
      rewrite !bindResult_assoc; apply bindResult_ext; intros q1;
      simpl; rewrite bindResult_assoc; reflexivity.
Qed.

(** A string that is not of the form YYYY-MM-DD is appended as it is. *)
Lemma paramValue_plain (h : Host) (key s : string) :
  JSDate.isDatePattern s = false -> paramValue h key (VString s) = Ok s.
Proof.
  intros Hs. unfold paramValue. rewrite Hs, andb_false_r. reflexivity.
Qed.

(** C9. An entry whose value is [undefined] leaves no trace in the query;
    a [startDate] or [endDate] whose string is not of the form YYYY-MM-DD
    is appended unchanged, at its place among the other parameters; and the
    parameters are what the request URL is made of. *)
Theorem date_filter_passthrough (h : Host) (f1 f2 : ExpenseFilters) (key : string) :
  expenseParams h (f1 ++ (key, VUndefined) :: f2) [] = expenseParams h (f1 ++ f2) []
  /\ (forall s, isDateKey key = true -> JSDate.isDatePattern s = false ->
       expenseParams h (f1 ++ (key, VString s) :: f2) [] =
       let! q1 := expenseParams h f1 [] in
       let! q2 := expenseParams h f2 [] in Ok (q1 ++ (key, s) :: q2))
  /\ (forall (A : Type) (fetch : Transport A) (q : URLSearchParams),
       expenseParams h (f1 ++ f2) [] = Ok q ->
       getExpenses h fetch (f1 ++ f2) =
       let! response :=
         fetchWithCreds h fetch ("/api/expenses?" +:+ toQueryString q) noOptions None in
       if negb (ok response) then Throw "Failed to fetch expenses" else json response).
Proof.
  split; [ | split ].
  - rewrite !expenseParams_app, expenseParams_cons. reflexivity.
  - intros s _ Hs.
    rewrite expenseParams_app, expenseParams_cons, (paramValue_plain h key s Hs).
    apply bindResult_ext. intros q1. simpl.
    rewrite bindResult_assoc. reflexivity.
  - intros A fetch q Hq. unfold getExpenses. rewrite Hq. reflexivity.
Qed.

Lemma date_filter_passthrough_witness :
  expenseParams (fixedOffsetHost (-300))
    ([("limit", VNumber 500)] ++
     ("startDate", VString "2024-01-15T10:00:00.000Z") :: [("skip", VNumber 0)]) []
  = Ok [("limit", "500"); ("startDate", "2024-01-15T10:00:00.000Z"); ("skip", "0")].
Proof.
  apply (proj1 (proj2 (date_filter_passthrough (fixedOffsetHost (-300))
           [("limit", VNumber 500)] [("skip", VNumber 0)] "startDate"))
           "2024-01-15T10:00:00.000Z"); reflexivity.
Defined.

End ApiFacts.

(** ** The full-range fetch *)

Module FetchFacts.
Import Api Analytics.

Section Pages.
Context {A : Type}.
Variable h : Host.
Variable getExpenses : ExpenseFilters -> Result (Json A).
Variables start end_ : string.

(** The date range passes the test at the head of the function. *)
Definition rangeAccepted : Prop :=
  nonEmpty start = true /\ nonEmpty end_ = true /\ startsAfter h start end_ = false.

(** The call number [i] (from zero) answers with the items [page]. *)
Definition serves (i : nat) (page : list A) : Prop :=
  exists response,
    getExpenses (rangeFilters start end_ (DATA_FETCH_LIMIT * Z.of_nat i)) = Ok response
    /\ expensesToAdd response = Some page.

(** Each of [pages] is served in turn and is full. *)
Definition fullPages (pages : list (list A)) : Prop :=
  forall i page, pages !! i = Some page ->
    serves i page /\ DATA_FETCH_LIMIT <= Z.of_nat (length page).

(** The filters of the first [n] calls. *)
Definition firstCalls (n : nat) : list ExpenseFilters :=
  map (fun i => rangeFilters start end_ (DATA_FETCH_LIMIT * Z.of_nat i)) (seq 0 n).

Definition calledAll (fs : list ExpenseFilters) (p : Page A) : Page A :=
  {| allExpenses := allExpenses p; isLoading := isLoading p;
     toasts := toasts p; calls := calls p ++ fs |}.

Lemma calledAll_nil (p : Page A) : calledAll [] p = p.
Proof. destruct p. unfold calledAll. simpl. now rewrite app_nil_r. Qed.

Lemma calledAll_called (f : ExpenseFilters) (fs : list ExpenseFilters) (p : Page A) :
  calledAll fs (called f p) = calledAll (f :: fs) p.
Proof. unfold calledAll, called. simpl. now rewrite <- app_assoc. Qed.

(** The calls from number [k] on, while pages are full. *)
Definition callsFrom (k n : nat) : list ExpenseFilters :=
  map (fun i => rangeFilters start end_ (DATA_FETCH_LIMIT * Z.of_nat i)) (seq k n).

(** The loop walks through the full pages and arrives at call number
    [k + length pages] with everything appended in order. *)
Lemma fetchLoop_full_pages (pages : list (list A)) :
  forall (k : nat) (fuel : nat) (p : Page A) (fetched : list A),
    (forall i page, pages !! i = Some page ->
       serves (k + i) page /\ DATA_FETCH_LIMIT <= Z.of_nat (length page)) ->
    fetchLoop getExpenses start end_ (length pages + fuel) p fetched
      (DATA_FETCH_LIMIT * Z.of_nat k)
    = fetchLoop getExpenses start end_ fuel
        (calledAll (callsFrom k (length pages)) p)
        (fetched ++ concat pages)
        (DATA_FETCH_LIMIT * Z.of_nat (k + length pages)).
Proof.
  induction pages as [ | page pages IH ]; intros k fuel p fetched Hpages.
  - simpl. unfold callsFrom. simpl.
    now rewrite calledAll_nil, app_nil_r, Nat.add_0_r.
  - destruct (Hpages 0%nat page eq_refl) as [(response & Hcall & Hitems) Hfull].
    rewrite Nat.add_0_r in Hcall.
    cbn [length Nat.add fetchLoop]. rewrite Hcall, Hitems.
    destruct (Z.ltb_spec (Z.of_nat (length page)) DATA_FETCH_LIMIT); [ lia | ].
    replace (DATA_FETCH_LIMIT * Z.of_nat k + DATA_FETCH_LIMIT)
      with (DATA_FETCH_LIMIT * Z.of_nat (S k)) by lia.
    rewrite IH.
    + rewrite calledAll_called. unfold callsFrom. cbn [seq map concat].
      rewrite <- app_assoc. do 2 f_equal. lia.
    + intros i page' Hi. replace (S k + i)%nat with (k + S i)%nat by lia.
      apply Hpages. exact Hi.
Qed.

Lemma callsFrom_snoc (k n : nat) :
  callsFrom k n ++ [rangeFilters start end_ (DATA_FETCH_LIMIT * Z.of_nat (k + n))]
  = callsFrom k (S n).
Proof.
  unfold callsFrom. rewrite seq_S, map_app. reflexivity.
Qed.

(** The page the fetch leaves behind when it ends normally. *)
Definition settled (p : Page A) (items : list A) (n : nat) (notes : list Toast) : Page A :=
  {| allExpenses := items; isLoading := false;
     toasts := toasts p ++ notes; calls := calls p ++ firstCalls n |}.

Definition fetchedNote (items : list A) : Toast :=
  if 0 <? Z.of_nat (length items)
  then (success, "Workspaceed "
                 +:+ NilZero.string_of_int (Z.to_int (Z.of_nat (length items)))
                 +:+ " expenses.")
  else (info, "No expenses found for the selected period.").

Lemma guard_passes (fuel : nat) (p : Page A) :
  rangeAccepted ->
  fetchAllExpensesForRange h getExpenses fuel start end_ p =
  match fetchLoop getExpenses start end_ fuel (setIsLoading true p) [] 0 with
  | None => None
  | Some (Finished p fetchedExpenses currentSkip) =>
      let p := setAllExpenses fetchedExpenses p in
      let p :=
        if 0 <? Z.of_nat (length fetchedExpenses)
        then toast success
               ("Workspaceed "
                +:+ NilZero.string_of_int (Z.to_int (Z.of_nat (length fetchedExpenses)))
                +:+ " expenses.") p
        else if currentSkip =? 0
        then toast info "No expenses found for the selected period." p
        else p in
      Some (setIsLoading false p)
  | Some (Thrown p _) =>
      let p := toast error "Failed to fetch expenses for the report." p in
      let p := setAllExpenses [] p in
      Some (setIsLoading false p)
  end.
Proof.
  intros (Hs & He & Hr). unfold fetchAllExpensesForRange.
  rewrite Hs, He, Hr. reflexivity.
Qed.

(** C2. When the server answers the successive calls with full pages and
    then with a page shorter than the limit, the fetch (given fuel for the
    calls it has to make) ends after exactly one call per page, with [skip]
    equal to 0, 500, 1000, ... in this order; the expenses it stores are the
    pages concatenated in call order.  Sizes 500, 500, 137 give three calls
    and 1137 items; an empty first page gives one call and no items. *)
Theorem fetch_all_pages (pages : list (list A)) (last : list A) (extra : nat)
    (p : Page A) :
  rangeAccepted ->
  fullPages pages ->
  serves (length pages) last ->
  Z.of_nat (length last) < DATA_FETCH_LIMIT ->
  fetchAllExpensesForRange h getExpenses (S (length pages) + extra) start end_ p
  = Some (settled p (concat pages ++ last) (S (length pages))
            [fetchedNote (concat pages ++ last)]).
Proof.
  intros Hrange Hfull (response & Hcall & Hitems) Hshort.
  rewrite (guard_passes _ _ Hrange).
  replace (S (length pages) + extra)%nat with (length pages + S extra)%nat by lia.
  pose proof (fetchLoop_full_pages pages 0 (S extra) (setIsLoading true p) [] Hfull)
    as Hloop.
  cbn [Z.of_nat] in Hloop. rewrite Z.mul_0_r in Hloop. rewrite Hloop. clear Hloop.
  cbn [fetchLoop Nat.add]. rewrite Hcall, Hitems.
  destruct (Z.ltb_spec (Z.of_nat (length last)) DATA_FETCH_LIMIT); [ | lia ].
  cbn [app]. unfold settled, fetchedNote.
  change (firstCalls (S (length pages))) with (callsFrom 0 (S (length pages))).
  rewrite <- (callsFrom_snoc 0 (length pages)). cbn [Nat.add].
  destruct (Z.ltb_spec 0 (Z.of_nat (length (concat pages ++ last)))) as [Hpos | Hzero].
  - destruct p. unfold setIsLoading, setAllExpenses, toast, called, calledAll.
    cbn. rewrite <- app_assoc. reflexivity.
  - assert (Hk : length pages = 0%nat).
    { destruct pages as [ | page pages' ]; [ reflexivity | exfalso ].
      destruct (Hfull 0%nat page eq_refl) as [_ Hlen].
      cbn [concat] in Hzero. rewrite !length_app in Hzero.
      unfold DATA_FETCH_LIMIT in Hlen. lia. }
    rewrite Hk. cbn [Z.of_nat]. rewrite Z.mul_0_r. cbn [Z.eqb].
    destruct p. unfold setIsLoading, setAllExpenses, toast, called, calledAll.
    cbn. rewrite <- app_assoc. reflexivity.
Qed.

Definition unexpectedFirst : Toast :=
  (error, "Failed to fetch expenses. Unexpected data format from server.").

Definition unexpectedLater : Toast :=
  (warning, "Received unexpected data format on subsequent fetch page. Data might be incomplete.").

Definition fetchFailed : Toast := (error, "Failed to fetch expenses for the report.").

(** C3, as amended.  After any number of full pages, the call that fails
    is the last one made.  If it throws (an error status, a network
    failure), on the first page or on a later one, the stored expenses are
    emptied and the fetch-failed error is raised.  If it answers with a
    body that is neither an array nor an object with [items]: on the first
    page the stored expenses are emptied and an error is raised; on a later
    page the expenses of the earlier pages are stored and the
    may-be-incomplete warning is raised. *)
Theorem fetch_failure (pages : list (list A)) (extra : nat) (p : Page A) :
  rangeAccepted ->
  fullPages pages ->
  let failing := rangeFilters start end_ (DATA_FETCH_LIMIT * Z.of_nat (length pages)) in
  let run := fetchAllExpensesForRange h getExpenses (S (length pages) + extra) start end_ p in
  (forall message, getExpenses failing = Throw message ->
     run = Some (settled p [] (S (length pages)) [fetchFailed]))
  /\ (forall response, getExpenses failing = Ok response ->
        expensesToAdd response = None ->
        run = Some (match pages with
                    | [] => settled p [] 1
                              [unexpectedFirst; fetchedNote []]
                    | _ => settled p (concat pages) (S (length pages))
                             [unexpectedLater; fetchedNote (concat pages)]
                    end)).
Proof.
  intros Hrange Hfull failing run. subst failing run.
  rewrite (guard_passes _ _ Hrange).
  replace (S (length pages) + extra)%nat with (length pages + S extra)%nat by lia.
  pose proof (fetchLoop_full_pages pages 0 (S extra) (setIsLoading true p) [] Hfull)
    as Hloop.
  cbn [Z.of_nat] in Hloop. rewrite Z.mul_0_r in Hloop. rewrite Hloop. clear Hloop.
  cbn [fetchLoop Nat.add app]. unfold settled.
  change (firstCalls (S (length pages))) with (callsFrom 0 (S (length pages))).
  rewrite <- (callsFrom_snoc 0 (length pages)). cbn [Nat.add].
  split.
  - intros message Hcall. rewrite Hcall.
    destruct p. unfold fetchFailed, setIsLoading, setAllExpenses, toast,
      called, calledAll. cbn. rewrite <- app_assoc. reflexivity.
  - intros response Hcall Hitems. rewrite Hcall, Hitems.
    destruct pages as [ | page pages' ].
    + destruct p. unfold setIsLoading, setAllExpenses, toast, called, calledAll,
        unexpectedFirst, fetchedNote, firstCalls.
      cbn [length Z.of_nat]. rewrite !Z.mul_0_r.
      cbn. rewrite <- !app_assoc. reflexivity.
    + destruct (Hfull 0%nat page eq_refl) as [_ Hlen].
      assert (Hpos : 0 < Z.of_nat (length (concat (page :: pages')))).
      { cbn [concat]. rewrite length_app. unfold DATA_FETCH_LIMIT in Hlen. lia. }
      assert (Hskip : (DATA_FETCH_LIMIT * Z.of_nat (length (page :: pages')) =? 0) = false).
      { apply Z.eqb_neq. cbn [length]. unfold DATA_FETCH_LIMIT. lia. }
      rewrite Hskip.
      unfold fetchedNote, unexpectedLater.
      destruct (Z.ltb_spec 0 (Z.of_nat (length (concat (page :: pages'))))); [ | lia ].
      destruct p. unfold setIsLoading, setAllExpenses, toast, called, calledAll.
      cbn [allExpenses isLoading toasts calls].
      destruct (Z.ltb_spec 0 (Z.of_nat (length (concat (page :: pages'))))); [ | lia ].
      cbn [allExpenses isLoading toasts calls].
      rewrite <- !app_assoc. reflexivity.
Qed.

End Pages.

(** A server holding 1137 records, answering by [skip]. *)
Definition threePages (filters : ExpenseFilters) : Result (Json Z) :=
  match filters with
  | [_; _; (_, VNumber 0); _] => Ok (JArray (repeat 1 500))
  | [_; _; (_, VNumber 500); _] => Ok (JItems (repeat 2 500))
  | [_; _; (_, VNumber 1000); _] => Ok (JArray (repeat 3 137))
  | _ => Throw "Failed to fetch expenses"
  end.

Definition freshPage {A : Type} : Page A :=
  {| allExpenses := []; isLoading := false; toasts := []; calls := [] |}.

Lemma fetch_all_pages_witness :
  fetchAllExpensesForRange (fixedOffsetHost 0) threePages 3 "2024-01-01" "2024-01-31"
    freshPage
  = Some {| allExpenses := repeat 1 500 ++ repeat 2 500 ++ repeat 3 137;
            isLoading := false;
            toasts := [(success, "Workspaceed 1137 expenses.")];
            calls := [rangeFilters "2024-01-01" "2024-01-31" 0;
                      rangeFilters "2024-01-01" "2024-01-31" 500;
                      rangeFilters "2024-01-01" "2024-01-31" 1000] |}.
Proof.
  assert (Hfull : fullPages threePages "2024-01-01" "2024-01-31"
                    [repeat 1 500; repeat 2 500]).
  { intros [ | [ | i ] ] page Hi; try discriminate Hi;
      injection Hi as <-; (split; [ eexists; split; reflexivity | ]);
      apply Z.leb_le; vm_compute; reflexivity. }
  assert (Hlast : serves threePages "2024-01-01" "2024-01-31" 2 (repeat 3 137))
    by (eexists; split; reflexivity).
  assert (Hshort : Z.of_nat (length (repeat 3 137)) < DATA_FETCH_LIMIT)
    by (apply Z.ltb_lt; vm_compute; reflexivity).
  assert (Hrange : rangeAccepted (fixedOffsetHost 0) "2024-01-01" "2024-01-31")
    by (repeat split; reflexivity).
  exact (fetch_all_pages (fixedOffsetHost 0) threePages "2024-01-01" "2024-01-31"
           [repeat 1 500; repeat 2 500] (repeat 3 137) 0 freshPage
           Hrange Hfull Hlast Hshort).
Defined.

(** An empty range: one call, nothing stored. *)
Example fetch_empty_range :
  fetchAllExpensesForRange (A := Z) (fixedOffsetHost 0) (fun _ => Ok (JArray []))
    1 "2024-01-01" "2024-01-31" freshPage
  = Some {| allExpenses := []; isLoading := false;
            toasts := [(info, "No expenses found for the selected period.")];
            calls := [rangeFilters "2024-01-01" "2024-01-31" 0] |}.
Proof. reflexivity. Qed.

(** A network that delivers the first page of 500 records and answers the
    request for the second with status 503. *)
Definition secondPageDown : Transport Z :=
  fun request =>
    if includes (req_url request) "skip=0&"
    then Ok {| status := 200; json := Ok (JArray (repeat 7 500)) |}
    else Ok {| status := 503; json := Ok JOther |}.

Lemma fetch_failure_witness :
  fetchAllExpensesForRange (fixedOffsetHost 0)
    (getExpenses (fixedOffsetHost 0) secondPageDown) 2 "2024-01-01" "2024-01-31"
    freshPage
  = Some (settled "2024-01-01" "2024-01-31" freshPage [] 2 [fetchFailed]).
Proof.
  assert (Hfull : fullPages (getExpenses (fixedOffsetHost 0) secondPageDown)
                    "2024-01-01" "2024-01-31" [repeat 7 500]).
  { intros [ | i ] page Hi; try discriminate Hi.
    injection Hi as <-. split; [ eexists; split; vm_compute; reflexivity | ].
    apply Z.leb_le. vm_compute. reflexivity. }
  assert (Hrange : rangeAccepted (fixedOffsetHost 0) "2024-01-01" "2024-01-31")
    by (repeat split; reflexivity).
  refine (proj1 (fetch_failure (fixedOffsetHost 0)
            (getExpenses (fixedOffsetHost 0) secondPageDown)
            "2024-01-01" "2024-01-31" [repeat 7 500] 0 freshPage Hrange Hfull)
            "Failed to fetch expenses" _).
  vm_compute. reflexivity.
Defined.

(** C3, as stated, fails: the request for the second page (skip 500)
    fails, and the 500 expenses of the first page are not kept; the
    fetch-failed error is raised and no warning. *)
Lemma later_page_error_discards :
  exists p : Page Z,
    fetchAllExpensesForRange (fixedOffsetHost 0)
      (getExpenses (fixedOffsetHost 0) secondPageDown) 5 "2024-01-01" "2024-01-31"
      freshPage = Some p
    /\ calls p = [rangeFilters "2024-01-01" "2024-01-31" 0;
                  rangeFilters "2024-01-01" "2024-01-31" 500]
    /\ allExpenses p = []
    /\ toasts p = [(error, "Failed to fetch expenses for the report.")].
Proof.
  eexists. split; [ vm_compute; reflexivity | ].
  repeat split; reflexivity.
Qed.

End FetchFacts.

(** ** Sorting *)

Module SortFacts.

Section Sort.
Context {A : Type}.
Variable after : A -> A -> bool.

Lemma insertSorted_perm (x : A) (l : list A) :
  Permutation (insertSorted after x l) (x :: l).
Proof.
  induction l as [ | y l IH ]; cbn [insertSorted]; [ reflexivity | ].
  destruct (after x y); [ | reflexivity ].
  rewrite IH. apply perm_swap.
Qed.

(** The sort rearranges its argument. *)
Lemma sort_perm (l : list A) : Permutation (sort after l) l.
Proof.
  induction l as [ | x l IH ]; cbn [sort]; [ reflexivity | ].
  rewrite insertSorted_perm. now rewrite IH.
Qed.

(** Two elements neither of which has to come after the other. *)
Definition tied (x y : A) : bool := negb (after x y) && negb (after y x).

(** The comparator is consistent on the elements that satisfy [P]. *)
Variable P : A -> Prop.
Hypothesis after_asym : forall a b, after a b = true -> after b a = false.
Hypothesis after_negtrans : forall a b c, P a -> P b -> P c ->
  after a b = false -> after b c = false -> after a c = false.

Definition inOrder (a b : A) : Prop := after a b = false.

Lemma insertSorted_Forall (Q : A -> Prop) (x : A) (l : list A) :
  Q x -> Forall Q l -> Forall Q (insertSorted after x l).
Proof.
  intros Hx Hl. rewrite (insertSorted_perm x l). now constructor.
Qed.

Lemma insertSorted_sorted (x : A) (l : list A) :
  P x -> Forall P l -> StronglySorted inOrder l ->
  StronglySorted inOrder (insertSorted after x l).
Proof.
  intros Hx HP Hs. induction Hs as [ | y l Hs IH Hy ]; cbn [insertSorted].
  - repeat constructor.
  - inversion HP as [ | ? ? HPy HPl ]; subst.
    destruct (after x y) eqn:Hxy.
    + constructor; [ apply IH; assumption | ].
      apply insertSorted_Forall; [ apply after_asym; exact Hxy | exact Hy ].
    + constructor; [ constructor; assumption | ].
      constructor; [ exact Hxy | ].
      rewrite Forall_forall in Hy, HPl. apply Forall_forall. intros z Hz.
      apply (after_negtrans x y z);
        [ exact Hx | exact HPy | apply HPl, Hz | exact Hxy | apply Hy, Hz ].
Qed.

(** In the result no element has to come after a later one. *)
Lemma sort_sorted (l : list A) :
  Forall P l -> StronglySorted inOrder (sort after l).
Proof.
  induction 1 as [ | x l Hx Hl IH ]; cbn [sort]; [ constructor | ].
  apply insertSorted_sorted; [ exact Hx | | exact IH ].
  rewrite (sort_perm l). exact Hl.
Qed.

Lemma insertSorted_stable (z x : A) (l : list A) :
  P z -> P x -> Forall P l ->
  List.filter (tied z) (insertSorted after x l) = List.filter (tied z) (x :: l).
Proof.
  intros Hz Hx Hl. induction Hl as [ | y l Hy Hl IH ]; cbn [insertSorted];
    [ reflexivity | ].
  destruct (after x y) eqn:Hxy; [ | reflexivity ].
  cbn [List.filter] in *. rewrite IH.
  destruct (tied z x) eqn:Hzx, (tied z y) eqn:Hzy; try reflexivity.
  exfalso. unfold tied in Hzx, Hzy.
  rewrite andb_true_iff, !negb_true_iff in Hzx, Hzy.
  destruct Hzx as [_ Hxz], Hzy as [Hzy _].
  rewrite (after_negtrans x z y) in Hxy by assumption. discriminate.
Qed.

(** The sort is stable: elements tied with one another keep the order they
    had. *)
Lemma sort_stable (z : A) (l : list A) :
  P z -> Forall P l ->
  List.filter (tied z) (sort after l) = List.filter (tied z) l.
Proof.
  intros Hz Hl. induction Hl as [ | x l Hx Hl IH ]; cbn [sort]; [ reflexivity | ].
  rewrite insertSorted_stable; [ | assumption | assumption | ].
  - cbn [List.filter]. now rewrite IH.
  - rewrite (sort_perm l). exact Hl.
Qed.

End Sort.

(** A sorted list without repeated keys is sorted for the strict order. *)
Lemma StronglySorted_strict {A K : Type} (R R' : A -> A -> Prop) (P : A -> Prop)
    (key : A -> K) (l : list A) :
  (forall a b, P a -> P b -> R a b -> key a <> key b -> R' a b) ->
  StronglySorted R l -> Forall P l -> NoDup (map key l) -> StronglySorted R' l.
Proof.
  intros Hstrict Hs. induction Hs as [ | a l Hs IH Ha ]; intros HP Hnd;
    [ constructor | ].
  inversion HP as [ | ? ? HPa HPl ]; subst.
  cbn [map] in Hnd. inversion Hnd as [ | ? ? Hka Hkl ]; subst.
  constructor; [ now apply IH | ].
  rewrite List.Forall_forall in Ha, HPl. apply List.Forall_forall. intros b Hb.
  apply Hstrict; [ exact HPa | now apply HPl | now apply Ha | ].
  intros Heq. apply Hka. rewrite Heq. apply list_elem_of_In. now apply in_map.
Qed.

(** A strictly sorted list is determined by its elements. *)
Lemma StronglySorted_unique {A : Type} (R : A -> A -> Prop) (l1 l2 : list A) :
  (forall a b, R a b -> R b a -> False) ->
  StronglySorted R l1 -> StronglySorted R l2 ->
  (forall x, In x l1 <-> In x l2) -> l1 = l2.
Proof.
  intros Hasym Hs1. revert l2.
  induction Hs1 as [ | a l1 Hs1 IH Ha ]; intros l2 Hs2 Hsame.
  - destruct l2 as [ | b l2 ]; [ reflexivity | ].
    exfalso. apply (Hsame b). now left.
  - destruct Hs2 as [ | b l2 Hs2 Hb ]; [ exfalso; apply (Hsame a); now left | ].
    rewrite List.Forall_forall in Ha, Hb.
    assert (Hab : a = b).
    { destruct (proj1 (Hsame a) (or_introl eq_refl)) as [Heq | Hin2]; [ now symmetry | ].
      destruct (proj2 (Hsame b) (or_introl eq_refl)) as [Heq | Hin1]; [ exact Heq | ].
      exfalso. apply (Hasym a b); [ now apply Ha | now apply Hb ]. }
    subst b. f_equal. apply IH; [ exact Hs2 | ].
    intros x. split; intros Hx.
    + destruct (proj1 (Hsame x) (or_intror Hx)) as [<- | Hin]; [ | exact Hin ].
      exfalso. apply (Hasym a a); now apply Ha.
    + destruct (proj2 (Hsame x) (or_intror Hx)) as [<- | Hin]; [ | exact Hin ].
      exfalso. apply (Hasym a a); now apply Hb.
Qed.

Lemma StronglySorted_map {A B : Type} (R : B -> B -> Prop) (f : A -> B) (l : list A) :
  StronglySorted (fun a b => R (f a) (f b)) l -> StronglySorted R (map f l).
Proof.
  induction 1 as [ | a l Hs IH Ha ]; cbn [map]; constructor; [ exact IH | ].
  rewrite List.Forall_forall in Ha. apply List.Forall_forall. intros b Hb.
  apply in_map_iff in Hb. destruct Hb as (x & <- & Hx). now apply Ha.
Qed.

Lemma StronglySorted_weaken {A : Type} (R R' : A -> A -> Prop) (l : list A) :
  (forall a b, R a b -> R' a b) -> StronglySorted R l -> StronglySorted R' l.
Proof.
  intros Himp Hs. induction Hs as [ | a l Hs IH Ha ]; constructor; [ exact IH | ].
  apply List.Forall_forall. intros b Hb. apply Himp.
  rewrite List.Forall_forall in Ha. now apply Ha.
Qed.

End SortFacts.

(** ** Insertion-ordered maps *)

Module MapFacts.

Section Map.
Context {V : Type}.
Implicit Types (m : list (string * V)) (k : string) (v : V).

Definition keys m : list string := map fst m.

Lemma mapGet_None m k : mapGet m k = None <-> ~ In k (keys m).
Proof.
  induction m as [ | [k' v'] m IH ]; cbn [mapGet keys map fst In]; [ tauto | ].
  destruct (String.eqb_spec k' k) as [-> | Hne].
  - split; [ discriminate | intros Hn; exfalso; apply Hn; now left ].
  - rewrite IH. unfold keys. tauto.
Qed.

Lemma mapGet_Some_In m k v : mapGet m k = Some v -> In k (keys m).
Proof.
  intros Hg. destruct (in_dec String.string_dec k (keys m)) as [Hin | Hout];
    [ exact Hin | ].
  apply mapGet_None in Hout. congruence.
Qed.

Lemma mapGet_mapSet_eq m k v : mapGet (mapSet m k v) k = Some v.
Proof.
  induction m as [ | [k' v'] m IH ]; cbn [mapSet mapGet].
  - now rewrite String.eqb_refl.
  - destruct (String.eqb_spec k' k) as [-> | Hne]; cbn [mapGet].
    + now rewrite String.eqb_refl.
    + destruct (String.eqb_spec k' k); [ contradiction | exact IH ].
Qed.

Lemma mapGet_mapSet_ne m k k' v : k <> k' -> mapGet (mapSet m k v) k' = mapGet m k'.
Proof.
  intros Hne. induction m as [ | [k0 v0] m IH ]; cbn [mapSet mapGet].
  - destruct (String.eqb_spec k k'); [ contradiction | reflexivity ].
  - destruct (String.eqb_spec k0 k) as [-> | Hk]; cbn [mapGet].
    + destruct (String.eqb_spec k k'); [ contradiction | reflexivity ].
    + now rewrite IH.
Qed.

(** Setting a key that is not there appends it. *)
Lemma mapSet_fresh m k v : ~ In k (keys m) -> mapSet m k v = m ++ [(k, v)].
Proof.
  induction m as [ | [k' v'] m IH ]; cbn [mapSet keys map fst In app];
    [ reflexivity | ].
  intros Hn. destruct (String.eqb_spec k' k) as [-> | Hne].
  - exfalso. apply Hn. now left.
  - rewrite IH; [ reflexivity | ]. intros Hin. apply Hn. now right.
Qed.

(** Setting a key that is there keeps the keys as they are. *)
Lemma keys_mapSet_present m k v : In k (keys m) -> keys (mapSet m k v) = keys m.
Proof.
  induction m as [ | [k' v'] m IH ]; cbn [mapSet keys map fst In]; [ tauto | ].
  intros Hin. destruct (String.eqb_spec k' k) as [-> | Hne]; [ reflexivity | ].
  cbn [map fst]. f_equal. apply IH. destruct Hin; [ contradiction | assumption ].
Qed.

Lemma keys_mapSet m k v :
  keys (mapSet m k v) = if in_dec String.string_dec k (keys m) then keys m
                        else keys m ++ [k].
Proof.
  destruct (in_dec String.string_dec k (keys m)) as [Hin | Hout].
  - now apply keys_mapSet_present.
  - rewrite (mapSet_fresh m k v Hout). unfold keys. now rewrite map_app.
Qed.

Lemma NoDup_snoc (l : list string) (k : string) :
  NoDup l -> ~ In k l -> NoDup (l ++ [k]).
Proof.
  intros Hl Hk. apply NoDup_app. repeat split.
  - exact Hl.
  - intros x Hx Hin. apply list_elem_of_In in Hx, Hin.
    destruct Hin as [<- | []]. contradiction.
  - repeat constructor. intros Hin. inversion Hin.
Qed.

Lemma NoDup_keys_mapSet m k v : NoDup (keys m) -> NoDup (keys (mapSet m k v)).
Proof.
  intros Hm. rewrite keys_mapSet.
  destruct (in_dec String.string_dec k (keys m)); [ exact Hm | ].
  now apply NoDup_snoc.
Qed.

(** With distinct keys, an entry of the list is the one its key looks up. *)
Lemma mapGet_In m k v : NoDup (keys m) -> In (k, v) m -> mapGet m k = Some v.
Proof.
  induction m as [ | [k' v'] m IH ]; cbn [mapGet keys map fst In]; [ tauto | ].
  intros Hnd Hin. inversion Hnd as [ | ? ? Hk' Hm ]; subst.
  destruct Hin as [[= -> ->] | Hin].
  - now rewrite String.eqb_refl.
  - destruct (String.eqb_spec k' k) as [-> | Hne]; [ | now apply IH ].
    exfalso. apply Hk'. apply list_elem_of_In.
    change k with (fst (k, v)). now apply in_map.
Qed.

(** With distinct keys, setting a present key rewrites its one entry. *)
Lemma mapSet_present m k v :
  NoDup (keys m) -> In k (keys m) ->
  mapSet m k v = map (fun kv => if String.eqb (fst kv) k then (k, v) else kv) m.
Proof.
  induction m as [ | [k' v'] m IH ]; cbn [mapSet keys map fst In]; [ tauto | ].
  intros Hnd Hin. inversion Hnd as [ | ? ? Hk' Hm ]; subst.
  destruct (String.eqb_spec k' k) as [-> | Hne].
  - f_equal. clear IH Hin Hnd Hm.
    induction m as [ | [k0 v0] m IHm ]; [ reflexivity | ].
    cbn [map fst In] in *.
    destruct (String.eqb_spec k0 k) as [-> | Hk0]; [ exfalso; apply Hk'; now left | ].
    f_equal. apply IHm. intros Hin. apply Hk'. now right.
  - f_equal. apply IH; [ exact Hm | ]. destruct Hin; [ contradiction | assumption ].
Qed.

End Map.

End MapFacts.

(** ** Category totals and daily trend *)

#[export] Instance Z_JSNumberLaws : JSNumberLaws Z.
Proof.
  split; cbn [zero add sub ltb leb toBoolean Z_JSNumber]; intros.
  - apply Z.ltb_irrefl.
  - apply Z.ltb_lt. apply Z.ltb_lt in H, H0. lia.
  - apply Z.ltb_ge in H, H0. lia.
  - destruct (Z.leb_spec a b), (Z.ltb_spec b a); cbn [negb]; lia.
  - destruct (Z.ltb_spec 0 (a - b)), (Z.ltb_spec b a); lia.
  - apply negb_false_iff, Z.eqb_eq in H. exact H.
Qed.

Module AggregationFacts.
Import Analytics MapFacts SortFacts.

(** C10. With no category, or with no expense, the category totals are the
    empty list and the total spending is zero, whatever the other list
    holds. *)
Theorem empty_inputs_no_spending {num : Type} `{JSNumber num}
    (es : list (Expense num)) (cs : list Category) :
  categorySpendingData es [] = []
  /\ categorySpendingData [] cs = []
  /\ totalSpending (categorySpendingData es []) = zero
  /\ totalSpending (categorySpendingData [] cs) = zero.
Proof.
  assert (Hcs : categorySpendingData es [] = []) by (destruct es; reflexivity).
  rewrite Hcs. repeat split; reflexivity.
Qed.

Section Category.
Context {num : Type} `{JSNumberLaws num}.
Implicit Types (e : Expense num) (c : Category) (m : list (string * Slice num)).

(** *** The specification's side *)

(** A category is known when it has an id and a name. *)
Definition wellFormed c : bool := nonEmpty (cat_id c) && nonEmpty (cat_name c).

(** The amount an expense contributes to spending: it has a category id,
    its amount is a number greater than zero, its type is Need or Want. *)
Definition spendAmount e : option num :=
  match amount e, type e with
  | Some a, Some (Need | Want) =>
      if nonEmpty (category_id e) && ltb zero a then Some a else None
  | _, _ => None
  end.

(** The amounts that count for the category [id], in the order of the
    expenses, and their sum. *)
Definition categoryAmounts (id : string) (es : list (Expense num)) : list num :=
  flat_map (fun e => match spendAmount e with
                     | Some a => if String.eqb (category_id e) id then [a] else []
                     | None => []
                     end) es.

Definition sumFrom (start : num) (l : list num) : num := fold_left add l start.

Definition categoryTotal (id : string) (es : list (Expense num)) : num :=
  sumFrom zero (categoryAmounts id es).

(** The map after the first loop. *)
Definition seedOf (cs : list Category) : list (string * Slice num) :=
  fold_left seedCategory cs [].

Definition seedEntry c : string * Slice num :=
  (cat_id c, {| name := cat_name c; value := zero |}).

(** One entry per known category, with the total of the category. *)
Definition categoryTotals (es : list (Expense num)) (cs : list Category)
  : list (Slice num) :=
  map (fun kv => {| name := name (snd kv); value := categoryTotal (fst kv) es |})
      (seedOf cs).

Definition positive (s : Slice num) : bool := ltb zero (value s).

(** *** The test of the loop *)

Lemma countsForCategory_spendAmount e : countsForCategory e = spendAmount e.
Proof.
  unfold countsForCategory, spendAmount.
  destruct (amount e) as [a | ]; [ | reflexivity ].
  rewrite leb_ltb.
  destruct (nonEmpty (category_id e)), (ltb zero a), (type e) as [[] | ];
    reflexivity.
Qed.

(** *** The first loop *)

Lemma seedCategory_keys m c :
  NoDup (keys m) -> NoDup (keys (seedCategory m c)).
Proof.
  intros Hm. unfold seedCategory. destruct (_ && _); [ | exact Hm ].
  now apply NoDup_keys_mapSet.
Qed.

Lemma seed_invariant (cs : list Category) m :
  NoDup (keys m) -> Forall (fun kv => value (snd kv) = zero) m ->
  NoDup (keys (fold_left seedCategory cs m))
  /\ Forall (fun kv => value (snd kv) = zero) (fold_left seedCategory cs m).
Proof.
  revert m. induction cs as [ | c cs IH ]; intros m Hnd Hz; [ now split | ].
  cbn [fold_left]. apply IH; [ now apply seedCategory_keys | ].
  unfold seedCategory. destruct (_ && _); [ | exact Hz ].
  destruct (in_dec String.string_dec (cat_id c) (keys m)) as [Hin | Hout].
  - rewrite mapSet_present by assumption.
    apply List.Forall_forall. intros kv Hkv. apply in_map_iff in Hkv.
    destruct Hkv as (kv0 & <- & Hkv0).
    destruct (String.eqb (fst kv0) (cat_id c)); [ reflexivity | ].
    rewrite List.Forall_forall in Hz. now apply Hz.
  - rewrite mapSet_fresh by assumption.
    apply Forall_app. split; [ exact Hz | now repeat constructor ].
Qed.

Lemma seedOf_invariant (cs : list Category) :
  NoDup (keys (seedOf cs))
  /\ Forall (fun kv => value (snd kv) = zero) (seedOf cs).
Proof. apply seed_invariant; constructor. Qed.

Lemma seedOf_snoc (cs : list Category) c :
  seedOf (cs ++ [c]) = seedCategory (seedOf cs) c.
Proof. unfold seedOf. now rewrite fold_left_app. Qed.

(** The keys of the map are the ids of the known categories. *)
Lemma seedOf_known (cs : list Category) (id : string) :
  In id (keys (seedOf cs)) <->
  exists c, In c cs /\ wellFormed c = true /\ cat_id c = id.
Proof.
  induction cs as [ | c cs IH ] using rev_ind.
  - cbn. split; [ tauto | intros (c & [] & _) ].
  - rewrite seedOf_snoc. unfold seedCategory. fold (wellFormed c).
    destruct (wellFormed c) eqn:Hwf.
    + rewrite keys_mapSet.
      destruct (in_dec String.string_dec (cat_id c) (keys (seedOf cs))) as [Hin | Hout].
      * rewrite IH. split.
        -- intros (c' & Hc' & Hw & Hid). exists c'. rewrite in_app_iff. auto.
        -- intros (c' & Hc' & Hw & Hid). apply in_app_iff in Hc'.
           destruct Hc' as [Hc' | [<- | []]]; [ now exists c' | ].
           subst id. now apply IH.
      * rewrite in_app_iff, IH. split.
        -- intros [(c' & Hc' & Hw & Hid) | [<- | []]].
           ++ exists c'. rewrite in_app_iff. auto.
           ++ exists c. rewrite in_app_iff. cbn. auto.
        -- intros (c' & Hc' & Hw & Hid). apply in_app_iff in Hc'.
           destruct Hc' as [Hc' | [<- | []]]; [ left; now exists c' | ].
           right. now left.
    + rewrite IH. split.
      * intros (c' & Hc' & Hw & Hid). exists c'. rewrite in_app_iff. auto.
      * intros (c' & Hc' & Hw & Hid). apply in_app_iff in Hc'.
        destruct Hc' as [Hc' | [<- | []]]; [ now exists c' | congruence ].
Qed.

(** When the categories have distinct ids, the entries are the known
    categories in the order of the list. *)
Lemma seedOf_in_order (cs : list Category) :
  NoDup (map cat_id cs) ->
  seedOf cs = map seedEntry (List.filter wellFormed cs).
Proof.
  induction cs as [ | c cs IH ] using rev_ind; [ reflexivity | ].
  rewrite map_app. intros Hnd.
  assert (Hcs : NoDup (map cat_id cs)) by (now apply NoDup_app in Hnd).
  rewrite seedOf_snoc, List.filter_app. cbn [List.filter].
  unfold seedCategory. fold (wellFormed c).
  destruct (wellFormed c); [ | rewrite app_nil_r; now apply IH ].
  rewrite mapSet_fresh.
  - rewrite IH by exact Hcs. now rewrite map_app.
  - intros Hin. apply seedOf_known in Hin. destruct Hin as (c' & Hc' & _ & Hid).
    apply NoDup_app in Hnd. destruct Hnd as (_ & Hdisj & _).
    apply (Hdisj (cat_id c)).
    + apply list_elem_of_In. rewrite <- Hid. now apply in_map.
    + apply list_elem_of_In. now left.
Qed.

(** *** The second loop *)

(** An entry after the expenses [es] went by. *)
Definition accrue (es : list (Expense num)) (kv : string * Slice num)
  : string * Slice num :=
  (fst kv, {| name := name (snd kv);
              value := sumFrom (value (snd kv)) (categoryAmounts (fst kv) es) |}).

Lemma accrue_nil (kv : string * Slice num) : accrue [] kv = kv.
Proof. destruct kv as [k [n v]]. reflexivity. Qed.

Lemma categoryAmounts_cons (id : string) e (es : list (Expense num)) :
  categoryAmounts id (e :: es) = categoryAmounts id [e] ++ categoryAmounts id es.
Proof. unfold categoryAmounts. cbn [flat_map]. now rewrite app_nil_r. Qed.

Lemma accrue_cons e (es : list (Expense num)) (kv : string * Slice num) :
  accrue (e :: es) kv = accrue es (accrue [e] kv).
Proof.
  unfold accrue, sumFrom. cbn [fst snd name value].
  now rewrite categoryAmounts_cons, fold_left_app.
Qed.

Lemma addExpense_accrue m e :
  NoDup (keys m) -> addExpense m e = map (accrue [e]) m.
Proof.
  intros Hnd. unfold addExpense. rewrite countsForCategory_spendAmount.
  assert (Hid : forall kv : string * Slice num,
             String.eqb (category_id e) (fst kv) = false \/ spendAmount e = None ->
             accrue [e] kv = kv).
  { intros [k [n v]] Hor. cbn [fst] in Hor.
    unfold accrue, categoryAmounts, sumFrom. cbn [fst snd name value flat_map].
    destruct Hor as [-> | ->]; [ destruct (spendAmount e) | ]; reflexivity. }
  destruct (spendAmount e) as [a | ] eqn:Ha.
  - destruct (mapGet m (category_id e)) as [info | ] eqn:Hget.
    + rewrite mapSet_present; [ | exact Hnd | now apply mapGet_Some_In in Hget ].
      apply map_ext_in. intros [k v] Hkv. cbn [fst].
      destruct (String.eqb_spec k (category_id e)) as [-> | Hne].
      * rewrite (mapGet_In m _ v Hnd Hkv) in Hget. injection Hget as ->.
        unfold accrue, categoryAmounts, sumFrom. cbn [fst snd flat_map app].
        rewrite Ha, String.eqb_refl. reflexivity.
      * symmetry. apply Hid. left. apply String.eqb_neq. cbn [fst]. congruence.
    + symmetry. rewrite <- (map_id m) at 2. apply map_ext_in. intros kv Hkv.
      apply Hid. left. apply String.eqb_neq. intros Heq.
      apply mapGet_None in Hget. apply Hget. rewrite Heq. now apply in_map.
  - symmetry. rewrite <- (map_id m) at 2. apply map_ext_in. intros kv Hkv.
    apply Hid. now right.
Qed.

Lemma keys_map_accrue (es : list (Expense num)) m : keys (map (accrue es) m) = keys m.
Proof. unfold keys. rewrite map_map. reflexivity. Qed.

(** The second loop leaves, in each entry, the seed plus the amounts that
    count for its category, added in the order of the expenses. *)
Lemma fold_addExpense (es : list (Expense num)) m :
  NoDup (keys m) -> fold_left addExpense es m = map (accrue es) m.
Proof.
  revert m. induction es as [ | e es IH ]; intros m Hnd.
  - cbn [fold_left]. rewrite <- (map_id m) at 1. apply map_ext. intros kv.
    symmetry. apply accrue_nil.
  - cbn [fold_left]. rewrite addExpense_accrue by exact Hnd.
    rewrite IH by (now rewrite keys_map_accrue).
    rewrite map_map. apply map_ext. intros kv. symmetry. apply accrue_cons.
Qed.

Lemma spendingMap_totals (es : list (Expense num)) (cs : list Category) :
  map snd (spendingMap es cs) = categoryTotals es cs.
Proof.
  destruct (seedOf_invariant cs) as [Hnd Hz].
  unfold spendingMap. fold (seedOf cs). rewrite fold_addExpense by exact Hnd.
  unfold categoryTotals. rewrite map_map. apply map_ext_in. intros kv Hkv.
  rewrite List.Forall_forall in Hz. unfold accrue, categoryTotal.
  cbn [snd]. now rewrite (Hz kv Hkv).
Qed.

Lemma sumFrom_nil_amounts (id : string) : categoryTotal id [] = zero.
Proof. reflexivity. Qed.

(** What the function returns, with or without its early exit. *)
Lemma categorySpendingData_eq (es : list (Expense num)) (cs : list Category) :
  categorySpendingData es cs =
  sort sliceAfter (List.filter positive (categoryTotals es cs)).
Proof.
  unfold categorySpendingData. fold positive.
  destruct es as [ | e es ].
  - unfold categoryTotals.
    induction (seedOf cs) as [ | kv m IH ]; [ reflexivity | ].
    cbn [map List.filter]. unfold positive at 1. cbn [value].
    rewrite sumFrom_nil_amounts, ltb_irrefl. exact IH.
  - destruct cs as [ | c cs ]; [ reflexivity | ].
    now rewrite spendingMap_totals.
Qed.

Lemma sliceAfter_ltb (a b : Slice num) : sliceAfter a b = ltb (value a) (value b).
Proof. unfold sliceAfter. apply sub_pos. Qed.

Lemma sliceAfter_asym (a b : Slice num) :
  sliceAfter a b = true -> sliceAfter b a = false.
Proof.
  rewrite !sliceAfter_ltb. intros Hab.
  destruct (ltb (value b) (value a)) eqn:Hba; [ | reflexivity ].
  rewrite <- (ltb_irrefl (value a)). symmetry. now apply (ltb_trans _ (value b)).
Qed.

Lemma sliceAfter_negtrans (a b c : Slice num) :
  True -> True -> True ->
  sliceAfter a b = false -> sliceAfter b c = false -> sliceAfter a c = false.
Proof.
  rewrite !sliceAfter_ltb. intros _ _ _ Hab Hbc.
  destruct (ltb (value a) (value c)) eqn:Hac; [ | reflexivity ].
  destruct (ltb (value b) (value a)) eqn:Hba.
  - rewrite <- Hbc. symmetry. now apply (ltb_trans _ (value a)).
  - rewrite (ltb_total _ _ Hab Hba) in Hac. congruence.
Qed.

(** C5. The category totals: one entry per known category (a category of
    the list with an id and a name; in list order when ids are distinct),
    whose total is the sum, in expense order, of the amounts of the
    expenses of that category that have a numeric amount above zero and
    type Need or Want.  The function returns the entries of total above
    zero, no entry before one of larger total, entries of equal total in
    the order they had; and the total spending is the sum of the totals of
    the entries returned. *)
Theorem category_spending (es : list (Expense num)) (cs : list Category) :
  let entries := categoryTotals es cs in
  let out := categorySpendingData es cs in
  (forall id, In id (keys (seedOf cs)) <->
              exists c, In c cs /\ wellFormed c = true /\ cat_id c = id)
  /\ (NoDup (map cat_id cs) ->
      entries = map (fun c => {| name := cat_name c;
                                 value := categoryTotal (cat_id c) es |})
                    (List.filter wellFormed cs))
  /\ Permutation out (List.filter positive entries)
  /\ StronglySorted (fun a b => ltb (value a) (value b) = false) out
  /\ (forall z, List.filter (tied sliceAfter z) out
               = List.filter (tied sliceAfter z) (List.filter positive entries))
  /\ totalSpending out = sumFrom zero (map value out).
Proof.
  cbv zeta. rewrite categorySpendingData_eq.
  split; [ apply seedOf_known | ].
  split.
  { intros Hnd. unfold categoryTotals. rewrite (seedOf_in_order cs Hnd), map_map.
    reflexivity. }
  split; [ apply sort_perm | ].
  split.
  { apply (StronglySorted_weaken (inOrder sliceAfter)).
    - intros a b Hab. unfold inOrder in Hab. now rewrite sliceAfter_ltb in Hab.
    - apply (sort_sorted sliceAfter (fun _ => True) sliceAfter_asym
               sliceAfter_negtrans).
      apply List.Forall_forall. auto. }
  split.
  { intros z. apply (sort_stable sliceAfter (fun _ => True) sliceAfter_negtrans);
      [ exact I | apply List.Forall_forall; auto ]. }
  unfold totalSpending, sumFrom.
  generalize (sort sliceAfter (List.filter positive (categoryTotals es cs))), zero.
  intros l. induction l as [ | s l IH ]; intros z; [ reflexivity | ].
  cbn [fold_left map]. apply IH.
Qed.

End Category.

Section Trend.
Context {num : Type} `{JSNumberLaws num}.
Implicit Types (e : Expense num) (m : list (string * num)).

(** *** The specification's side *)

(** The amount an expense contributes to the trend: it has a timestamp,
    its amount is a number greater than zero, its type is Need or Want. *)
Definition trendAmount e : option num :=
  match amount e, type e with
  | Some a, Some (Need | Want) =>
      if nonEmpty (timestamp e) && ltb zero a then Some a else None
  | _, _ => None
  end.

(** The bucket of an expense: the first ten characters of its timestamp. *)
Definition dayOf e : string := substring 0 10 (timestamp e).

Definition dayAmounts (d : string) (es : list (Expense num)) : list num :=
  flat_map (fun e => match trendAmount e with
                     | Some a => if String.eqb (dayOf e) d then [a] else []
                     | None => []
                     end) es.

Definition dayTotal (d : string) (es : list (Expense num)) : num :=
  fold_left add (dayAmounts d es) zero.

(** Every expense that counts is stamped with a calendar date. *)
Definition datedExpenses (es : list (Expense num)) : Prop :=
  forall e, In e es -> trendAmount e <> None ->
    JSDate.isCalendarDate (dayOf e) = true.

(** The day [d1] is strictly before the day [d2]. *)
Definition earlier (h : Host) (d1 d2 : string) : Prop :=
  match JSDate.parse (parseOther h) d1, JSDate.parse (parseOther h) d2 with
  | Some t1, Some t2 => t1 < t2
  | _, _ => False
  end.

(** [a] is dated strictly before [b]. *)
Definition chronological (h : Host) (a b : TrendPoint num) : Prop :=
  earlier h (date a) (date b).

(** *** The loop *)

Lemma countsForTrend_trendAmount e : countsForTrend e = trendAmount e.
Proof.
  unfold countsForTrend, trendAmount.
  destruct (amount e) as [a | ]; [ | reflexivity ].
  rewrite leb_ltb.
  destruct (nonEmpty (timestamp e)), (ltb zero a), (type e) as [[] | ];
    reflexivity.
Qed.

Lemma orZero_default (x : option num) : orZero x = default zero x.
Proof.
  destruct x as [v | ]; [ | reflexivity ]. cbn [orZero default].
  destruct (toBoolean v) eqn:Hv; [ reflexivity | ].
  symmetry. now apply falsy_zero.
Qed.

Lemma dayAmounts_cons (d : string) e (es : list (Expense num)) :
  dayAmounts d (e :: es) = dayAmounts d [e] ++ dayAmounts d es.
Proof. unfold dayAmounts. cbn [flat_map]. now rewrite app_nil_r. Qed.

Lemma addToDay_keys m e : NoDup (keys m) -> NoDup (keys (addToDay m e)).
Proof.
  intros Hm. unfold addToDay. destruct (countsForTrend e); [ | exact Hm ].
  now apply NoDup_keys_mapSet.
Qed.

Lemma addToDay_lookup m e (d : string) :
  mapGet (addToDay m e) d =
  match dayAmounts d [e] with
  | [] => mapGet m d
  | l => Some (fold_left add l (default zero (mapGet m d)))
  end.
Proof.
  unfold addToDay, dayAmounts. cbn [flat_map]. rewrite app_nil_r.
  rewrite countsForTrend_trendAmount. fold (dayOf e).
  destruct (trendAmount e) as [a | ]; [ | reflexivity ].
  destruct (String.eqb_spec (dayOf e) d) as [<- | Hne].
  - rewrite mapGet_mapSet_eq, orZero_default. reflexivity.
  - now rewrite mapGet_mapSet_ne.
Qed.

(** After the loop a day is in the map when some expense counted for it,
    and it holds the sum of the amounts of that day in expense order. *)
Lemma fold_addToDay (es : list (Expense num)) m (d : string) :
  mapGet (fold_left addToDay es m) d =
  match dayAmounts d es with
  | [] => mapGet m d
  | l => Some (fold_left add l (default zero (mapGet m d)))
  end.
Proof.
  revert m. induction es as [ | e es IH ]; intros m; [ reflexivity | ].
  cbn [fold_left]. rewrite (dayAmounts_cons d e es), IH, addToDay_lookup.
  destruct (dayAmounts d [e]) as [ | a l ]; [ reflexivity | ].
  cbn [app default].
  destruct (dayAmounts d es) as [ | a' l' ].
  - now rewrite app_nil_r.
  - cbn [fold_left]. rewrite fold_left_app. reflexivity.
Qed.

Lemma fold_addToDay_keys (es : list (Expense num)) m :
  NoDup (keys m) -> NoDup (keys (fold_left addToDay es m)).
Proof.
  revert m. induction es as [ | e es IH ]; intros m Hm; [ exact Hm | ].
  cbn [fold_left]. apply IH. now apply addToDay_keys.
Qed.

Lemma dailySpendingMap_lookup (es : list (Expense num)) (d : string) :
  mapGet (dailySpendingMap es) d =
  match dayAmounts d es with
  | [] => None
  | _ => Some (dayTotal d es)
  end.
Proof.
  unfold dailySpendingMap, dayTotal. rewrite fold_addToDay.
  destruct (dayAmounts d es); reflexivity.
Qed.

Lemma dailySpendingMap_keys (es : list (Expense num)) :
  NoDup (keys (dailySpendingMap es)).
Proof. apply fold_addToDay_keys. constructor. Qed.

Definition toPoint (entry : string * num) : TrendPoint num :=
  {| date := fst entry; totalAmount := snd entry |}.

Lemma spendingTrendData_eq (h : Host) (es : list (Expense num)) :
  spendingTrendData h es = sort (pointAfter h) (map toPoint (dailySpendingMap es)).
Proof. destruct es; reflexivity. Qed.

(** A day of the map is the day of an expense that counted. *)
Lemma dayAmounts_source (d : string) (es : list (Expense num)) :
  dayAmounts d es <> [] ->
  exists e, In e es /\ trendAmount e <> None /\ dayOf e = d.
Proof.
  induction es as [ | e es IH ]; [ now intros [] | ].
  rewrite (dayAmounts_cons d e es). unfold dayAmounts at 1. cbn [flat_map].
  destruct (trendAmount e) as [a | ] eqn:Ha.
  - destruct (String.eqb_spec (dayOf e) d) as [Heq | Hne].
    + intros _. exists e. split; [ now left | ]. split; [ congruence | exact Heq ].
    + cbn [app]. intros Hd. destruct (IH Hd) as (e' & Hin & Hc & He').
      exists e'. split; [ now right | now split ].
  - cbn [app]. intros Hd. destruct (IH Hd) as (e' & Hin & Hc & He').
    exists e'. split; [ now right | now split ].
Qed.

Lemma point_in_map (es : list (Expense num)) (pt : TrendPoint num) :
  In pt (map toPoint (dailySpendingMap es)) <->
  dayAmounts (date pt) es <> [] /\ totalAmount pt = dayTotal (date pt) es.
Proof.
  pose proof (dailySpendingMap_keys es) as Hnd.
  pose proof (dailySpendingMap_lookup es (date pt)) as Hl.
  rewrite in_map_iff. split.
  - intros ([d t] & <- & Hin). cbn [toPoint date totalAmount fst snd] in *.
    rewrite (mapGet_In _ d t Hnd Hin) in Hl.
    destruct (dayAmounts d es); [ discriminate | ].
    split; [ discriminate | congruence ].
  - intros [Hne Ht]. destruct pt as [d t]. cbn [date totalAmount] in *.
    exists (d, t). split; [ reflexivity | ].
    destruct (dayAmounts d es) as [ | a l ]; [ contradiction | ].
    subst t. clear Hne Hnd.
    induction (dailySpendingMap es) as [ | [k v] m IH ]; [ discriminate | ].
    cbn [mapGet] in Hl. destruct (String.eqb_spec k d) as [-> | Hk].
    + left. congruence.
    + right. now apply IH.
Qed.

Lemma pointAfter_asym (h : Host) (a b : TrendPoint num) :
  pointAfter h a b = true -> pointAfter h b a = false.
Proof.
  unfold pointAfter.
  destruct (JSDate.parse (parseOther h) (date a)) as [ta | ],
    (JSDate.parse (parseOther h) (date b)) as [tb | ]; try discriminate.
  intros Hab. apply Z.ltb_lt in Hab. apply Z.ltb_ge. lia.
Qed.

Definition dated (pt : TrendPoint num) : Prop :=
  JSDate.isCalendarDate (date pt) = true.

Lemma pointAfter_negtrans (h : Host) (a b c : TrendPoint num) :
  dated a -> dated b -> dated c ->
  pointAfter h a b = false -> pointAfter h b c = false -> pointAfter h a c = false.
Proof.
  unfold dated, pointAfter. intros Ha Hb Hc.
  rewrite !(JSDateFacts.parse_calendar_date (parseOther h)) by assumption.
  intros Hab Hbc. apply Z.ltb_ge in Hab, Hbc. apply Z.ltb_ge. lia.
Qed.

Lemma earlier_asym (h : Host) (d1 d2 : string) :
  earlier h d1 d2 -> earlier h d2 d1 -> False.
Proof.
  unfold earlier.
  destruct (JSDate.parse (parseOther h) d1), (JSDate.parse (parseOther h) d2);
    try tauto. lia.
Qed.

(** The trend, stated for one list of expenses. *)
Lemma daily_trend_points (h : Host) (es : list (Expense num)) :
  datedExpenses es ->
  let out := spendingTrendData h es in
  (forall pt, In pt out <->
     dayAmounts (date pt) es <> [] /\ totalAmount pt = dayTotal (date pt) es)
  /\ NoDup (map date out)
  /\ StronglySorted (chronological h) out.
Proof.
  intros Hdated. cbv zeta. rewrite spendingTrendData_eq.
  set (points := map toPoint (dailySpendingMap es)).
  assert (Hperm : Permutation (sort (pointAfter h) points) points)
    by apply sort_perm.
  assert (Hin : forall pt, In pt (sort (pointAfter h) points) <->
                  dayAmounts (date pt) es <> []
                  /\ totalAmount pt = dayTotal (date pt) es).
  { intros pt. rewrite <- point_in_map. fold points.
    split; apply Permutation_in; [ exact Hperm | now symmetry ]. }
  assert (Hnd : NoDup (map date (sort (pointAfter h) points))).
  { rewrite Hperm. subst points. rewrite map_map. cbn [toPoint date].
    apply dailySpendingMap_keys. }
  assert (HP : Forall dated (sort (pointAfter h) points)).
  { apply List.Forall_forall. intros pt Hpt. apply Hin in Hpt.
    destruct Hpt as [Hne _].
    destruct (dayAmounts_source _ _ Hne) as (e & He & Hc & Hd).
    unfold dated. rewrite <- Hd. now apply Hdated. }
  split; [ exact Hin | ]. split; [ exact Hnd | ].
  apply (StronglySorted_strict (inOrder (pointAfter h)) (chronological h) dated date).
  - intros a b Ha Hb Hab Hne. unfold inOrder, pointAfter in Hab.
    unfold chronological, earlier. unfold dated in Ha, Hb.
    assert (Hinj := JSDateFacts.parse_calendar_date_inj (parseOther h) _ _ Ha Hb).
    rewrite !(JSDateFacts.parse_calendar_date (parseOther h)) in * by assumption.
    apply Z.ltb_ge in Hab.
    assert (Hneq : JSDate.MakeDate
                     (JSDate.MakeDay (JSDate.yearField (date a))
                        (JSDate.monthField (date a) - 1) (JSDate.dayField (date a))) 0
                   <> JSDate.MakeDate
                     (JSDate.MakeDay (JSDate.yearField (date b))
                        (JSDate.monthField (date b) - 1) (JSDate.dayField (date b))) 0).
    { intros Heq. apply Hne, Hinj. now rewrite Heq. }
    lia.
  - apply (sort_sorted (pointAfter h) dated (pointAfter_asym h) (pointAfter_negtrans h)).
    rewrite <- Hperm. exact HP.
  - exact HP.
  - exact Hnd.
Qed.

Lemma trend_days (h : Host) (es : list (Expense num)) (d : string) :
  datedExpenses es ->
  In d (map date (spendingTrendData h es)) <-> dayAmounts d es <> [].
Proof.
  intros Hdated. destruct (daily_trend_points h es Hdated) as (Hin & _ & _).
  rewrite in_map_iff. split.
  - intros (pt & <- & Hpt). now apply Hin in Hpt.
  - intros Hd. exists {| date := d; totalAmount := dayTotal d es |}.
    split; [ reflexivity | ]. apply Hin. now split.
Qed.

Lemma dayAmounts_perm (d : string) (es es' : list (Expense num)) :
  Permutation es es' -> dayAmounts d es <> [] -> dayAmounts d es' <> [].
Proof.
  intros Hperm Hne Hnil. apply Hne.
  assert (Hp : Permutation (dayAmounts d es') (dayAmounts d es))
    by (unfold dayAmounts; apply Permutation_flat_map; now symmetry).
  rewrite Hnil in Hp. now apply Permutation_nil in Hp.
Qed.

(** C6. The daily trend has one point per day for which some expense
    counts (a non-empty timestamp, a numeric amount above zero, type Need
    or Want; the day is the first ten characters of the timestamp), with
    the sum of the amounts of that day.  When those days are calendar
    dates, the points come out in strictly ascending order of date, and
    the sequence of dates is the same for every order of the expenses. *)
Theorem daily_trend (h : Host) (es : list (Expense num)) :
  datedExpenses es ->
  let out := spendingTrendData h es in
  (forall pt, In pt out <->
     dayAmounts (date pt) es <> [] /\ totalAmount pt = dayTotal (date pt) es)
  /\ NoDup (map date out)
  /\ StronglySorted (chronological h) out
  /\ (forall es', Permutation es es' ->
        map date (spendingTrendData h es') = map date out).
Proof.
  intros Hdated. cbv zeta.
  destruct (daily_trend_points h es Hdated) as (Hin & Hnd & Hsorted).
  repeat split; try apply Hin; try assumption.
  intros es' Hperm.
  assert (Hdated' : datedExpenses es').
  { intros e He. apply Hdated. apply (Permutation_in e (Permutation_sym Hperm) He). }
  destruct (daily_trend_points h es' Hdated') as (_ & _ & Hsorted').
  apply (StronglySorted_unique (earlier h)).
  - apply earlier_asym.
  - now apply StronglySorted_map.
  - now apply StronglySorted_map.
  - intros d. rewrite !trend_days by assumption. split.
    + apply dayAmounts_perm. now symmetry.
    + now apply dayAmounts_perm.
Qed.

End Trend.

(** The example of the specification: one category, three expenses. *)
Definition anExpense (category : string) (a : Z) (t : ExpenseType) (time : string)
  : Expense Z :=
  {| id := "e"; category_id := category; payment_method_id := "p";
     amount := Some a; type := Some t; description := "";
     timestamp := time; created_at := time; updated_at := time |}.

Definition foodExpenses : list (Expense Z) :=
  [anExpense "c1" 100 Need "2024-01-02T08:00:00.000Z";
   anExpense "c1" 50 Income "2024-01-02T09:00:00.000Z";
   anExpense "c1" 25 Want "2024-01-01T19:30:00.000Z"].

Definition foodCategories : list Category :=
  [{| cat_id := "c1"; cat_name := "Food" |}].

Lemma category_spending_witness :
  Permutation (categorySpendingData foodExpenses foodCategories)
              [{| name := "Food"; value := 125 |}]
  /\ totalSpending (categorySpendingData foodExpenses foodCategories) = 125.
Proof.
  destruct (category_spending (num := Z) foodExpenses foodCategories)
    as (_ & _ & Hperm & _ & _ & Htotal).
  split; [ exact Hperm | exact Htotal ].
Defined.

(** The example of the specification: two days, given latest first. *)
Definition twoDays : list (Expense Z) :=
  [anExpense "c1" 10 Need "2024-01-02T08:00:00.000Z";
   anExpense "c2" 5 Want "2024-01-01T19:30:00.000Z"].

Lemma daily_trend_witness :
  StronglySorted (chronological (fixedOffsetHost 0))
    [{| date := "2024-01-01"; totalAmount := 5 |};
     {| date := "2024-01-02"; totalAmount := 10 |}].
Proof.
  assert (Hdated : datedExpenses twoDays).
  { intros e [<- | [<- | []]] _; reflexivity. }
  exact (proj1 (proj2 (proj2 (daily_trend (num := Z) (fixedOffsetHost 0) twoDays
                                  Hdated)))).
Defined.

End AggregationFacts.

(** ** The other clients of [api.ts] *)

Module ApiClientFacts.
Import Api ApiClients ApiFacts.

Definition unauthorized : string := "Unauthorized. Please log in again.".

Definition settle {A : Type} (failure : string) (r : Result (Response A))
  : Result (Json A) :=
  let! response := r in
  if status response =? 401 then Throw unauthorized
  else if negb (ok response) then Throw failure
  else json response.

Definition jsonHeaders : gmap string string :=
  {[ "Content-Type" := "application/json" ]}.

Definition tokenHeaders (st : Storage) : gmap string string :=
  match getCsrfTokenFromStorage st with
  | Some t => if String.eqb t "" then jsonHeaders else <["X-CSRF-Token" := t]> jsonHeaders
  | None => jsonHeaders
  end.

Definition mutation (h : Host) (method url body : string) (st : Storage) : Request :=
  {| req_url := API_BASE_URL h +:+ url;
     req_method := Some method;
     req_credentials := "include";
     req_headers := tokenHeaders st;
     req_body := Some body |}.

Lemma settle_fetchWithCreds {A : Type} (h : Host) (fetch : Transport A)
    (url : string) (options : RequestInit) (tok : option string) (failure : string) :
  (let! response := fetchWithCreds h fetch url options tok in
   if negb (ok response) then Throw failure else json response)
  = settle failure (fetch (buildRequest h url options tok)).
Proof.
  unfold fetchWithCreds, settle.
  destruct (fetch _) as [ r | m ]; simpl; [ | reflexivity ].
  destruct (status r =? 401); reflexivity.
Qed.

Lemma mutation_request (h : Host) (method url body : string) (st : Storage) :
  isApi url = true ->
  isMutation {| method := Some method; headers := None; body := Some body |} = true ->
  buildRequest h url {| method := Some method; headers := None; body := Some body |}
    (getCsrfTokenFromStorage st)
  = mutation h method url body st.
Proof.
  intros Hu Hm. unfold buildRequest, mutation, tokenHeaders. rewrite Hu, Hm.
  cbn [andb Api.headers Api.method Api.body normalizeHeaders].
  f_equal. unfold truthy, jsonHeaders.
  destruct (getCsrfTokenFromStorage st) as [ t | ]; [ | reflexivity ].
  destruct (String.eqb t ""); reflexivity.
Qed.


Lemma isApi_categories (id : string) : isApi ("/api/categories/" +:+ id) = true.
Proof. reflexivity. Qed.

Lemma isApi_payment_methods (id : string) : isApi ("/api/payment_methods/" +:+ id) = true.
Proof. reflexivity. Qed.

Lemma isApi_expenses (id : string) : isApi ("/api/expenses/" +:+ id) = true.
Proof. reflexivity. Qed.

Ltac client_request :=
  rewrite settle_fetchWithCreds, mutation_request by reflexivity; reflexivity.

(** X5. Every create and update call is sent with the method, the path
    and the body of its resource and with the CSRF token the storage holds
    as its [X-CSRF-Token] header, for every id; when the storage holds no
    token, or an empty one, the call is sent all the same, without that
    header.  What comes back is settled the same way by all of them. *)
Theorem mutations_carry_stored_token {A D : Type} (h : Host) (str : D -> string)
    (fetch : Transport A) (st : Storage) (id : string) (data : D) :
  createCategory h str fetch st data
    = settle "Failed to create category"
        (fetch (mutation h "POST" "/api/categories" (str data) st))
  /\ updateCategory h str fetch st id data
    = settle "Failed to update category"
        (fetch (mutation h "PATCH" ("/api/categories/" +:+ id) (str data) st))
  /\ createPaymentMethod h str fetch st data
    = settle "Failed to create payment method"
        (fetch (mutation h "POST" "/api/payment_methods" (str data) st))
  /\ updatePaymentMethod h str fetch st id data
    = settle "Failed to update payment method"
        (fetch (mutation h "PATCH" ("/api/payment_methods/" +:+ id) (str data) st))
  /\ createExpense h str fetch st data
    = settle "Failed to create expense"
        (fetch (mutation h "POST" "/api/expenses" (str data) st))
  /\ updateExpense h str fetch st id data
    = settle "Failed to update expense"
        (fetch (mutation h "PATCH" ("/api/expenses/" +:+ id) (str data) st)).
Proof.
  unfold createCategory, updateCategory, createPaymentMethod, updatePaymentMethod,
    createExpense, updateExpense.
  repeat split; client_request.
Qed.


Lemma settle_401 {A : Type} (failure : string) (r : Response A) :
  status r = 401 -> settle failure (Ok r) = Throw unauthorized.
Proof. intros Hr. unfold settle. simpl. rewrite Hr. reflexivity. Qed.

Lemma fetchWithCreds_401 {A X : Type} (h : Host) (fetch : Transport A)
    (url : string) (options : RequestInit) (tok : option string)
    (k : Response A -> Result X) :
  (forall req, exists r, fetch req = Ok r /\ status r = 401) ->
  (let! response := fetchWithCreds h fetch url options tok in k response)
  = Throw unauthorized.
Proof.
  intros Hf. unfold fetchWithCreds.
  destruct (Hf (buildRequest h url options tok)) as (r & -> & Hr).
  simpl. rewrite Hr. reflexivity.
Qed.

(** X4. When the server answers 401, every client of [api.ts] throws the
    message of the wrapper, ``Unauthorized. Please log in again.'', and not
    the failure message of its own. *)
Theorem unauthorized_before_failure {A D : Type} (h : Host) (str : D -> string)
    (fetch : Transport A) (st : Storage) (id : string) (data : D)
    (skip limit : option Z) (filters : ExpenseFilters) (q : URLSearchParams) :
  (forall req, exists r, fetch req = Ok r /\ status r = 401) ->
  expenseParams h filters [] = Ok q ->
  getCategories h fetch skip limit = Throw unauthorized
  /\ createCategory h str fetch st data = Throw unauthorized
  /\ updateCategory h str fetch st id data = Throw unauthorized
  /\ deleteCategory h fetch st id = Throw unauthorized
  /\ getPaymentMethods h fetch skip limit = Throw unauthorized
  /\ createPaymentMethod h str fetch st data = Throw unauthorized
  /\ updatePaymentMethod h str fetch st id data = Throw unauthorized
  /\ deletePaymentMethod h fetch st id = Throw unauthorized
  /\ getExpenses h fetch filters = Throw unauthorized
  /\ getExpense h fetch id = Throw unauthorized
  /\ createExpense h str fetch st data = Throw unauthorized
  /\ updateExpense h str fetch st id data = Throw unauthorized
  /\ deleteExpense h fetch st id = Throw unauthorized.
Proof.
  intros Hf Hq.
  unfold getCategories, createCategory, updateCategory, deleteCategory,
    getPaymentMethods, createPaymentMethod, updatePaymentMethod, deletePaymentMethod,
    getExpenses, getExpense, createExpense, updateExpense, deleteExpense.
  rewrite Hq. cbv zeta. rewrite bindResult_Ok.
  repeat split; apply fetchWithCreds_401; exact Hf.
Qed.

Lemma unauthorized_before_failure_witness :
  getExpenses (fixedOffsetHost 0) (answering (A := unit) 401 (Ok JOther))
    [("limit", VNumber 5)] = Throw unauthorized.
Proof.
  refine (proj1 (proj2 (proj2 (proj2 (proj2 (proj2 (proj2 (proj2 (proj2
    (unauthorized_before_failure (D := unit) (fixedOffsetHost 0) (fun _ => "{}")
       (answering 401 (Ok JOther)) None "" tt None None
       [("limit", VNumber 5)] [("limit", "5")] _ _)))))))))).
  - intros req. eexists. split; reflexivity.
  - reflexivity.
Defined.


(** *** Query strings of the list clients *)

(** [String(n)] for a whole number. *)
Definition decimal (n : Z) : string := stringOf (VNumber n).











(** *** Headers the wrapper does not write *)

(** X7. A header of the caller other than [Content-Type] and
    [X-CSRF-Token] reaches the request as the caller gave it, and a header
    the caller did not give is not added. *)
Theorem other_headers_pass_through (h : Host) (url : string) (options : RequestInit)
    (csrfToken : option string) (name : string) :
  name <> contentTypeName -> name <> csrfName ->
  sentHeader h url options csrfToken name = ownHeader options name.
Proof.
  intros Hct Hcsrf. unfold contentTypeName, csrfName in *.
  unfold sentHeader, ownHeader, buildRequest. simpl.
  destruct (isApi url && isMutation options && truthy csrfToken).
  - rewrite !lookup_insert_ne by congruence. reflexivity.
  - rewrite lookup_insert_ne by congruence. reflexivity.
Qed.

Lemma other_headers_pass_through_witness :
  sentHeader (fixedOffsetHost 0) "/api/expenses"
    {| method := Some "POST";
       headers := Some (HeadersArray [("Accept", "text/csv")]);
       body := None |}
    (Some "t0k3n") "Accept"
  = Some "text/csv".
Proof.
  rewrite (other_headers_pass_through (fixedOffsetHost 0) "/api/expenses"
             {| method := Some "POST";
                headers := Some (HeadersArray [("Accept", "text/csv")]);
                body := None |}
             (Some "t0k3n") "Accept"); [ reflexivity | discriminate | discriminate ].
Defined.

(** The value of the last pair of a list that carries a name. *)
Fixpoint lastValue (pairs : list (string * string)) (name : string) : option string :=
  match pairs with
  | [] => None
  | (k, v) :: rest =>
      match lastValue rest name with
      | Some v' => Some v'
      | None => if String.eqb k name then Some v else None
      end
  end.

Lemma setEntries_lookup (pairs : list (string * string)) :
  forall (m : gmap string string) (name : string),
    setEntries m pairs !! name =
    match lastValue pairs name with
    | Some v => Some v
    | None => m !! name
    end.
Proof.
  induction pairs as [ | [k v] rest IH ]; intros m name; [ reflexivity | ].
  unfold setEntries in *. cbn [fold_left lastValue fst snd]. rewrite IH.
  destruct (lastValue rest name); [ reflexivity | ].
  destruct (String.eqb_spec k name) as [ -> | Hne ].
  - apply lookup_insert_eq.
  - now apply lookup_insert_ne.
Qed.

(** X8. When the caller's headers come as an array of pairs, or as a
    [Headers] object, and a name comes more than once, the value of the
    last pair is the one kept. *)
Theorem repeated_header_last_wins (pairs : list (string * string)) (name : string) :
  ownHeader {| method := None; headers := Some (HeadersArray pairs); body := None |} name
    = lastValue pairs name
  /\ ownHeader {| method := None; headers := Some (HeadersObject pairs); body := None |} name
    = lastValue pairs name.
Proof.
  unfold ownHeader, normalizeHeaders. cbn [Api.headers].
  rewrite setEntries_lookup. destruct (lastValue pairs name); split; reflexivity.
Qed.


(** *** The query string determines the parameters *)

(** What [urlencode] writes for one character. *)
Definition encodeChar (c : ascii) : string :=
  let n := N_of_ascii c in
  if isUnreserved c then String c EmptyString
  else if (n =? 32)%N then "+"
  else String "%" (String (hexChar (n / 16)) (String (hexChar (n mod 16)) EmptyString)).

Lemma urlencode_cons (c : ascii) (s : string) :
  urlencode (String c s) = encodeChar c +:+ urlencode s.
Proof.
  cbn [urlencode]. unfold encodeChar.
  destruct (isUnreserved c); [ reflexivity | ].
  destruct (N_of_ascii c =? 32)%N; reflexivity.
Qed.

Definition unhexDigit (a : ascii) : N :=
  let n := N_of_ascii a in if (n <? 58)%N then (n - 48)%N else (n - 55)%N.

(** The reading of an encoded string, character after character. *)
Fixpoint urldecode (s : string) : string :=
  match s with
  | EmptyString => EmptyString
  | String c r =>
      if Ascii.eqb c "%" then
        match r with
        | String a (String b r') =>
            String (ascii_of_N (16 * unhexDigit a + unhexDigit b)) (urldecode r')
        | _ => String c (urldecode r)
        end
      else if Ascii.eqb c "+" then String " " (urldecode r)
      else String c (urldecode r)
  end.

Lemma urldecode_encodeChar (c : ascii) (r : string) :
  urldecode (encodeChar c +:+ r) = String c (urldecode r).
Proof.
  destruct c as [[] [] [] [] [] [] [] []]; reflexivity.
Qed.

Lemma urldecode_urlencode (s : string) : urldecode (urlencode s) = s.
Proof.
  induction s as [ | c s IH ]; [ reflexivity | ].
  rewrite urlencode_cons, urldecode_encodeChar, IH. reflexivity.
Qed.

Lemma urlencode_inj (s1 s2 : string) : urlencode s1 = urlencode s2 -> s1 = s2.
Proof.
  intros Heq. rewrite <- (urldecode_urlencode s1), <- (urldecode_urlencode s2).
  now rewrite Heq.
Qed.

(** A separator of the query string. *)
Definition isSeparator (c : ascii) : bool := Ascii.eqb c "&" || Ascii.eqb c "=".

Fixpoint clean (s : string) : bool :=
  match s with
  | EmptyString => true
  | String c s' => negb (isSeparator c) && clean s'
  end.

Lemma clean_app (a b : string) : clean (a +:+ b) = clean a && clean b.
Proof.
  induction a as [ | c a IH ]; [ reflexivity | ].
  change (String c a +:+ b) with (String c (a +:+ b)). cbn [clean].
  rewrite IH. now rewrite andb_assoc.
Qed.

Lemma clean_encodeChar (c : ascii) : clean (encodeChar c) = true.
Proof.
  destruct c as [[] [] [] [] [] [] [] []]; reflexivity.
Qed.

(** An encoded name or value holds no separator. *)
Lemma clean_urlencode (s : string) : clean (urlencode s) = true.
Proof.
  induction s as [ | c s IH ]; [ reflexivity | ].
  rewrite urlencode_cons, clean_app, clean_encodeChar, IH. reflexivity.
Qed.

(** What follows a clean prefix: nothing, or a separator and more. *)
Definition tailed (r : string) : Prop :=
  r = EmptyString \/ exists c r', r = String c r' /\ isSeparator c = true.

Lemma clean_prefix_unique (a : string) :
  forall (a' r r' : string),
    clean a = true -> clean a' = true -> tailed r -> tailed r' ->
    a +:+ r = a' +:+ r' -> a = a' /\ r = r'.
Proof.
  induction a as [ | c a IH ]; intros a' r r' Ha Ha' Hr Hr' Heq.
  - destruct a' as [ | c' a' ]; [ now split | exfalso ].
    change (r = String c' (a' +:+ r')) in Heq.
    cbn [clean] in Ha'. apply andb_prop in Ha'. destruct Ha' as [Hc' _].
    destruct Hr as [ -> | (x & r0 & -> & Hx) ]; [ discriminate | ].
    injection Heq as -> _. rewrite Hx in Hc'. discriminate.
  - cbn [clean] in Ha. apply andb_prop in Ha. destruct Ha as [Hc Ha].
    destruct a' as [ | c' a' ].
    + exfalso. change (String c (a +:+ r) = r') in Heq.
      destruct Hr' as [ -> | (x & r0 & -> & Hx) ]; [ discriminate | ].
      injection Heq as -> _. rewrite Hx in Hc. discriminate.
    + change (String c (a +:+ r) = String c' (a' +:+ r')) in Heq.
      injection Heq as -> Heq.
      cbn [clean] in Ha'. apply andb_prop in Ha'. destruct Ha' as [_ Ha'].
      destruct (IH a' r r' Ha Ha' Hr Hr' Heq) as [-> ->]. now split.
Qed.

(** What [toQueryString] writes after the first parameter. *)
Definition afterFirst (q : URLSearchParams) : string :=
  match q with
  | [] => ""
  | _ => String "&" (toQueryString q)
  end.

Lemma append_empty (a : string) : a +:+ EmptyString = a.
Proof.
  induction a as [ | c a IH ]; [ reflexivity | ].
  change (String c (a +:+ EmptyString) = String c a). now rewrite IH.
Qed.

Lemma toQueryString_cons (k v : string) (q : URLSearchParams) :
  toQueryString ((k, v) :: q)
  = urlencode k +:+ String "=" (urlencode v +:+ afterFirst q).
Proof.
  destruct q as [ | p q ].
  - cbn [toQueryString afterFirst]. now rewrite append_empty.
  - reflexivity.
Qed.

Lemma tailed_afterFirst (q : URLSearchParams) : tailed (afterFirst q).
Proof.
  destruct q; [ now left | right ]. eexists _, _. split; reflexivity.
Qed.

Lemma tailed_equals (r : string) : tailed (String "=" r).
Proof. right. eexists _, _. split; reflexivity. Qed.

Lemma toQueryString_inj (q1 q2 : URLSearchParams) :
  toQueryString q1 = toQueryString q2 -> q1 = q2.
Proof.
  revert q2. induction q1 as [ | [k1 v1] q1 IH ]; intros q2 Heq.
  - destruct q2 as [ | [k2 v2] q2 ]; [ reflexivity | exfalso ].
    rewrite toQueryString_cons in Heq. cbn [toQueryString] in Heq.
    destruct (urlencode k2); discriminate.
  - destruct q2 as [ | [k2 v2] q2 ].
    + exfalso. rewrite toQueryString_cons in Heq. cbn [toQueryString] in Heq.
      destruct (urlencode k1); discriminate.
    + rewrite !toQueryString_cons in Heq.
      apply clean_prefix_unique in Heq;
        try apply clean_urlencode; try apply tailed_equals.
      destruct Heq as [Hk Heq]. injection Heq as Heq.
      apply clean_prefix_unique in Heq;
        try apply clean_urlencode; try apply tailed_afterFirst.
      destruct Heq as [Hv Hrest].
      apply urlencode_inj in Hk, Hv. subst k2 v2. f_equal.
      apply IH. destruct q1, q2; try reflexivity; try discriminate.
      now injection Hrest.
Qed.

(** X9. Two different lists of parameters never give the same query
    string: a name or a value that holds [&], [=], [+], [%] or a space is
    encoded so that it cannot be read as another parameter. *)
Theorem query_string_determines_parameters (q1 q2 : URLSearchParams) :
  q1 <> q2 -> toQueryString q1 <> toQueryString q2.
Proof.
  intros Hne Heq. apply Hne. now apply toQueryString_inj.
Qed.

Lemma query_string_determines_parameters_witness :
  toQueryString [("categoryId", "c1&type=Income")]
  <> toQueryString [("categoryId", "c1"); ("type", "Income")].
Proof.
  apply (query_string_determines_parameters
           [("categoryId", "c1&type=Income")]
           [("categoryId", "c1"); ("type", "Income")]).
  discriminate.
Defined.

End ApiClientFacts.

(** ** The date range of the analytics page, east of Greenwich *)

Module RangeFacts.
Import JSDate JSDateFacts Api DateNormalisation ApiFacts ApiClientFacts.

(** X1. On a host at or east of Greenwich, the date range of the
    analytics page (calendar dates of a year from 0100 on) reaches the
    expense listing with both dates turned into midnight UTC of their day,
    the end date included, while the average-spend call turns the same end
    date into the last millisecond of its day. *)
Theorem range_query_east (h : Host) (start end_ : string) (skip : Z) :
  isCalendarDate start = true -> isCalendarDate end_ = true ->
  100 <= yearField start -> 100 <= yearField end_ ->
  (forall t, 0 <= LocalTZA h t < msPerDay) ->
  expenseParams h (Analytics.rangeFilters start end_ skip) []
    = Ok [("startDate", start +:+ "T00:00:00.000Z");
          ("endDate", end_ +:+ "T00:00:00.000Z");
          ("skip", decimal skip); ("limit", "500")]
  /\ averageSpendParams h start end_
    = Ok [("startDate", start +:+ "T00:00:00.000Z");
          ("endDate", end_ +:+ "T23:59:59.999Z")].
Proof.
  intros Hs He Hys Hye Hz.
  destruct (day_boundaries_east h start Hs Hys Hz) as [Hstart _].
  destruct (day_boundaries_east h end_ He Hye Hz) as [Hend Hlast].
  assert (Hps : isDatePattern start = true)
    by (apply isCalendarDate_inv in Hs; tauto).
  assert (Hpe : isDatePattern end_ = true)
    by (apply isCalendarDate_inv in He; tauto).
  split.
  - unfold Analytics.rangeFilters.
    cbn [expenseParams paramValue isDateKey String.eqb Ascii.eqb Bool.eqb orb andb].
    rewrite Hps, Hpe, Hstart, Hend. reflexivity.
  - unfold averageSpendParams. rewrite Hps, Hpe, Hstart, Hlast. reflexivity.
Qed.

Lemma range_query_east_witness :
  expenseParams (fixedOffsetHost 60)
    (Analytics.rangeFilters "2024-03-01" "2024-03-31" 500) []
  = Ok [("startDate", "2024-03-01T00:00:00.000Z");
        ("endDate", "2024-03-31T00:00:00.000Z");
        ("skip", "500"); ("limit", "500")].
Proof.
  refine (proj1 (range_query_east (fixedOffsetHost 60) "2024-03-01" "2024-03-31" 500
                   eq_refl eq_refl _ _ _)).
  - vm_compute. intros [=].
  - vm_compute. intros [=].
  - intros t. cbv [fixedOffsetHost LocalTZA msPerMinute msPerDay]. lia.
Defined.

End RangeFacts.

(** ** What the expense form submits *)

Module ExpenseFormFacts.
Import JSDate JSDateFacts Api ExpenseForm.

Lemma substring_date (s rest : string) :
  isDatePattern s = true -> substring 0 10 (s +:+ rest) = s.
Proof.
  intros Hs. destruct (isDatePattern_inv s Hs)
    as (y1 & y2 & y3 & y4 & m1 & m2 & d1 & d2 & -> & _).
  destruct rest; reflexivity.
Qed.

Lemma isoTimestamp_calendar (h : Host) (s : string) :
  isCalendarDate s = true -> isoTimestamp h s = Ok (s +:+ "T00:00:00.000Z").
Proof.
  intros Hs. destruct (isCalendarDate_inv s Hs) as [Hp Hv].
  destruct (print_fields s Hp) as [Hyr Hprint].
  unfold isoTimestamp. rewrite (parse_calendar_date (parseOther h) s Hs).
  unfold isoOfUTC.
  rewrite toISOString_fields by (first [ assumption | unfold msPerDay; lia ]).
  replace (monthField s - 1 + 1) with (monthField s) by lia.
  rewrite Hprint. reflexivity.
Qed.


(** The call a submission makes, and the note it shows on success. *)
Definition save {A num : Type} (h : Host) (str : ExpenseFormData num -> string)
    (fetch : Transport A) (st : Storage) (expenseToEdit : option string)
    (data : ExpenseFormData num) : Result (Json A) :=
  match expenseToEdit with
  | Some id => ApiClients.updateExpense h str fetch st id data
  | None => ApiClients.createExpense h str fetch st data
  end.

Definition savedNote (expenseToEdit : option string) : string :=
  match expenseToEdit with
  | Some _ => "Transaction updated successfully"
  | None => "Transaction added successfully"
  end.

(** X3. When the date field of the form holds a calendar date, the
    timestamp submitted is midnight UTC of that very day, on every host and
    in every time zone, for a new expense and for an edited one; the first
    ten characters of it, which is the day the trend chart files the
    expense under, are the date that was picked. *)
Theorem submitted_day_is_the_day_picked {A num : Type} (h : Host)
    (str : ExpenseFormData num -> string) (fetch : Transport A) (st : Storage)
    (expenseToEdit : option string) (data : ExpenseFormData num) :
  isCalendarDate (data_timestamp data) = true ->
  let sent := withTimestamp data (data_timestamp data +:+ "T00:00:00.000Z") in
  onSubmit h str fetch st expenseToEdit data
    = match save h str fetch st expenseToEdit sent with
      | Ok _ => {| formToasts := [(success, savedNote expenseToEdit)];
                   succeeded := true; closed := true |}
      | Throw message => {| formToasts := [(error, message)];
                            succeeded := false; closed := false |}
      end
  /\ substring 0 10 (data_timestamp sent) = data_timestamp data.
Proof.
  intros Hs sent. split.
  - unfold onSubmit, save, savedNote.
    rewrite (isoTimestamp_calendar h _ Hs). cbn [bindResult]. fold sent.
    destruct expenseToEdit as [ id | ].
    + destruct (ApiClients.updateExpense h str fetch st id sent); reflexivity.
    + destruct (ApiClients.createExpense h str fetch st sent); reflexivity.
  - apply substring_date. apply isCalendarDate_inv in Hs. tauto.
Qed.

Lemma submitted_day_is_the_day_picked_witness :
  let data := {| data_category_id := "c1"; data_payment_method_id := "p1";
                 data_amount := 120; data_type := Analytics.Need;
                 data_description := "Groceries"; data_timestamp := "2024-02-29" |} in
  substring 0 10 (data_timestamp (withTimestamp data ("2024-02-29" +:+ "T00:00:00.000Z")))
  = "2024-02-29".
Proof.
  intros data.
  apply (submitted_day_is_the_day_picked (fixedOffsetHost (-480))
           (fun d => data_timestamp d) (ApiFacts.answering (A := unit) 201 (Ok JOther))
           None None data).
  reflexivity.
Defined.

(** X26. When the server answers a submission with a status that is not
    a success, the form shows the message the client threw (the one of the
    wrapper on 401, else the failure message of the call made), does not
    report success and stays open. *)
Theorem refused_submission_stays_open {A num : Type} (h : Host)
    (str : ExpenseFormData num -> string) (body : Result (Json A)) (st : Storage)
    (expenseToEdit : option string) (data : ExpenseFormData num) (s : Z) :
  isCalendarDate (data_timestamp data) = true ->
  ApiFacts.isOkStatus s = false ->
  onSubmit h str (ApiFacts.answering s body) st expenseToEdit data
  = {| formToasts :=
         [(error,
           if s =? 401 then "Unauthorized. Please log in again."
           else match expenseToEdit with
                | Some _ => "Failed to update expense"
                | None => "Failed to create expense"
                end)];
       succeeded := false; closed := false |}.
Proof.
  intros Hs Hok. unfold onSubmit.
  rewrite (isoTimestamp_calendar h _ Hs). cbn [bindResult].
  unfold ApiFacts.isOkStatus in Hok.
  destruct expenseToEdit as [ id | ];
    unfold ApiClients.updateExpense, ApiClients.createExpense, fetchWithCreds,
      ApiFacts.answering, ok;
    cbn [bindResult status];
    destruct (s =? 401); cbn [bindResult status]; try reflexivity;
    rewrite Hok; reflexivity.
Qed.

Lemma refused_submission_stays_open_witness :
  onSubmit (fixedOffsetHost 0) (fun d => data_timestamp d)
    (ApiFacts.answering (A := unit) 422 (Ok JOther)) None (Some "e7")
    {| data_category_id := "c1"; data_payment_method_id := "p1";
       data_amount := 120; data_type := Analytics.Need;
       data_description := "Groceries"; data_timestamp := "2024-02-29" |}
  = {| formToasts := [(error, "Failed to update expense")];
       succeeded := false; closed := false |}.
Proof.
  apply (refused_submission_stays_open (fixedOffsetHost 0) (fun d => data_timestamp d)
           (Ok JOther) None (Some "e7")
           {| data_category_id := "c1"; data_payment_method_id := "p1";
              data_amount := 120; data_type := Analytics.Need;
              data_description := "Groceries"; data_timestamp := "2024-02-29" |} 422);
    reflexivity.
Defined.

End ExpenseFormFacts.

(** ** Every run of the full-range fetch *)

Module FetchInvariants.
Import JSDate JSDateFacts Api Analytics FetchFacts.

Section Runs.
Context {A : Type}.
Variable h : Host.
Variable getExpenses : ExpenseFilters -> Result (Json A).
Variables start end_ : string.

(** The page a loop ended on. *)
Definition pageOf (e : @LoopEnd A) : Page A :=
  match e with
  | Finished p _ _ => p
  | Thrown p _ => p
  end.

(** Every answer is a full page. *)
Definition alwaysFull : Prop :=
  forall f, exists response items,
    getExpenses f = Ok response /\ expensesToAdd response = Some items
    /\ DATA_FETCH_LIMIT <= Z.of_nat (length items).

Lemma fetchLoop_unbounded :
  alwaysFull ->
  forall (fuel : nat) (p : Page A) (fetched : list A) (skip : Z),
    fetchLoop getExpenses start end_ fuel p fetched skip = None.
Proof.
  intros Hfull. induction fuel as [ | fuel IH ]; intros p fetched skip.
  - reflexivity.
  - cbn [fetchLoop].
    destruct (Hfull (rangeFilters start end_ skip)) as (r & items & -> & -> & Hlen).
    destruct (Z.ltb_spec (Z.of_nat (length items)) DATA_FETCH_LIMIT); [ lia | ].
    apply IH.
Qed.

Lemma fetchLoop_calls :
  forall (fuel k : nat) (p : Page A) (fetched : list A) (e : LoopEnd),
    fetchLoop getExpenses start end_ fuel p fetched (DATA_FETCH_LIMIT * Z.of_nat k)
      = Some e ->
    exists n, (1 <= n <= fuel)%nat
      /\ calls (pageOf e) = calls p ++ callsFrom start end_ k n
      /\ isLoading (pageOf e) = isLoading p.
Proof.
  induction fuel as [ | fuel IH ]; intros k p fetched e Hrun; [ discriminate | ].
  cbn [fetchLoop] in Hrun.
  assert (Hone : callsFrom start end_ k 1
                 = [rangeFilters start end_ (DATA_FETCH_LIMIT * Z.of_nat k)])
    by reflexivity.
  destruct (getExpenses _) as [ response | message ].
  - destruct (expensesToAdd response) as [ items | ].
    + destruct (Z.of_nat (length items) <? DATA_FETCH_LIMIT).
      * injection Hrun as <-. exists 1%nat. rewrite Hone. repeat split; lia.
      * replace (DATA_FETCH_LIMIT * Z.of_nat k + DATA_FETCH_LIMIT)
          with (DATA_FETCH_LIMIT * Z.of_nat (S k)) in Hrun by lia.
        apply IH in Hrun. destruct Hrun as (n & Hn & Hcalls & Hload).
        exists (S n). split; [ lia | ]. split; [ | exact Hload ].
        rewrite Hcalls. cbn [called calls]. rewrite <- app_assoc.
        unfold callsFrom. reflexivity.
    + destruct (DATA_FETCH_LIMIT * Z.of_nat k =? 0);
        injection Hrun as <-; exists 1%nat; rewrite Hone; repeat split; lia.
  - injection Hrun as <-. exists 1%nat. rewrite Hone. repeat split; lia.
Qed.


(** X10. The paging loop has no bound of its own: against a server
    that answers every call with a full page, the fetch does not return
    whatever the number of iterations it is given. *)
Theorem fetch_never_ends_on_full_pages (p : Page A) :
  rangeAccepted h start end_ -> alwaysFull ->
  forall fuel, fetchAllExpensesForRange h getExpenses fuel start end_ p = None.
Proof.
  intros (Hs & He & Hr) Hfull fuel. unfold fetchAllExpensesForRange.
  rewrite Hs, He, Hr. cbn [negb orb].
  rewrite (fetchLoop_unbounded Hfull). reflexivity.
Qed.

(** X11. Whatever the server answers, a fetch that returns has cleared
    the loading flag and has asked for the pages in order, from skip 0 in
    steps of the limit, none left out and none asked twice. *)
Theorem fetch_calls_successive_pages (fuel : nat) (p p' : Page A) :
  rangeAccepted h start end_ ->
  fetchAllExpensesForRange h getExpenses fuel start end_ p = Some p' ->
  isLoading p' = false
  /\ exists n, (1 <= n <= fuel)%nat /\ calls p' = calls p ++ firstCalls start end_ n.
Proof.
  intros (Hs & He & Hr) Hrun. unfold fetchAllExpensesForRange in Hrun.
  rewrite Hs, He, Hr in Hrun. cbn [negb orb] in Hrun.
  destruct (fetchLoop getExpenses start end_ fuel (setIsLoading true p) [] 0)
    as [ e | ] eqn:Hloop; [ | discriminate ].
  pose proof (fetchLoop_calls fuel 0 (setIsLoading true p) [] e) as Hinv.
  cbn [Z.of_nat] in Hinv. rewrite Z.mul_0_r in Hinv.
  destruct (Hinv Hloop) as (n & Hn & Hcalls & _).
  change (callsFrom start end_ 0 n) with (firstCalls start end_ n) in Hcalls.
  cbn [setIsLoading calls] in Hcalls.
  destruct e as [ q fetched skip | q message ]; cbn [pageOf] in Hcalls;
    injection Hrun as <-.
  - split; [ reflexivity | ]. exists n. split; [ exact Hn | ].
    destruct (0 <? Z.of_nat (length fetched)); [ exact Hcalls | ].
    destruct (skip =? 0); exact Hcalls.
  - split; [ reflexivity | ]. exists n. split; [ exact Hn | exact Hcalls ].
Qed.

End Runs.

Lemma fetch_never_ends_on_full_pages_witness :
  fetchAllExpensesForRange (fixedOffsetHost 0)
    (fun _ => Ok (JArray (repeat tt 500))) 7 "2024-01-01" "2024-01-31" freshPage
  = None.
Proof.
  apply (fetch_never_ends_on_full_pages (fixedOffsetHost 0)
           (fun _ => Ok (JArray (repeat tt 500))) "2024-01-01" "2024-01-31" freshPage).
  - repeat split; reflexivity.
  - intros f. exists (JArray (repeat tt 500)), (repeat tt 500).
    repeat split. vm_compute. intros [=].
Defined.

Lemma fetch_calls_successive_pages_witness :
  isLoading
    {| allExpenses := [tt; tt]; isLoading := false;
       toasts := [(success, "Workspaceed 2 expenses.")];
       calls := [rangeFilters "2024-01-01" "2024-01-31" 0] |} = false
  /\ exists n, (1 <= n <= 3)%nat
       /\ [rangeFilters "2024-01-01" "2024-01-31" 0]
          = [] ++ firstCalls "2024-01-01" "2024-01-31" n.
Proof.
  apply (fetch_calls_successive_pages (fixedOffsetHost 0)
           (fun _ => Ok (JItems [tt; tt])) "2024-01-01" "2024-01-31" 3 freshPage).
  - repeat split; reflexivity.
  - reflexivity.
Defined.

End FetchInvariants.

(** ** The test of the date range *)

Module RangeGuardFacts.
Import JSDate JSDateFacts Api Analytics FetchFacts.

(** The first date-only string names a later day than the second. *)
Definition laterDate (s1 s2 : string) : Prop :=
  yearField s2 < yearField s1
  \/ (yearField s2 = yearField s1
      /\ (monthField s2 < monthField s1
          \/ (monthField s2 = monthField s1 /\ dayField s2 < dayField s1))).

Lemma daysBeforeMonth_mono (leap : bool) (m1 m2 : Z) :
  0 <= m1 -> m1 <= m2 -> m2 <= 12 ->
  daysBeforeMonth leap m1 <= daysBeforeMonth leap m2.
Proof.
  intros H0 H12 Hle.
  assert (Hc : forall m, 0 <= m <= 12 ->
            m = 0 \/ m = 1 \/ m = 2 \/ m = 3 \/ m = 4 \/ m = 5 \/ m = 6 \/ m = 7
            \/ m = 8 \/ m = 9 \/ m = 10 \/ m = 11 \/ m = 12) by (intros; lia).
  destruct (Hc m1 ltac:(lia)) as [ -> | [ -> | [ -> | [ -> | [ -> | [ -> | [ -> |
    [ -> | [ -> | [ -> | [ -> | [ -> | -> ]]]]]]]]]]]];
  destruct (Hc m2 ltac:(lia)) as [ -> | [ -> | [ -> | [ -> | [ -> | [ -> | [ -> |
    [ -> | [ -> | [ -> | [ -> | [ -> | -> ]]]]]]]]]]]];
  try lia; destruct leap; vm_compute; intros [=].
Qed.

Lemma MakeDay_later (y1 m1 d1 y2 m2 d2 : Z) :
  validMonthDay y1 m1 d1 -> validMonthDay y2 m2 d2 ->
  y2 < y1 \/ (y2 = y1 /\ (m2 < m1 \/ (m2 = m1 /\ d2 < d1))) ->
  MakeDay y2 m2 d2 < MakeDay y1 m1 d1.
Proof.
  intros Hv1 Hv2 Hlater.
  destruct (MakeDay_in_year _ _ _ Hv1) as [-> Hin1].
  destruct (MakeDay_in_year _ _ _ Hv2) as [-> Hin2].
  destruct Hlater as [ Hy | [-> [ Hm | [-> Hd] ]] ].
  - pose proof (DayFromYear_lt y2 y1 Hy) as Hstep.
    rewrite DayFromYear_succ in Hstep. lia.
  - destruct Hv1 as [Hm1 Hd1], Hv2 as [Hm2 Hd2]. unfold DaysInMonth in Hd2.
    pose proof (daysBeforeMonth_mono (isLeap y1) (m2 + 1) m1) as Hmono. lia.
  - lia.
Qed.

Lemma startsAfter_calendar (h : Host) (s1 s2 : string) :
  isCalendarDate s1 = true -> isCalendarDate s2 = true ->
  (laterDate s1 s2 -> startsAfter h s1 s2 = true)
  /\ (~ laterDate s1 s2 -> startsAfter h s1 s2 = false).
Proof.
  intros H1 H2. unfold startsAfter.
  rewrite (parse_calendar_date (parseOther h) s1 H1),
          (parse_calendar_date (parseOther h) s2 H2).
  destruct (isCalendarDate_inv s1 H1) as [_ Hv1].
  destruct (isCalendarDate_inv s2 H2) as [_ Hv2].
  unfold MakeDate, msPerDay. split.
  - intros Hl. apply Z.ltb_lt.
    assert (MakeDay (yearField s2) (monthField s2 - 1) (dayField s2)
            < MakeDay (yearField s1) (monthField s1 - 1) (dayField s1)).
    { apply MakeDay_later; [ assumption | assumption | ].
      unfold laterDate in Hl. lia. }
    lia.
  - intros Hn. apply Z.ltb_ge.
    assert (MakeDay (yearField s1) (monthField s1 - 1) (dayField s1)
            <= MakeDay (yearField s2) (monthField s2 - 1) (dayField s2)).
    { destruct (Z.eq_dec (yearField s1) (yearField s2)) as [ Hy | Hy ];
      [ destruct (Z.eq_dec (monthField s1) (monthField s2)) as [ Hm | Hm ];
        [ destruct (Z.eq_dec (dayField s1) (dayField s2)) as [ Hd | Hd ] | ] | ].
      - rewrite Hy, Hm, Hd. lia.
      - apply Z.lt_le_incl. apply MakeDay_later; [ assumption | assumption | ].
        unfold laterDate in Hn. lia.
      - apply Z.lt_le_incl. apply MakeDay_later; [ assumption | assumption | ].
        unfold laterDate in Hn. lia.
      - apply Z.lt_le_incl. apply MakeDay_later; [ assumption | assumption | ].
        unfold laterDate in Hn. lia. }
    lia.
Qed.

Lemma calendar_nonEmpty (s : string) : isCalendarDate s = true -> nonEmpty s = true.
Proof. destruct s; [ discriminate | reflexivity ]. Qed.

(** X12. For two calendar dates, the fetch is refused exactly when the
    start date is a later day than the end date: it then makes no call,
    leaves the expenses and the loading flag as they were and shows
    ``Invalid date range selected.''; a range of one day, or with the end
    after the start, passes the test. *)
Theorem range_guard_on_calendar_dates {A : Type} (h : Host)
    (getExpenses : ExpenseFilters -> Result (Json A)) (fuel : nat)
    (start end_ : string) (p : Page A) :
  isCalendarDate start = true -> isCalendarDate end_ = true ->
  (laterDate start end_ ->
     fetchAllExpensesForRange h getExpenses fuel start end_ p
     = Some (toast error "Invalid date range selected." p))
  /\ (~ laterDate start end_ -> rangeAccepted h start end_).
Proof.
  intros Hs He. destruct (startsAfter_calendar h start end_ Hs He) as [Hl Hn].
  split.
  - intros Hlater. unfold fetchAllExpensesForRange. rewrite (Hl Hlater).
    now rewrite orb_true_r.
  - intros Hnot. repeat split;
      [ now apply calendar_nonEmpty | now apply calendar_nonEmpty | now apply Hn ].
Qed.

Lemma range_guard_on_calendar_dates_witness :
  fetchAllExpensesForRange (fixedOffsetHost 0)
    (fun _ => Ok (JArray [tt])) 5 "2024-03-01" "2024-02-29" freshPage
  = Some (toast error "Invalid date range selected." freshPage).
Proof.
  refine (proj1 (range_guard_on_calendar_dates (fixedOffsetHost 0)
                   (fun _ => Ok (JArray [tt])) 5 "2024-03-01" "2024-02-29" freshPage
                   eq_refl eq_refl) _).
  right. split; [ reflexivity | left; reflexivity ].
Defined.

End RangeGuardFacts.

(** ** The pager of the categories and payment-methods pages *)

Module PaginationFacts.
Import CategoriesPage.

(** The pages the links of a pager lead to, and those shown as active. *)
Definition pageNumbers (items : list PageItem) : list Z :=
  flat_map (fun it => match it with
                      | PaginationLink n _ => [n]
                      | PaginationEllipsis _ => []
                      end) items.

Definition activePages (items : list PageItem) : list Z :=
  flat_map (fun it => match it with
                      | PaginationLink n true => [n]
                      | _ => []
                      end) items.

(** [n] whole numbers from [a] on. *)
Definition upFrom (a : Z) (n : nat) : list Z :=
  map (fun idx => Z.of_nat idx + a) (seq 0 n).

Lemma range_upFrom (a b : Z) : range a b = upFrom a (Z.to_nat (b - a + 1)).
Proof. reflexivity. Qed.

Lemma upFrom_S (a : Z) (n : nat) : upFrom a (S n) = a :: upFrom (a + 1) n.
Proof.
  unfold upFrom. cbn [seq map]. f_equal.
  rewrite <- seq_shift, List.map_map. apply List.map_ext. intros i. lia.
Qed.

Lemma upFrom_In (n : nat) : forall a x, In x (upFrom a n) <-> a <= x < a + Z.of_nat n.
Proof.
  induction n as [ | n IH ]; intros a x.
  - cbn. lia.
  - rewrite upFrom_S. cbn [In]. rewrite IH. lia.
Qed.

Lemma range_In (a b x : Z) : In x (range a b) <-> a <= x <= b.
Proof. rewrite range_upFrom, upFrom_In. lia. Qed.

Lemma pageNumbers_links (cur : Z) (l : list Z) :
  pageNumbers (map (pageLink cur) l) = l.
Proof.
  induction l as [ | n l IH ]; [ reflexivity | ]. cbn. now f_equal.
Qed.

Lemma activePages_links (cur : Z) (l : list Z) :
  activePages (map (pageLink cur) l) = List.filter (fun n => n =? cur) l.
Proof.
  induction l as [ | n l IH ]; [ reflexivity | ].
  cbn [map activePages flat_map pageLink List.filter] in *.
  destruct (n =? cur); cbn [app]; now f_equal.
Qed.

Lemma pageNumbers_app (l1 l2 : list PageItem) :
  pageNumbers (l1 ++ l2) = pageNumbers l1 ++ pageNumbers l2.
Proof. apply flat_map_app. Qed.

Lemma activePages_app (l1 l2 : list PageItem) :
  activePages (l1 ++ l2) = activePages l1 ++ activePages l2.
Proof. apply flat_map_app. Qed.

(** The four shapes of the pager. *)
Lemma pager_cases (cur total : Z) :
  (total <= 6
   /\ generatePaginationPageItems cur total = map (pageLink cur) (range 1 total))
  \/ (6 < total /\ cur <= 3
      /\ generatePaginationPageItems cur total
         = map (pageLink cur) [1; 2; 3; 4; 5]
           ++ [PaginationEllipsis "end-ellipsis"] ++ [pageLink cur total])
  \/ (6 < total /\ total - 2 <= cur
      /\ generatePaginationPageItems cur total
         = [pageLink cur 1] ++ [PaginationEllipsis "start-ellipsis"]
           ++ map (pageLink cur)
                [total - 4; total - 3; total - 2; total - 1; total])
  \/ (6 < total /\ 3 < cur < total - 2
      /\ generatePaginationPageItems cur total
         = [pageLink cur 1] ++ [PaginationEllipsis "start-ellipsis"]
           ++ map (pageLink cur) [cur - 1; cur; cur + 1]
           ++ [PaginationEllipsis "end-ellipsis"] ++ [pageLink cur total]).
Proof.
  unfold generatePaginationPageItems. cbv zeta.
  rewrite Z.geb_leb, Z.gtb_ltb.
  destruct (Z.leb_spec total (1 + 5)) as [ Hsmall | Hbig ]; [ left; split; [ lia | reflexivity ] | right ].
  destruct (Z.ltb_spec 2 (Z.max (cur - 1) 1)) as [ Hl | Hl ];
    destruct (Z.ltb_spec (Z.min (cur + 1) total) (total - 1)) as [ Hr | Hr ];
    cbn [negb andb].
  - right. right. repeat split; try lia.
    rewrite Z.max_l, Z.min_l by lia. rewrite range_upFrom.
    replace (cur + 1 - (cur - 1) + 1) with 3 by lia.
    change (Z.to_nat 3) with 3%nat. rewrite !upFrom_S.
    replace (cur - 1 + 1) with cur by lia. reflexivity.
  - right. left. repeat split; try lia.
    rewrite range_upFrom.
    replace (total - (total - (3 + 2 * 1) + 1) + 1) with 5 by lia.
    change (Z.to_nat 5) with 5%nat. rewrite !upFrom_S.
    replace (total - (3 + 2 * 1) + 1) with (total - 4) by lia.
    replace (total - 4 + 1) with (total - 3) by lia.
    replace (total - 3 + 1) with (total - 2) by lia.
    replace (total - 2 + 1) with (total - 1) by lia.
    replace (total - 1 + 1) with total by lia. reflexivity.
  - left. repeat split; try lia.
  - exfalso. lia.
Qed.


Lemma upFrom_sorted (n : nat) : forall a, StronglySorted Z.lt (upFrom a n).
Proof.
  induction n as [ | n IH ]; intros a.
  - constructor.
  - rewrite upFrom_S. constructor; [ apply IH | ].
    apply List.Forall_forall. intros x Hx. apply upFrom_In in Hx. lia.
Qed.

Lemma filter_only (cur : Z) (l : list Z) :
  StronglySorted Z.lt l -> In cur l -> List.filter (fun n => n =? cur) l = [cur].
Proof.
  induction 1 as [ | x l Hs IH Hall ]; intros Hin; [ destruct Hin | ].
  cbn [List.filter]. rewrite List.Forall_forall in Hall.
  destruct (Z.eqb_spec x cur) as [ -> | Hne ].
  - f_equal. clear IH Hin. induction l as [ | y l IHl ]; [ reflexivity | ].
    cbn [List.filter]. pose proof (Hall y (or_introl eq_refl)).
    destruct (Z.eqb_spec y cur); [ lia | ].
    apply IHl.
    + now inversion Hs.
    + intros z Hz. apply Hall. now right.
  - destruct Hin as [ Heq | Hin ]; [ congruence | ]. now apply IH.
Qed.

Ltac sorted_explicit :=
  repeat (constructor; [ | repeat (constructor; try lia) ]); try constructor.

(** X13. For a current page between 1 and the last page, the links of
    the pager go to strictly increasing page numbers (so no page is linked
    twice and the keys of the items are distinct), the first link is page 1,
    the last link is the last page, and exactly one link is shown as
    active, that of the current page. *)
Theorem pager_links (cur total : Z) :
  1 <= cur <= total ->
  let items := generatePaginationPageItems cur total in
  StronglySorted Z.lt (pageNumbers items)
  /\ hd_error (pageNumbers items) = Some 1
  /\ last (pageNumbers items) = Some total
  /\ activePages items = [cur].
Proof.
  intros Hcur items. subst items.
  destruct (pager_cases cur total)
    as [ [Ht ->] | [ (Ht & Hc & ->) | [ (Ht & Hc & ->) | (Ht & Hc & ->) ] ] ].
  - rewrite pageNumbers_links, activePages_links, range_upFrom.
    split; [ apply upFrom_sorted | ].
    split; [ | split ].
    + replace (total - 1 + 1) with total by lia.
      destruct (Z.to_nat total) eqn:Hn; [ lia | ]. now rewrite upFrom_S.
    + assert (Hc : total = 1 \/ total = 2 \/ total = 3 \/ total = 4 \/ total = 5
                   \/ total = 6) by lia.
      destruct Hc as [ -> | [ -> | [ -> | [ -> | [ -> | -> ]]]]]; reflexivity.
    + apply filter_only; [ apply upFrom_sorted | ].
      apply upFrom_In. lia.
  - rewrite !pageNumbers_app, !activePages_app, pageNumbers_links, activePages_links.
    cbn [pageNumbers activePages flat_map app pageLink].
    split; [ sorted_explicit | ]. split; [ reflexivity | ]. split; [ reflexivity | ].
    assert (Hcase : cur = 1 \/ cur = 2 \/ cur = 3) by lia.
    destruct (Z.eqb_spec total cur); [ lia | ].
    destruct Hcase as [ -> | [ -> | -> ]]; reflexivity.
  - rewrite !pageNumbers_app, !activePages_app, pageNumbers_links, activePages_links.
    cbn [pageNumbers activePages flat_map app pageLink].
    split; [ sorted_explicit | ]. split; [ reflexivity | ]. split; [ reflexivity | ].
    destruct (Z.eqb_spec 1 cur); [ lia | ]. cbn [app].
    apply filter_only; [ sorted_explicit | ]. cbn [In]. lia.
  - rewrite !pageNumbers_app, !activePages_app, pageNumbers_links, activePages_links.
    cbn [pageNumbers activePages flat_map app pageLink].
    split; [ sorted_explicit | ]. split; [ reflexivity | ]. split; [ reflexivity | ].
    destruct (Z.eqb_spec 1 cur); [ lia | ].
    destruct (Z.eqb_spec total cur); [ lia | ]. cbn [app]. rewrite app_nil_r.
    apply filter_only; [ sorted_explicit | ]. cbn [In]. lia.
Qed.

Lemma pager_links_witness :
  let items := generatePaginationPageItems 9 12 in
  StronglySorted Z.lt (pageNumbers items)
  /\ hd_error (pageNumbers items) = Some 1
  /\ last (pageNumbers items) = Some 12
  /\ activePages items = [9].
Proof.
  apply (pager_links 9 12). lia.
Defined.

(** X14. With more than six pages the pager always has seven items,
    wherever the current page is, also outside 1..totalPages: the implicit
    fourth branch, which would leave it empty, is never taken. *)
Theorem pager_has_seven_items (cur total : Z) :
  6 < total -> length (generatePaginationPageItems cur total) = 7%nat.
Proof.
  intros Hbig.
  destruct (pager_cases cur total)
    as [ [Ht _] | [ (_ & _ & ->) | [ (_ & _ & ->) | (_ & _ & ->) ] ] ];
    [ lia | reflexivity .. ].
Qed.

Lemma pager_has_seven_items_witness :
  length (generatePaginationPageItems 40 9) = 7%nat.
Proof. apply (pager_has_seven_items 40 9). lia. Defined.


(** Every link of the pager leads to a page between 1 and the last one,
    wherever the current page is. *)
Lemma links_within (cur total n : Z) :
  In n (pageNumbers (generatePaginationPageItems cur total)) -> 1 <= n <= total.
Proof.
  destruct (pager_cases cur total)
    as [ [Ht ->] | [ (Ht & Hc & ->) | [ (Ht & Hc & ->) | (Ht & Hc & ->) ] ] ].
  - rewrite pageNumbers_links, range_In. lia.
  - rewrite !pageNumbers_app, pageNumbers_links.
    cbn [pageNumbers flat_map app pageLink In]. lia.
  - rewrite !pageNumbers_app, pageNumbers_links.
    cbn [pageNumbers flat_map app pageLink In]. lia.
  - rewrite !pageNumbers_app, pageNumbers_links.
    cbn [pageNumbers flat_map app pageLink In]. lia.
Qed.

Lemma link_pageNumbers (n : Z) (a : bool) (items : list PageItem) :
  In (PaginationLink n a) items -> In n (pageNumbers items).
Proof.
  intros Hin. unfold pageNumbers. apply in_flat_map.
  exists (PaginationLink n a). split; [ exact Hin | now left ].
Qed.

(** X15. A click on any link the pager shows is accepted by
    [handlePageChange] and makes the page of the link the current page. *)
Theorem every_link_is_followed {A : Type} (s : State A) (n : Z) (a : bool) :
  In (PaginationLink n a)
     (generatePaginationPageItems (currentPage s) (totalPages s)) ->
  currentPage (handlePageChange n s) = n.
Proof.
  intros Hin. apply link_pageNumbers, links_within in Hin.
  unfold handlePageChange.
  destruct (Z.leb_spec 1 n); [ | lia ].
  destruct (Z.leb_spec n (totalPages s)); [ | lia ].
  destruct (Z.eqb_spec n (currentPage s)) as [ -> | Hne ]; reflexivity.
Qed.

Lemma every_link_is_followed_witness :
  currentPage
    (handlePageChange 8
       {| isLoading := false; categories := [tt]; currentPage := 2;
          totalCategories := 150; toasts := []; calls := [] |}) = 8.
Proof.
  apply (every_link_is_followed
           {| isLoading := false; categories := [tt]; currentPage := 2;
              totalCategories := 150; toasts := []; calls := [] |} 8 false).
  vm_compute. tauto.
Defined.

Lemma ceilDiv_small (a b : Z) : 0 < b -> a <= b -> ceilDiv a b <= 1.
Proof.
  intros Hb Ha. unfold ceilDiv.
  assert (- 1 <= (- a) / b) by (apply Z.div_le_lower_bound; lia). lia.
Qed.

(** X16. When [getCategories] answers with a bare array of at most one
    page of items, the page shows these items and takes their number as the
    total, so that the pager is not rendered, whatever page was asked
    for. *)
Theorem bare_array_hides_pager {A : Type}
    (getCategories : Z -> Z -> Api.Result (Listing A)) (page : Z) (s : State A)
    (data : list A) :
  getCategories ((page - 1) * ITEMS_PER_PAGE) ITEMS_PER_PAGE = Api.Ok (Bare data) ->
  Z.of_nat (length data) <= ITEMS_PER_PAGE ->
  let s' := fetchCategories getCategories page s in
  categories s' = data /\ showsPagination s' = false.
Proof.
  intros Hcall Hlen s'. subst s'. unfold fetchCategories. rewrite Hcall.
  split; [ reflexivity | ].
  unfold showsPagination, totalPages. cbn [loaded totalCategories].
  apply Z.ltb_ge. apply ceilDiv_small; [ reflexivity | exact Hlen ].
Qed.

Lemma bare_array_hides_pager_witness :
  let s' := fetchCategories (fun _ _ => Api.Ok (Bare (repeat tt 20))) 3 initial in
  categories s' = repeat tt 20 /\ showsPagination s' = false.
Proof.
  apply (bare_array_hides_pager (fun _ _ => Api.Ok (Bare (repeat tt 20))) 3 initial
           (repeat tt 20)).
  - reflexivity.
  - vm_compute. intros [=].
Defined.

End PaginationFacts.

(** ** The expenses page *)

Module ExpensesPageFacts.
Import Api ExpensesPage MapFacts.

Section Page.
Context {A : Type}.
Variable getExpenses : ExpenseFilters -> Result (Json A).

(** X17. An answer of the form [{ items: [...] }], which the analytics
    page accepts as a page of expenses, is an error for the expense list:
    the list is emptied and ``Failed to load expenses page'' is shown. *)
Theorem items_object_empties_the_list (page : Z) (s : State A) (items : list A) :
  getExpenses (withPaging (filters s) ((page - 1) * ITEMS_PER_PAGE) ITEMS_PER_PAGE)
    = Ok (JItems items) ->
  let s' := fetchExpensesPage getExpenses page s in
  expenses s' = []
  /\ toasts s' = toasts s ++ [(error, "Failed to load expenses page")]
  /\ Analytics.expensesToAdd (JItems items) = Some items.
Proof.
  intros Hcall s'. subst s'. unfold fetchExpensesPage.
  cbn [setIsLoadingExpenses filters]. rewrite Hcall. repeat split.
Qed.

(** The call number [i] of the count answers with the array [page]. *)
Definition counts (s : State A) (i : nat) (page : list A) : Prop :=
  getExpenses (withPaging (filters s) (COUNT_FETCH_LIMIT * Z.of_nat i) COUNT_FETCH_LIMIT)
  = Ok (JArray page).

Definition countCalls (s : State A) (k n : nat) : list ExpenseFilters :=
  map (fun i => withPaging (filters s) (COUNT_FETCH_LIMIT * Z.of_nat i) COUNT_FETCH_LIMIT)
      (seq k n).

Definition countedAll (fs : list ExpenseFilters) (s : State A) : State A :=
  {| isLoadingExpenses := isLoadingExpenses s;
     isLoadingTotalCount := isLoadingTotalCount s;
     expenses := expenses s; currentPage := currentPage s; filters := filters s;
     totalExpenses := totalExpenses s; toasts := toasts s;
     calls := calls s ++ fs |}.

Lemma countedAll_nil (s : State A) : countedAll [] s = s.
Proof. destruct s. unfold countedAll. cbn. now rewrite app_nil_r. Qed.

Lemma countedAll_called (f : ExpenseFilters) (fs : list ExpenseFilters) (s : State A) :
  countedAll fs (called f s) = countedAll (f :: fs) s.
Proof. unfold countedAll, called. cbn. now rewrite <- app_assoc. Qed.

Lemma countLoop_full_pages (s0 : State A) (pages : list (list A)) :
  forall (k fuel : nat) (s : State A) (acc : Z),
    filters s = filters s0 ->
    (forall i page, pages !! i = Some page ->
       counts s0 (k + i) page /\ COUNT_FETCH_LIMIT <= Z.of_nat (length page)) ->
    countLoop getExpenses (length pages + fuel) s acc (COUNT_FETCH_LIMIT * Z.of_nat k)
    = countLoop getExpenses fuel (countedAll (countCalls s0 k (length pages)) s)
        (acc + Z.of_nat (length (concat pages)))
        (COUNT_FETCH_LIMIT * Z.of_nat (k + length pages)).
Proof.
  induction pages as [ | page pages IH ]; intros k fuel s acc Hf Hpages.
  - cbn [length concat Nat.add countCalls seq map].
    now rewrite countedAll_nil, Z.add_0_r, Nat.add_0_r.
  - destruct (Hpages 0%nat page eq_refl) as [Hcall Hfull].
    unfold counts in Hcall. rewrite Nat.add_0_r in Hcall.
    cbn [length Nat.add countLoop]. rewrite Hf, Hcall.
    destruct (Z.ltb_spec (Z.of_nat (length page)) COUNT_FETCH_LIMIT); [ lia | ].
    replace (COUNT_FETCH_LIMIT * Z.of_nat k + COUNT_FETCH_LIMIT)
      with (COUNT_FETCH_LIMIT * Z.of_nat (S k)) by lia.
    rewrite IH.
    + rewrite countedAll_called. cbn [concat countCalls seq map].
      rewrite List.length_app.
      replace (S k + length pages)%nat with (k + S (length pages))%nat by lia.
      f_equal. lia.
    + exact Hf.
    + intros i page' Hi. replace (S k + i)%nat with (k + S i)%nat by lia.
      apply Hpages. exact Hi.
Qed.

(** X18. When the server answers the successive calls of the count with
    full arrays and then with a shorter one, the count (given fuel for
    these calls) returns with the total set to the number of all elements
    received, the loading flag cleared, no toast, and one call per page
    with the page's filters and the limit 500. *)
Theorem count_adds_up_the_pages (pages : list (list A)) (lastPage : list A)
    (fuel : nat) (s : State A) :
  (forall i page, pages !! i = Some page ->
     counts s i page /\ COUNT_FETCH_LIMIT <= Z.of_nat (length page)) ->
  counts s (length pages) lastPage ->
  Z.of_nat (length lastPage) < COUNT_FETCH_LIMIT ->
  exists s',
    fetchTotalExpenseCount getExpenses (S (length pages) + fuel) s = Some s'
    /\ totalExpenses s' = Z.of_nat (length (concat pages ++ lastPage))
    /\ isLoadingTotalCount s' = false
    /\ toasts s' = toasts s
    /\ calls s' = calls s ++ countCalls s 0 (S (length pages)).
Proof.
  intros Hpages Hlast Hshort. unfold fetchTotalExpenseCount.
  replace (S (length pages) + fuel)%nat with (length pages + S fuel)%nat by lia.
  pose proof (countLoop_full_pages s pages 0 (S fuel)
                (setTotalExpenses 0 (setIsLoadingTotalCount true s)) 0
                eq_refl Hpages) as Hloop.
  cbn [Z.of_nat Nat.add] in Hloop. rewrite Z.mul_0_r in Hloop. rewrite Hloop.
  unfold counts in Hlast. cbn [countLoop countedAll filters setTotalExpenses
    setIsLoadingTotalCount]. rewrite Hlast.
  destruct (Z.ltb_spec (Z.of_nat (length lastPage)) COUNT_FETCH_LIMIT); [ | lia ].
  eexists. split; [ reflexivity | ].
  cbn [totalExpenses isLoadingTotalCount toasts calls setTotalExpenses
       setIsLoadingTotalCount called].
  repeat split.
  - rewrite length_app. lia.
  - cbn [countedAll calls setTotalExpenses setIsLoadingTotalCount].
    rewrite <- app_assoc. f_equal. unfold countCalls.
    rewrite seq_S, map_app. reflexivity.
Qed.

End Page.

Lemma items_object_empties_the_list_witness :
  let s' := fetchExpensesPage (fun _ => Ok (JItems [tt; tt])) 1 initial in
  expenses s' = []
  /\ toasts s' = [] ++ [(error, "Failed to load expenses page")]
  /\ Analytics.expensesToAdd (JItems [tt; tt]) = Some [tt; tt].
Proof.
  apply (items_object_empties_the_list (fun _ => Ok (JItems [tt; tt])) 1 initial
           [tt; tt]).
  reflexivity.
Defined.

(** A server holding 620 expenses, asked page by page. *)
Definition serving620 (f : ExpenseFilters) : Result (Json unit) :=
  match mapGet f "skip" with
  | Some (VNumber 0) => Ok (JArray (repeat tt 500))
  | Some (VNumber 500) => Ok (JArray (repeat tt 120))
  | _ => Ok (JArray [])
  end.

Lemma count_adds_up_the_pages_witness :
  exists s',
    fetchTotalExpenseCount serving620 (S (length [repeat tt 500]) + 0) initial = Some s'
    /\ totalExpenses s' = Z.of_nat (length (concat [repeat tt 500] ++ repeat tt 120))
    /\ isLoadingTotalCount s' = false
    /\ toasts s' = toasts (initial (A := unit))
    /\ calls s' = calls (initial (A := unit))
                  ++ countCalls (initial (A := unit)) 0 (S (length [repeat tt 500])).
Proof.
  apply (count_adds_up_the_pages serving620 [repeat tt 500] (repeat tt 120) 0 initial).
  - intros [ | i ] page Hi; [ | destruct i; discriminate ].
    injection Hi as <-. split; [ reflexivity | vm_compute; intros [=] ].
  - reflexivity.
  - reflexivity.
Defined.

(** An entry of the query comes from a defined entry of the filters. *)
Lemma expenseParams_source (h : Host) (f : ExpenseFilters) :
  forall (q : URLSearchParams) (k v : string),
    expenseParams h f [] = Ok q -> In (k, v) q ->
    exists value, In (k, value) f /\ value <> VUndefined.
Proof.
  induction f as [ | [key value] rest IH ]; intros q k v Hq Hin.
  - injection Hq as <-. destruct Hin.
  - rewrite ApiFacts.expenseParams_cons in Hq.
    assert (Hrest : forall q', expenseParams h rest [] = Ok q' -> In (k, v) q' ->
              exists value0, In (k, value0) ((key, value) :: rest)
                             /\ value0 <> VUndefined).
    { intros q' Hq' Hin'. destruct (IH q' k v Hq' Hin') as (value0 & H0 & Hd).
      exists value0. split; [ now right | exact Hd ]. }
    destruct value as [ | s | n ].
    + eapply Hrest; eassumption.
    + destruct (paramValue h key (VString s)) as [ v0 | ]; [ | discriminate ].
      cbn [bindResult] in Hq.
      destruct (expenseParams h rest []) as [ q' | ]; [ | discriminate ].
      injection Hq as <-. destruct Hin as [ [= <- <-] | Hin ].
      * exists (VString s). split; [ now left | discriminate ].
      * now apply (Hrest q').
    + destruct (paramValue h key (VNumber n)) as [ v0 | ]; [ | discriminate ].
      cbn [bindResult] in Hq.
      destruct (expenseParams h rest []) as [ q' | ]; [ | discriminate ].
      injection Hq as <-. destruct Hin as [ [= <- <-] | Hin ].
      * exists (VNumber n). split; [ now left | discriminate ].
      * now apply (Hrest q').
Qed.

(** X19. After a filter is set to ``all'' or to the empty string, the
    queries of the page carry no parameter of that name, whatever value the
    filter had before; the page is back on page 1 and the filters still
    have one entry per name. *)
Theorem cleared_filter_is_not_sent {A : Type} (h : Host) (s : State A)
    (key value : string) (skip limit : Z) (q : URLSearchParams) :
  NoDup (keys (filters s)) ->
  key <> "skip" -> key <> "limit" ->
  value = "all" \/ value = "" ->
  expenseParams h (withPaging (filters (handleFilterChange key value s)) skip limit) []
    = Ok q ->
  ~ In key (map fst q)
  /\ currentPage (handleFilterChange key value s) = 1
  /\ NoDup (keys (filters (handleFilterChange key value s))).
Proof.
  intros Hnd Hs Hl Hv Hq.
  split; [ | split; [ reflexivity | now apply NoDup_keys_mapSet ] ].
  intros Hin.
  apply in_map_iff in Hin. destruct Hin as ([k v] & Hk & Hin). cbn in Hk. subst k.
  destruct (expenseParams_source h _ q key v Hq Hin) as (value0 & Hsrc & Hdef).
  apply Hdef. clear Hdef.
  assert (Hapi : (String.eqb value "all" || String.eqb value "") = true).
  { destruct Hv as [ -> | -> ]; reflexivity. }
  unfold handleFilterChange in Hsrc. rewrite Hapi in Hsrc.
  cbn [filters setCurrentPage setFilters] in Hsrc. unfold withPaging in Hsrc.
  apply mapGet_In in Hsrc.
  - rewrite !mapGet_mapSet_ne in Hsrc by congruence.
    rewrite mapGet_mapSet_eq in Hsrc. congruence.
  - now repeat apply NoDup_keys_mapSet.
Qed.

Lemma cleared_filter_is_not_sent_witness :
  ~ In "categoryId" (map fst [("type", "Need"); ("skip", "0"); ("limit", "10")]).
Proof.
  apply (cleared_filter_is_not_sent (fixedOffsetHost 0)
           (handleFilterChange "type" "Need"
              (handleFilterChange "categoryId" "c1" (initial (A := unit))))
           "categoryId" "all" 0 10).
  - apply (bool_decide_unpack _). vm_compute. exact I.
  - discriminate.
  - discriminate.
  - left. reflexivity.
  - reflexivity.
Defined.

(** After ``Clear Filters'' the page is back on page 1 and its
    queries carry the paging parameters and nothing else. *)
Theorem cleared_filters_send_paging_only {A : Type} (h : Host) (s : State A)
    (skip limit : Z) :
  currentPage (clearFilters s) = 1
  /\ expenseParams h (withPaging (filters (clearFilters s)) skip limit) []
     = Ok [("skip", stringOf (VNumber skip)); ("limit", stringOf (VNumber limit))].
Proof. split; reflexivity. Qed.

End ExpensesPageFacts.

(** ** The session *)

Module AuthFacts.
Import Api AuthContext ApiFacts ApiClientFacts.

(** The CSRF header of a mutation sent with what the storage holds. *)
Definition csrfSent (h : Host) (st : Storage) : option string :=
  req_headers (mutation h "POST" "/api/expenses" "{}" st) !! csrfName.

Lemma csrfSent_spec (h : Host) (st : Storage) :
  csrfSent h st = match getCsrfTokenFromStorage st with
                  | Some t => if String.eqb t "" then None else Some t
                  | None => None
                  end.
Proof.
  unfold csrfSent, mutation, tokenHeaders, jsonHeaders, csrfName. cbn [req_headers].
  destruct (getCsrfTokenFromStorage st) as [ t | ]; [ | reflexivity ].
  destruct (String.eqb t ""); [ reflexivity | ]. apply lookup_insert_eq.
Qed.

(** X20. After a login the server accepts with a CSRF token in its
    answer, the user is set, the token is in the storage, and it is the
    [X-CSRF-Token] header of the mutations sent from then on. *)
Theorem login_token_reaches_mutations (h : Host)
    (str : string -> string -> string) (fetch : AuthTransport)
    (email password t : string) (data : AuthData) (items : gmap string string)
    (s : State) :
  fetch (credentialsRequest h "/api/auth/login" (str email password))
    = Ok {| auth_ok := true; auth_json := Ok data |} ->
  data_csrfToken data = Some t -> t <> "" ->
  localStorage s = Some items ->
  let s' := login h str fetch email password s in
  user s' = Some email
  /\ getCsrfTokenFromStorage (localStorage s') = Some t
  /\ csrfSent h (localStorage s') = Some t.
Proof.
  intros Hcall Htok Hne Hst s'. apply String.eqb_neq in Hne.
  assert (Hlogin : s' = {| user := Some email; isLoading := false;
                           localStorage := Some (<["csrf_token" := t]> items);
                           toasts := toasts s ++ [(success, "Logged in successfully")];
                           pushed := pushed s ++ ["/"] |}).
  { subst s'. unfold login, authenticate. rewrite Hcall.
    cbn [bindResult auth_json auth_ok negb]. unfold storeToken.
    rewrite Htok, Hst. cbn [truthy setItem default]. rewrite Hne. reflexivity. }
  rewrite Hlogin. cbn [user localStorage].
  assert (Hget : getCsrfTokenFromStorage (Some (<["csrf_token" := t]> items)) = Some t)
    by apply lookup_insert_eq.
  split; [ reflexivity | ]. split; [ exact Hget | ].
  rewrite csrfSent_spec, Hget, Hne. reflexivity.
Qed.

Lemma login_token_reaches_mutations_witness :
  let s' := login (fixedOffsetHost 0) (fun e p => e +:+ ":" +:+ p)
              (fun _ => Ok {| auth_ok := true;
                              auth_json := Ok {| data_error := None;
                                                 data_csrfToken := Some "t0k3n" |} |})
              "a@b.c" "password"
              {| user := None; isLoading := false; localStorage := Some ∅;
                 toasts := []; pushed := [] |} in
  user s' = Some "a@b.c"
  /\ getCsrfTokenFromStorage (localStorage s') = Some "t0k3n"
  /\ csrfSent (fixedOffsetHost 0) (localStorage s') = Some "t0k3n".
Proof.
  apply (login_token_reaches_mutations (fixedOffsetHost 0) (fun e p => e +:+ ":" +:+ p)
           (fun _ => Ok {| auth_ok := true;
                           auth_json := Ok {| data_error := None;
                                              data_csrfToken := Some "t0k3n" |} |})
           "a@b.c" "password" "t0k3n"
           {| data_error := None; data_csrfToken := Some "t0k3n" |} ∅).
  - reflexivity.
  - reflexivity.
  - discriminate.
  - reflexivity.
Defined.

(** X21. After a logout, whatever the server did with the call, there is
    no user, the storage holds no CSRF token, the mutations sent from then
    on carry no [X-CSRF-Token] header, and the router is sent to the login
    page. *)
Theorem logout_drops_token (h : Host) (fetch : AuthTransport) (s : State) :
  let s' := logout h fetch s in
  user s' = None
  /\ getCsrfTokenFromStorage (localStorage s') = None
  /\ csrfSent h (localStorage s') = None
  /\ pushed s' = pushed s ++ ["/login"].
Proof.
  cbv zeta. unfold logout. cbn [user localStorage pushed].
  assert (Hget : getCsrfTokenFromStorage (removeItem "csrf_token" (localStorage s)) = None).
  { destruct (localStorage s) as [ items | ]; [ | reflexivity ].
    apply lookup_delete_eq. }
  rewrite csrfSent_spec, Hget. repeat split.
Qed.

(** X22. A login the server refuses leaves the user, the storage (a
    token in the refusal is not stored) and the route as they were, clears
    the loading flag and shows one error: the [error] text of the answer,
    or ``Login failed'' when there is none. *)
Theorem refused_login_changes_nothing (h : Host)
    (str : string -> string -> string) (fetch : AuthTransport)
    (email password : string) (data : AuthData) (s : State) :
  fetch (credentialsRequest h "/api/auth/login" (str email password))
    = Ok {| auth_ok := false; auth_json := Ok data |} ->
  let s' := login h str fetch email password s in
  user s' = user s
  /\ localStorage s' = localStorage s
  /\ pushed s' = pushed s
  /\ isLoading s' = false
  /\ toasts s' = toasts s ++ [(error, orElse (data_error data) "Login failed")].
Proof.
  intros Hcall s'. subst s'. unfold login, authenticate. rewrite Hcall.
  cbn [bindResult auth_json auth_ok negb]. repeat split.
Qed.

Lemma refused_login_changes_nothing_witness :
  let s := {| user := None; isLoading := false;
              localStorage := Some {[ "csrf_token" := "old" ]};
              toasts := []; pushed := [] |} in
  let s' := login (fixedOffsetHost 0) (fun e p => e +:+ ":" +:+ p)
              (fun _ => Ok {| auth_ok := false;
                              auth_json := Ok {| data_error := Some "Invalid credentials";
                                                 data_csrfToken := Some "new" |} |})
              "a@b.c" "password" s in
  user s' = user s
  /\ localStorage s' = localStorage s
  /\ pushed s' = pushed s
  /\ isLoading s' = false
  /\ toasts s' = toasts s ++ [(error, "Invalid credentials")].
Proof.
  intros s.
  apply (refused_login_changes_nothing (fixedOffsetHost 0) (fun e p => e +:+ ":" +:+ p)
           (fun _ => Ok {| auth_ok := false;
                           auth_json := Ok {| data_error := Some "Invalid credentials";
                                              data_csrfToken := Some "new" |} |})
           "a@b.c" "password"
           {| data_error := Some "Invalid credentials"; data_csrfToken := Some "new" |} s).
  reflexivity.
Defined.

(** X27. The route guard follows the session: it leaves a visitor who
    has a user where they are, and after a logout it sends every path
    other than the login and signup pages to the login page. *)
Theorem guard_follows_session (h : Host) (fetch : AuthTransport) (s : State)
    (pathname email : string) :
  (user s = Some email -> guard pathname s = s)
  /\ (pathname <> "/login" -> pathname <> "/signup" ->
      pushed (guard pathname (logout h fetch s)) = pushed s ++ ["/login"; "/login"])
  /\ (pathname = "/login" \/ pathname = "/signup" ->
      guard pathname (logout h fetch s) = logout h fetch s).
Proof.
  split; [ | split ].
  - intros Hu. unfold guard. rewrite Hu. cbn [Analytics.isDefined negb].
    now rewrite andb_false_r.
  - intros Hl Hs. unfold guard, logout, publicRoutes.
    cbn [isLoading user Analytics.isDefined negb andb existsb pushed].
    apply String.eqb_neq in Hl, Hs. rewrite Hl, Hs. cbn [orb negb pushed].
    now rewrite <- app_assoc.
  - intros Hp. unfold guard, publicRoutes. cbn [existsb].
    destruct Hp as [ -> | -> ]; cbn [String.eqb Ascii.eqb Bool.eqb orb negb];
      now rewrite andb_false_r.
Qed.

Lemma guard_follows_session_witness :
  pushed (guard "/analytics"
            (logout (fixedOffsetHost 0) (fun _ => Throw "Failed to fetch")
               {| user := Some "a@b.c"; isLoading := false;
                  localStorage := Some {[ "csrf_token" := "t0k3n" ]};
                  toasts := []; pushed := ["/"] |}))
  = ["/"] ++ ["/login"; "/login"].
Proof.
  apply (proj1 (proj2 (guard_follows_session (fixedOffsetHost 0)
           (fun _ => Throw "Failed to fetch")
           {| user := Some "a@b.c"; isLoading := false;
              localStorage := Some {[ "csrf_token" := "t0k3n" ]};
              toasts := []; pushed := ["/"] |} "/analytics" "a@b.c")));
    discriminate.
Defined.

End AuthFacts.

(** ** The type effect of the expense form *)

Module FormEffectFacts.
Import ExpenseForm.

(** The kind of category and payment method a transaction type asks for. *)
Definition wanted (s : FormState) : bool := negb (isIncome (expenseType s)).

(** A selection is settled: nothing is selected, or the selected id is
    that of an entry of the wanted kind. *)
Definition settledChoice (s : FormState) (all : list Choice) (selected : string) : Prop :=
  selected = ""
  \/ exists c, In c all /\ id c = selected /\ is_expense c = wanted s.

Lemma existsb_filter_choice (all : list Choice) (target : bool) (sel : string) :
  existsb (fun c => String.eqb (id c) sel)
          (List.filter (fun c => Bool.eqb (is_expense c) target) all) = true ->
  exists c, In c all /\ id c = sel /\ is_expense c = target.
Proof.
  intros Hex. apply existsb_exists in Hex. destruct Hex as (c & Hin & Hid).
  apply List.filter_In in Hin. destruct Hin as [Hin Hkind].
  exists c. split; [ exact Hin | ].
  split; [ now apply String.eqb_eq | now apply Bool.eqb_prop ].
Qed.

Lemma keep_or_clear (valid : list Choice -> string -> bool) (l : list Choice)
    (sel : string) :
  let sel' := if negb (valid l sel) then "" else sel in
  (if negb (valid l sel') then "" else sel') = sel'.
Proof.
  cbv zeta. destruct (valid l sel) eqn:Hv; cbn [negb].
  - now rewrite Hv.
  - destruct (valid l ""); reflexivity.
Qed.

(** X23. The effect that follows the transaction type reaches its fixed
    point in one run (running it again changes nothing); after it, each
    selection is empty or the id of an entry of the kind the type asks for,
    and both filtered lists hold only entries of that kind. *)
Theorem filter_effect_settles (s : FormState) :
  let s' := filterEffect s in
  filterEffect s' = s'
  /\ settledChoice s (categories s) (category_id s')
  /\ settledChoice s (paymentMethods s) (payment_method_id s')
  /\ Forall (fun c => is_expense c = wanted s) (filteredCategories s')
  /\ Forall (fun pm => is_expense pm = wanted s) (filteredPaymentMethods s').
Proof.
  cbv zeta. split; [ | split; [ | split; [ | split ] ] ].
  - unfold filterEffect.
    cbn [categories paymentMethods expenseType category_id payment_method_id].
    f_equal.
    + apply (keep_or_clear
               (fun l sel => existsb (fun c => String.eqb (id c) sel) l)).
    + apply (keep_or_clear
               (fun l sel => existsb (fun c => String.eqb (id c) sel) l)).
  - unfold filterEffect, settledChoice. cbn [category_id].
    destruct (existsb _ _) eqn:Hex; cbn [negb]; [ right | now left ].
    now apply existsb_filter_choice in Hex.
  - unfold filterEffect, settledChoice. cbn [payment_method_id].
    destruct (existsb _ _) eqn:Hex; cbn [negb]; [ right | now left ].
    now apply existsb_filter_choice in Hex.
  - unfold filterEffect. cbn [filteredCategories]. apply List.Forall_forall.
    intros c Hc. apply List.filter_In in Hc. now apply Bool.eqb_prop.
  - unfold filterEffect. cbn [filteredPaymentMethods]. apply List.Forall_forall.
    intros c Hc. apply List.filter_In in Hc. now apply Bool.eqb_prop.
Qed.

End FormEffectFacts.

(** ** Expenses the charts leave out *)

Module ChartFacts.
Import Analytics AggregationFacts.

Section Uncounted.
Context {num : Type} `{JSNumberLaws num}.

Lemma spendAmount_uncounted (e : Expense num) :
  isSpendingType (type e) = false -> spendAmount e = None.
Proof.
  intros Ht. unfold spendAmount.
  destruct (amount e); [ | reflexivity ].
  destruct (type e) as [ [] | ]; try reflexivity; discriminate.
Qed.

Lemma addToDay_uncounted (m : list (string * num)) (e : Expense num) :
  isSpendingType (type e) = false -> addToDay m e = m.
Proof.
  intros Ht. unfold addToDay, countsForTrend.
  destruct (amount e); [ | reflexivity ].
  destruct (_ || _); [ reflexivity | ]. now rewrite Ht.
Qed.

(** X24. An expense whose type is not Need or Want (income, an investment,
    a type the page does not know) changes neither chart, wherever it
    stands among the expenses and even when it is the only one. *)
Theorem other_types_leave_the_charts (h : Host) (es1 es2 : list (Expense num))
    (e : Expense num) (cs : list Category) :
  isSpendingType (type e) = false ->
  categorySpendingData (es1 ++ e :: es2) cs = categorySpendingData (es1 ++ es2) cs
  /\ spendingTrendData h (es1 ++ e :: es2) = spendingTrendData h (es1 ++ es2).
Proof.
  intros Ht. split.
  - rewrite !categorySpendingData_eq. do 2 f_equal. unfold categoryTotals.
    apply List.map_ext. intros kv. f_equal.
    unfold categoryTotal, categoryAmounts.
    rewrite !flat_map_app. cbn [flat_map].
    now rewrite (spendAmount_uncounted e Ht).
  - rewrite !spendingTrendData_eq. do 2 f_equal. unfold dailySpendingMap.
    rewrite !fold_left_app. cbn [fold_left].
    now rewrite (addToDay_uncounted _ e Ht).
Qed.

End Uncounted.

Lemma other_types_leave_the_charts_witness :
  categorySpendingData
    ([anExpense "c1" 100 Need "2024-01-02T08:00:00.000Z"]
     ++ anExpense "c1" 50 Income "2024-01-02T09:00:00.000Z"
     :: [anExpense "c1" 25 Want "2024-01-01T19:30:00.000Z"]) foodCategories
  = categorySpendingData
      ([anExpense "c1" 100 Need "2024-01-02T08:00:00.000Z"]
       ++ [anExpense "c1" 25 Want "2024-01-01T19:30:00.000Z"]) foodCategories.
Proof.
  apply (other_types_leave_the_charts (num := Z) (fixedOffsetHost 0)
           [anExpense "c1" 100 Need "2024-01-02T08:00:00.000Z"]
           [anExpense "c1" 25 Want "2024-01-01T19:30:00.000Z"]
           (anExpense "c1" 50 Income "2024-01-02T09:00:00.000Z") foodCategories).
  reflexivity.
Defined.

End ChartFacts.

(** ** The footer of the expense list *)

Module FooterFacts.
Import ExpensesListFooter.

Lemma within_pages (cur total size : Z) :
  0 < size -> cur <= totalPages total size -> (cur - 1) * size < total.
Proof.
  intros Hs Hc. unfold totalPages, CategoriesPage.ceilDiv in Hc.
  pose proof (Z.mul_div_le (- total) size Hs) as Hq.
  pose proof (Z.mul_succ_div_gt (- total) size Hs) as Hq'.
  nia.
Qed.

(** X25. On a page between 1 and the last one that shows the rows the
    listing has for it, ``Showing X - Y of N'' names exactly these rows: X
    is the number of the first row, Y that of the last, Y is at most N, and
    Y - X + 1 is the number of rows shown. *)
Theorem showing_names_the_rows (shown : nat) (cur size total : Z) :
  0 < size -> 1 <= cur <= totalPages total size ->
  Z.of_nat shown = Z.min size (total - (cur - 1) * size) ->
  let X := showingFrom shown cur size in
  let Y := showingTo cur size total in
  X = (cur - 1) * size + 1
  /\ 1 <= X <= Y /\ Y <= total
  /\ Y - X + 1 = Z.of_nat shown.
Proof.
  intros Hs Hc Hshown X Y. subst X Y.
  pose proof (within_pages cur total size Hs (proj2 Hc)) as Hin.
  unfold showingFrom, showingTo. rewrite Z.gtb_ltb.
  destruct (Z.ltb_spec 0 (Z.of_nat shown)); nia.
Qed.

Lemma showing_names_the_rows_witness :
  let X := showingFrom 3 3 10 in
  let Y := showingTo 3 10 23 in
  X = (3 - 1) * 10 + 1 /\ 1 <= X <= Y /\ Y <= 23 /\ Y - X + 1 = Z.of_nat 3.
Proof.
  apply (showing_names_the_rows 3 3 10 23).
  - lia.
  - vm_compute. split; intros [=].
  - reflexivity.
Defined.

End FooterFacts.
